(** * ZSnapr: the region selector with integrated drawing tools

    A shallow embedding of [modules/region_selector_with_drawing.py]:
    the classes [DrawingItem] and [RegionSelectorWithDrawing].

    - Qt value types ([QPoint], [QSize], [QRect]) are records over [Z] with
      the coordinate conventions of Qt 6: a rectangle stores its two corner
      pixels, so [right = left + width - 1].  Screen coordinates are far
      from the limits of a 32-bit [int]; no wrap-around is modelled.
    - Python objects of class [DrawingItem] live in an object store
      ([heap]); the widget's lists hold references, so that [in], [remove]
      and [==] are by identity, as for a class without [__eq__].
    - Every event handler is a function from widget state to widget state.
      Values measured by the window system (the clock, font metrics, the
      clipboard) are arguments of the event.
    - Painting is recorded as the list of painter calls.
    - Python [str] is modelled by [string]; text is restricted to the
      characters of [ascii]. *)

From Stdlib Require Import ZArith Lia Ascii String.
From stdpp Require Import base list strings.

Open Scope Z_scope.

(** ** Qt value types *)

Record QPoint := mkQPoint { qx : Z; qy : Z }.
Record QSize := mkQSize { size_w : Z; size_h : Z }.

(** [QRect] keeps the left/top and right/bottom pixel, both inclusive. *)
Record QRect := mkQRect { rx1 : Z; ry1 : Z; rx2 : Z; ry2 : Z }.

Module QPoint.

(** [QPoint()] *)
Definition null : QPoint := mkQPoint 0 0.
Definition isNull (p : QPoint) : bool := (qx p =? 0) && (qy p =? 0).
(** [p + q] and [p - q] *)
Definition add (p q : QPoint) : QPoint := mkQPoint (qx p + qx q) (qy p + qy q).
Definition sub (p q : QPoint) : QPoint := mkQPoint (qx p - qx q) (qy p - qy q).
Definition manhattanLength (p : QPoint) : Z := Z.abs (qx p) + Z.abs (qy p).

End QPoint.

Module QRect.

(** [QRect()] *)
Definition null : QRect := mkQRect 0 0 (-1) (-1).
(** [QRect(x, y, w, h)] *)
Definition xywh (x y w h : Z) : QRect := mkQRect x y (x + w - 1) (y + h - 1).
(** [QRect(topLeft, bottomRight)] *)
Definition pts (p q : QPoint) : QRect := mkQRect (qx p) (qy p) (qx q) (qy q).
(** [QRect(topLeft, size)] *)
Definition pt_size (p : QPoint) (sz : QSize) : QRect :=
  mkQRect (qx p) (qy p) (qx p + size_w sz - 1) (qy p + size_h sz - 1).

Definition left (r : QRect) : Z := rx1 r.
Definition top (r : QRect) : Z := ry1 r.
Definition right (r : QRect) : Z := rx2 r.
Definition bottom (r : QRect) : Z := ry2 r.
Definition x (r : QRect) : Z := rx1 r.
Definition y (r : QRect) : Z := ry1 r.
Definition width (r : QRect) : Z := rx2 r - rx1 r + 1.
Definition height (r : QRect) : Z := ry2 r - ry1 r + 1.
Definition size (r : QRect) : QSize := mkQSize (width r) (height r).
Definition topLeft (r : QRect) : QPoint := mkQPoint (rx1 r) (ry1 r).
Definition bottomRight (r : QRect) : QPoint := mkQPoint (rx2 r) (ry2 r).
(** [center()] divides as C++ does, towards zero. *)
Definition center (r : QRect) : QPoint :=
  mkQPoint (Z.quot (rx1 r + rx2 r) 2) (Z.quot (ry1 r + ry2 r) 2).
Definition isEmpty (r : QRect) : bool := (rx2 r <? rx1 r) || (ry2 r <? ry1 r).

Definition moveLeft (p : Z) (r : QRect) : QRect :=
  mkQRect p (ry1 r) (rx2 r + (p - rx1 r)) (ry2 r).
Definition moveTop (p : Z) (r : QRect) : QRect :=
  mkQRect (rx1 r) p (rx2 r) (ry2 r + (p - ry1 r)).
Definition moveRight (p : Z) (r : QRect) : QRect :=
  mkQRect (rx1 r + (p - rx2 r)) (ry1 r) p (ry2 r).
Definition moveBottom (p : Z) (r : QRect) : QRect :=
  mkQRect (rx1 r) (ry1 r + (p - ry2 r)) (rx2 r) p.

Definition setLeft (v : Z) (r : QRect) : QRect := mkQRect v (ry1 r) (rx2 r) (ry2 r).
Definition setTop (v : Z) (r : QRect) : QRect := mkQRect (rx1 r) v (rx2 r) (ry2 r).
Definition setRight (v : Z) (r : QRect) : QRect := mkQRect (rx1 r) (ry1 r) v (ry2 r).
Definition setBottom (v : Z) (r : QRect) : QRect := mkQRect (rx1 r) (ry1 r) (rx2 r) v.
Definition setWidth (w : Z) (r : QRect) : QRect :=
  mkQRect (rx1 r) (ry1 r) (rx1 r + w - 1) (ry2 r).
Definition setHeight (h : Z) (r : QRect) : QRect :=
  mkQRect (rx1 r) (ry1 r) (rx2 r) (ry1 r + h - 1).
Definition setTopLeft (p : QPoint) (r : QRect) : QRect := mkQRect (qx p) (qy p) (rx2 r) (ry2 r).
Definition setTopRight (p : QPoint) (r : QRect) : QRect := mkQRect (rx1 r) (qy p) (qx p) (ry2 r).
Definition setBottomLeft (p : QPoint) (r : QRect) : QRect := mkQRect (qx p) (ry1 r) (rx2 r) (qy p).
Definition setBottomRight (p : QPoint) (r : QRect) : QRect := mkQRect (rx1 r) (ry1 r) (qx p) (qy p).

Definition adjusted (dx1 dy1 dx2 dy2 : Z) (r : QRect) : QRect :=
  mkQRect (rx1 r + dx1) (ry1 r + dy1) (rx2 r + dx2) (ry2 r + dy2).

(** [normalized()]: a rectangle of negative width or height has its corners
    swapped, and the swapped corners are turned back into inclusive ones. *)
Definition normalized (r : QRect) : QRect :=
  let '(a1, a2) := if rx2 r <? rx1 r - 1 then (rx2 r + 1, rx1 r - 1) else (rx1 r, rx2 r) in
  let '(b1, b2) := if ry2 r <? ry1 r - 1 then (ry2 r + 1, ry1 r - 1) else (ry1 r, ry2 r) in
  mkQRect a1 b1 a2 b2.

(** [contains(point)]: edges included. *)
Definition contains (r : QRect) (p : QPoint) : bool :=
  let n := normalized r in
  negb ((qx p <? rx1 n) || (rx2 n <? qx p)) &&
  negb ((qy p <? ry1 n) || (ry2 n <? qy p)).

End QRect.

(** ** Python list and string operations used by the widget *)

Module Py.

(** [x in l] *)
Definition py_in (x : nat) (l : list nat) : bool := bool_decide (x ∈ l).

(** [l.remove(x)]: drops the first occurrence; the callers test [x in l]
    first, so the [ValueError] of an absent element never arises and an
    absent element leaves the list as it is. *)
Fixpoint py_remove (x : nat) (l : list nat) : list nat :=
  match l with
  | [] => []
  | y :: l' => if decide (x = y) then l' else y :: py_remove x l'
  end.

(** [l.append(x)] *)
Definition py_append {A} (x : A) (l : list A) : list A := l ++ [x].

(** [l.pop()] on a non-empty list: the last element and the rest. *)
Definition py_pop {A} (l : list A) : option (A * list A) :=
  match last l with
  | Some x => Some (x, removelast l)
  | None => None
  end.

(** [l[-1] = v] on a non-empty list *)
Definition py_set_last {A} (v : A) (l : list A) : list A :=
  <[Nat.pred (length l) := v]> l.

(** [s[:n]] and [s[n:]] for [0 <= n] *)
Definition str_take (n : nat) (s : string) : string := substring 0 n s.
Definition str_drop (n : nat) (s : string) : string :=
  substring n (String.length s - n) s.
(** [s[a:b]] for [0 <= a], [0 <= b] *)
Definition str_slice (a b : nat) (s : string) : string :=
  substring a (Nat.min b (String.length s) - a) s.

(** [sub in s] *)
Definition str_in (sub s : string) : bool :=
  match index 0 sub s with Some _ => true | None => false end.

(** Whitespace as [str.strip()] and [str.isspace()] see it, on ASCII. *)
Definition py_isspace (c : ascii) : bool :=
  let n := nat_of_ascii c in
  ((9 <=? n) && (n <=? 13) || (28 <=? n) && (n <=? 32))%nat.

Fixpoint lstrip (s : string) : string :=
  match s with
  | EmptyString => EmptyString
  | String c s' => if py_isspace c then lstrip s' else s
  end.

Fixpoint rstrip (s : string) : string :=
  match s with
  | EmptyString => EmptyString
  | String c s' =>
      match rstrip s' with
      | EmptyString => if py_isspace c then EmptyString else String c EmptyString
      | t => String c t
      end
  end.

(** [s.strip()] *)
Definition strip (s : string) : string := rstrip (lstrip s).

(** Truth value of a string: non-empty. *)
Definition truthy (s : string) : bool :=
  match s with EmptyString => false | _ => true end.

(** [s.isprintable()] on ASCII: every character is in [0x20 .. 0x7e]. *)
Fixpoint isprintable (s : string) : bool :=
  match s with
  | EmptyString => true
  | String c s' =>
      let n := nat_of_ascii c in
      (32 <=? n)%nat && (n <=? 126)%nat && isprintable s'
  end.

End Py.
Export Py.

(** ** Geometry of the selection rectangle *)

(** Instance attributes set once in [__init__]. *)
Definition HANDLE_SIZE : Z := 10.
Definition HANDLE_MARGIN : Z := 5.
Definition MIN_SELECTION_SIZE : Z := 20.

(** Keys of the dictionary [_get_resize_handles] builds. *)
Inductive Handle :=
  | HTopLeft | HTopRight | HBottomLeft | HBottomRight
  | HTop | HBottom | HLeft | HRight.

#[global] Instance Handle_eq_dec : EqDecision Handle.
Proof. solve_decision. Defined.

Definition handle_name (h : Handle) : string :=
  match h with
  | HTopLeft => "top_left" | HTopRight => "top_right"
  | HBottomLeft => "bottom_left" | HBottomRight => "bottom_right"
  | HTop => "top" | HBottom => "bottom" | HLeft => "left" | HRight => "right"
  end.

(** [_get_resize_handles]: the dictionary in insertion order. *)
Definition _get_resize_handles (selection_rect : QRect) : list (Handle * QRect) :=
  if QRect.isEmpty selection_rect then []
  else
    let margin := HANDLE_MARGIN in
    let size := HANDLE_SIZE in
    let rect := selection_rect in
    [ (HTopLeft, QRect.xywh (QRect.left rect - margin) (QRect.top rect - margin) size size);
      (HTopRight, QRect.xywh (QRect.right rect - size + margin) (QRect.top rect - margin) size size);
      (HBottomLeft, QRect.xywh (QRect.left rect - margin) (QRect.bottom rect - size + margin) size size);
      (HBottomRight, QRect.xywh (QRect.right rect - size + margin) (QRect.bottom rect - size + margin) size size);
      (HTop, QRect.xywh (qx (QRect.center rect) - size / 2) (QRect.top rect - margin) size size);
      (HBottom, QRect.xywh (qx (QRect.center rect) - size / 2) (QRect.bottom rect - size + margin) size size);
      (HLeft, QRect.xywh (QRect.left rect - margin) (qy (QRect.center rect) - size / 2) size size);
      (HRight, QRect.xywh (QRect.right rect - size + margin) (qy (QRect.center rect) - size / 2) size size) ].

(** [_constrain_to_screen], reading [self.screen_rect]; its three blocks
    are named after their comments. *)
Definition constrain_position (screen_rect : QRect) (constrained : QRect) : QRect :=
  let constrained :=
    if QRect.left constrained <? 0 then QRect.moveLeft 0 constrained else constrained in
  let constrained :=
    if QRect.top constrained <? 0 then QRect.moveTop 0 constrained else constrained in
  let constrained :=
    if QRect.width screen_rect <? QRect.right constrained
    then QRect.moveRight (QRect.width screen_rect) constrained else constrained in
  let constrained :=
    if QRect.height screen_rect <? QRect.bottom constrained
    then QRect.moveBottom (QRect.height screen_rect) constrained else constrained in
  constrained.

Definition ensure_minimum_size (constrained : QRect) : QRect :=
  let constrained :=
    if QRect.width constrained <? MIN_SELECTION_SIZE
    then QRect.setWidth MIN_SELECTION_SIZE constrained else constrained in
  let constrained :=
    if QRect.height constrained <? MIN_SELECTION_SIZE
    then QRect.setHeight MIN_SELECTION_SIZE constrained else constrained in
  constrained.

Definition final_boundary_check (screen_rect : QRect) (constrained : QRect) : QRect :=
  let constrained :=
    if QRect.width screen_rect <? QRect.right constrained
    then QRect.moveLeft (QRect.width screen_rect - QRect.width constrained) constrained
    else constrained in
  let constrained :=
    if QRect.height screen_rect <? QRect.bottom constrained
    then QRect.moveTop (QRect.height screen_rect - QRect.height constrained) constrained
    else constrained in
  constrained.

Definition _constrain_to_screen (screen_rect : QRect) (rect : QRect) : QRect :=
  let constrained := rect in
  let constrained := constrain_position screen_rect constrained in
  let constrained := ensure_minimum_size constrained in
  let constrained := final_boundary_check screen_rect constrained in
  constrained.

(** The body of [_resize_selection] for a handle that is set: the
    rectangle it assigns to [self.selection_rect]. *)
Definition resize_rect (screen_rect selection_rect : QRect) (h : Handle) (pos : QPoint) : QRect :=
  let rect := selection_rect in
  let rect := if str_in "left" (handle_name h) then QRect.setLeft (qx pos) rect else rect in
  let rect := if str_in "right" (handle_name h) then QRect.setRight (qx pos) rect else rect in
  let rect := if str_in "top" (handle_name h) then QRect.setTop (qy pos) rect else rect in
  let rect := if str_in "bottom" (handle_name h) then QRect.setBottom (qy pos) rect else rect in
  _constrain_to_screen screen_rect (QRect.normalized rect).

Example resize_left_edge :
  resize_rect (QRect.xywh 0 0 800 600) (QRect.xywh 700 100 90 50) HLeft (mkQPoint 781 124)
  = QRect.xywh 781 100 20 50.
Proof. reflexivity. Qed.

(** ** Drawing items *)

(** The tool identifiers of the toolbar: ["select"], ["pen"], ... *)
Inductive Tool := T_select | T_pen | T_rectangle | T_circle | T_arrow | T_text.

#[global] Instance Tool_eq_dec : EqDecision Tool.
Proof. solve_decision. Defined.

(** [text_size_mode]: ["auto"] or ["custom"]. *)
Inductive SizeMode := M_auto | M_custom.

#[global] Instance SizeMode_eq_dec : EqDecision SizeMode.
Proof. solve_decision. Defined.

(** A colour is its four channels; the value [QColor.lightness()] returns,
    which Qt derives from them in floating point, is carried along. *)
Record QColor := mkQColor { red : Z; green : Z; blue : Z; alpha : Z; lightness : Z }.

Definition QColor_black : QColor := mkQColor 0 0 0 255 0.
Definition QColor_white : QColor := mkQColor 255 255 255 255 255.
(** [QColor(103, 80, 164)], the colour of the corner handles. *)
Definition QColor_handle : QColor := mkQColor 103 80 164 255 122.
(** [QColor(255, 0, 0)], the default drawing colour. *)
Definition QColor_red : QColor := mkQColor 255 0 0 255 127.

Record DrawingItem := mkDrawingItem {
  tool_type : Tool;
  color : QColor;
  width : Z;
  points : list QPoint;
  text_content : string;
  text_size_mode : SizeMode;
  custom_font_size : Z;
  was_manually_resized : bool;
  initial_font_size : Z
}.

(** [DrawingItem.__init__] *)
Definition DrawingItem_init (tool : Tool) (c : QColor) (w : Z) : DrawingItem :=
  {| tool_type := tool; color := c; width := w; points := [];
     text_content := ""; text_size_mode := M_auto; custom_font_size := 14;
     was_manually_resized := false;
     initial_font_size := if 0 <? w then w else 14 |}.

Definition set_points (ps : list QPoint) (it : DrawingItem) : DrawingItem :=
  {| tool_type := tool_type it; color := color it; width := width it; points := ps;
     text_content := text_content it; text_size_mode := text_size_mode it;
     custom_font_size := custom_font_size it;
     was_manually_resized := was_manually_resized it;
     initial_font_size := initial_font_size it |}.

Definition set_text_content (t : string) (it : DrawingItem) : DrawingItem :=
  {| tool_type := tool_type it; color := color it; width := width it; points := points it;
     text_content := t; text_size_mode := text_size_mode it;
     custom_font_size := custom_font_size it;
     was_manually_resized := was_manually_resized it;
     initial_font_size := initial_font_size it |}.

Definition set_width (w : Z) (it : DrawingItem) : DrawingItem :=
  {| tool_type := tool_type it; color := color it; width := w; points := points it;
     text_content := text_content it; text_size_mode := text_size_mode it;
     custom_font_size := custom_font_size it;
     was_manually_resized := was_manually_resized it;
     initial_font_size := initial_font_size it |}.

Definition set_was_manually_resized (b : bool) (it : DrawingItem) : DrawingItem :=
  {| tool_type := tool_type it; color := color it; width := width it; points := points it;
     text_content := text_content it; text_size_mode := text_size_mode it;
     custom_font_size := custom_font_size it;
     was_manually_resized := b;
     initial_font_size := initial_font_size it |}.

(** [text_size_mode = 'custom'; custom_font_size = n] *)
Definition set_custom_size (n : Z) (it : DrawingItem) : DrawingItem :=
  {| tool_type := tool_type it; color := color it; width := width it; points := points it;
     text_content := text_content it; text_size_mode := M_custom;
     custom_font_size := n;
     was_manually_resized := was_manually_resized it;
     initial_font_size := initial_font_size it |}.

(** [DrawingItem.add_point] *)
Definition add_point (p : QPoint) (it : DrawingItem) : DrawingItem :=
  set_points (py_append p (points it)) it.

(** [points[0]] and [points[-1]]; the callers check the length first. *)
Definition first_point (it : DrawingItem) : QPoint := default QPoint.null (head (points it)).
Definition last_point (it : DrawingItem) : QPoint := default QPoint.null (last (points it)).

(** [QRect(item.points[0], item.points[-1]).normalized()] *)
Definition item_rect (it : DrawingItem) : QRect :=
  QRect.normalized (QRect.pts (first_point it) (last_point it)).

(** [points[0] = r.topLeft(); points[-1] = r.bottomRight()] *)
Definition set_corners (r : QRect) (it : DrawingItem) : DrawingItem :=
  set_points (py_set_last (QRect.bottomRight r) (<[0%nat := QRect.topLeft r]> (points it))) it.

(** ** The painter *)

(** [Qt.PenStyle]; [NoPen] is the style of what is painted without an
    outline, as [fillRect] does. *)
Inductive PenStyle := SolidLine | DashLine | NoPen.

(** [QPen(color, width, style, cap, join)]; [round] tells the round cap and
    join of the outline pen from the defaults of [QPen(color, width)]. *)
Record QPen := mkQPen { pen_color : QColor; pen_width : Z; pen_style : PenStyle; pen_round : bool }.

(** [QBrush(Qt.GlobalColor.transparent)] and [Qt.BrushStyle.NoBrush] *)
Inductive QBrush := BrushTransparent | NoBrush.

Record QFont := mkQFont { family : string; point_size : Z; bold : bool }.

(** The calls [DrawingItem.draw] makes on its painter.  The two lines of an
    arrowhead end in points computed with [atan2], [cos] and [sin]; they are
    recorded as one call that names the arrow's end points. *)
Inductive PaintCall :=
  | setPen (p : QPen)
  | setBrush (b : QBrush)
  | drawLine (a b : QPoint)
  | drawRect (r : QRect)
  | drawEllipse (r : QRect)
  | drawArrowhead (a b : QPoint)
  | save
  | restore
  | setFont (f : QFont)
  | drawText_wordwrap (r : QRect) (t : string)
  | fillRect (r : QRect) (c : QColor).

(** What the branch of [draw] for the item under edit reads: attributes of
    the overlay widget, which is then [painter.device()], and measures of
    the font in force. *)
Record EditView := mkEditView {
  view_screen_rect : QRect;
  view_text_input_buffer : string;
  view_cursor_position : nat;
  view_text_selection_start : nat;
  view_text_selection_end : nat;
  view_preedit_text : string;
  view_preedit_cursor_pos : nat;
  (** the size of [QFontMetrics(font).boundingRect(display_text)] *)
  view_text_bounds : QSize;
  (** [painter.fontMetrics().averageCharWidth()] and [.height()] *)
  view_char_width : Z;
  view_char_height : Z
}.

(** What the painter draws on, as [draw] tells it apart: the pixmap of the
    exported composite, which has no attribute [inline_editing]; the
    overlay widget, for an item that is not the one being edited; the
    overlay widget while this very item is edited ([inline_editing] holds
    and [editing_text_item] is the item). *)
Inductive Device := Pixmap | Overlay | Editing (v : EditView).

Definition has_inline_editing (d : Device) : bool :=
  match d with Pixmap => false | Overlay => true | Editing _ => true end.

(** [QColor(0, 120, 215, 100)], the highlight of the selected text. *)
Definition QColor_selection : QColor := mkQColor 0 120 215 100 107.

(** What [_auto_expand_text_box], which [draw] calls on the item under
    edit, makes of that item on a screen [screen_rect]; [bounds] is the
    size of [QFontMetrics(font).boundingRect(text)]. *)
Definition auto_expand_item (screen_rect : QRect) (bounds : QSize) (text : string)
    (text_item : DrawingItem) : DrawingItem :=
  if negb (truthy text) || (length (points text_item) <? 2)%nat then text_item
  else
    let required_width := size_w bounds + 20 in
    let required_height := size_h bounds + 20 in
    let current_rect := item_rect text_item in
    let new_rect := current_rect in
    let expand_w := QRect.width current_rect <? required_width in
    let new_rect := if expand_w then QRect.setWidth required_width new_rect else new_rect in
    let expand_h := QRect.height current_rect <? required_height in
    let new_rect := if expand_h then QRect.setHeight required_height new_rect else new_rect in
    if expand_w || expand_h then
      let constrained_rect := _constrain_to_screen screen_rect new_rect in
      set_points
        (<[1%nat := QRect.bottomRight constrained_rect]>
           (<[0%nat := QRect.topLeft constrained_rect]>
              (<[1%nat := QRect.bottomRight new_rect]> (points text_item)))) text_item
    else text_item.

(** [for i in range(1, len(points)): drawLine(points[i-1], points[i])] *)
Fixpoint polyline (ps : list QPoint) : list PaintCall :=
  match ps with
  | a :: (b :: _) as rest => drawLine a b :: polyline rest
  | _ => []
  end.

(** The font size of a text item in a box of height [h]; [int(h * 0.5)] and
    [int(h * 0.4)] are written with integer division, which they equal for
    every [h >= 0] a screen can hold. *)
Definition text_font_size (it : DrawingItem) (h : Z) : Z :=
  match text_size_mode it with
  | M_custom => custom_font_size it
  | M_auto =>
      if was_manually_resized it then Z.max 8 (h / 2)
      else Z.max 10 (Z.min 36 (h * 4 / 10))
  end.

Definition text_pen_color (c : QColor) : QColor :=
  if 240 <? lightness c then QColor_black
  else if lightness c <? 40 then QColor_white
  else c.

(** [DrawingItem.draw] *)
Definition draw (dev : Device) (it : DrawingItem) : list PaintCall :=
  let n := length (points it) in
  [ setPen (mkQPen (color it) (width it) SolidLine true);
    setBrush BrushTransparent ] ++
  match tool_type it with
  | T_pen => if (1 <? n)%nat then polyline (points it) else []
  | T_rectangle => if (2 <=? n)%nat then [drawRect (item_rect it)] else []
  | T_circle => if (2 <=? n)%nat then [drawEllipse (item_rect it)] else []
  | T_arrow =>
      if (2 <=? n)%nat then
        [ drawLine (first_point it) (last_point it);
          drawArrowhead (first_point it) (last_point it) ]
      else []
  | T_text =>
      if (1 <=? n)%nat then
        let box :=
          if (2 <=? n)%nat then
            let rect := item_rect it in
            let hs := 6 in
            [ setPen (mkQPen (color it) 1 DashLine false);
              setBrush NoBrush;
              drawRect rect;
              setBrush NoBrush;
              setPen (mkQPen QColor_handle 1 SolidLine false);
              drawEllipse (QRect.xywh (QRect.left rect - hs / 2) (QRect.top rect - hs / 2) hs hs);
              drawEllipse (QRect.xywh (QRect.right rect - hs / 2) (QRect.top rect - hs / 2) hs hs);
              drawEllipse (QRect.xywh (QRect.left rect - hs / 2) (QRect.bottom rect - hs / 2) hs hs);
              drawEllipse (QRect.xywh (QRect.right rect - hs / 2) (QRect.bottom rect - hs / 2) hs hs) ]
          else [] in
        let body :=
          if truthy (text_content it) || has_inline_editing dev then
            let rect :=
              if (2 <=? n)%nat then item_rect it
              else QRect.adjusted 0 0 (Z.max 40 (width it * 8)) (Z.max 24 (width it * 6))
                     (QRect.pts (first_point it) (first_point it)) in
            let h := Z.max 20 (QRect.height rect) in
            let size := text_font_size it h in
            let text_color := text_pen_color (color it) in
            let text_rect := QRect.adjusted 6 6 (-6) (-6) rect in
            [ save;
              setFont (mkQFont "Microsoft YaHei" size true);
              setPen (mkQPen text_color 1 SolidLine false) ] ++
            match dev with
            | Editing v =>
                let display_text := view_text_input_buffer v in
                let rect :=
                  item_rect (auto_expand_item (view_screen_rect v) (view_text_bounds v)
                               display_text it) in
                let text_rect := QRect.adjusted 6 6 (-6) (-6) rect in
                let highlight :=
                  if negb (bool_decide (view_text_selection_start v = view_text_selection_end v))
                  then
                    let start_sel :=
                      Nat.min (view_text_selection_start v) (view_text_selection_end v) in
                    let end_sel :=
                      Nat.max (view_text_selection_start v) (view_text_selection_end v) in
                    let char_width := view_char_width v in
                    let char_height := view_char_height v in
                    let sel_start_x := QRect.left text_rect + Z.of_nat start_sel * char_width in
                    let sel_width := (Z.of_nat end_sel - Z.of_nat start_sel) * char_width in
                    [ fillRect (QRect.xywh sel_start_x (QRect.top text_rect) sel_width char_height)
                        QColor_selection ]
                  else [] in
                let cursor_pos := view_cursor_position v in
                let display_text :=
                  if (cursor_pos <=? String.length display_text)%nat
                  then str_take cursor_pos display_text +:+ "|" +:+
                       str_drop cursor_pos display_text
                  else display_text in
                let display_text :=
                  if truthy (view_preedit_text v) then
                    if Z.of_nat cursor_pos <=? Z.of_nat (String.length display_text) - 1 then
                      let base_text := view_text_input_buffer v in
                      let display_text :=
                        str_take cursor_pos base_text +:+ view_preedit_text v +:+
                        str_drop cursor_pos base_text in
                      let cursor_in_preedit := (cursor_pos + view_preedit_cursor_pos v)%nat in
                      str_take cursor_in_preedit display_text +:+ "|" +:+
                      str_drop cursor_in_preedit display_text
                    else display_text
                  else display_text in
                highlight ++
                [ setPen (mkQPen text_color 1 SolidLine false);
                  drawText_wordwrap text_rect display_text ]
            | _ =>
                [ setPen (mkQPen text_color 1 SolidLine false);
                  drawText_wordwrap text_rect (text_content it) ]
            end ++
            [ restore ]
          else [] in
        box ++ body
      else []
  | T_select => []
  end.

(** The painter as a state machine: the pen, brush and font in force, and
    the stack of [save()].  Running a list of calls yields what ends up on
    the device, each shape with the pen and brush it was drawn with. *)
Record PainterState := mkPainterState {
  cur_pen : QPen;
  cur_brush : QBrush;
  cur_font : QFont;
  saved : list (QPen * QBrush * QFont)
}.

(** A fresh [QPainter]: a black one-pixel solid pen and no brush. *)
Definition painter_init : PainterState :=
  mkPainterState (mkQPen QColor_black 1 SolidLine false) NoBrush (mkQFont "" 9 false) [].

Inductive Mark :=
  | MLine (p : QPen) (a b : QPoint)
  | MRect (p : QPen) (b : QBrush) (r : QRect)
  | MEllipse (p : QPen) (b : QBrush) (r : QRect)
  | MArrowhead (p : QPen) (a b : QPoint)
  | MText (p : QPen) (f : QFont) (r : QRect) (t : string)
  | MFill (c : QColor) (r : QRect).

Definition paint_step (st : PainterState) (c : PaintCall) : PainterState * list Mark :=
  match c with
  | setPen p => (mkPainterState p (cur_brush st) (cur_font st) (saved st), [])
  | setBrush b => (mkPainterState (cur_pen st) b (cur_font st) (saved st), [])
  | setFont f => (mkPainterState (cur_pen st) (cur_brush st) f (saved st), [])
  | save =>
      (mkPainterState (cur_pen st) (cur_brush st) (cur_font st)
         ((cur_pen st, cur_brush st, cur_font st) :: saved st), [])
  | restore =>
      match saved st with
      | (p, b, f) :: rest => (mkPainterState p b f rest, [])
      | [] => (st, [])
      end
  | drawLine a b => (st, [MLine (cur_pen st) a b])
  | drawRect r => (st, [MRect (cur_pen st) (cur_brush st) r])
  | drawEllipse r => (st, [MEllipse (cur_pen st) (cur_brush st) r])
  | drawArrowhead a b => (st, [MArrowhead (cur_pen st) a b])
  | drawText_wordwrap r t => (st, [MText (cur_pen st) (cur_font st) r t])
  | fillRect r c => (st, [MFill c r])
  end.

Fixpoint paint (st : PainterState) (cs : list PaintCall) : PainterState * list Mark :=
  match cs with
  | [] => (st, [])
  | c :: cs' =>
      let '(st1, m1) := paint_step st c in
      let '(st2, m2) := paint st1 cs' in
      (st2, m1 ++ m2)
  end.

(** ** The widget state *)

(** A reference to a [DrawingItem] object: its index in the object store. *)
Abbreviation ref := nat (only parsing).

(** The four corner handles of a text box, ["tl"] ... ["br"], and the edge
    handles [mouseMoveEvent] also knows. *)
Inductive TextHandle := tl | tr | bl | br | tm | bm | lm | rm.

#[global] Instance TextHandle_eq_dec : EqDecision TextHandle.
Proof. solve_decision. Defined.

(** The one-shot [QTimer] of the long-press detection.  Its callback calls
    [_on_long_press_detected] on [self.editing_text_item], read when the
    timer fires, or on the item the press found. *)
Inductive TimerTarget := OnEditingItem | OnItem (r : ref).
Record Timer := mkTimer { isActive : bool; timer_target : TimerTarget }.

(** The exported image: the painter calls made on a copy of the screenshot,
    and the rectangle the result is cropped to. *)
Record Composite := mkComposite { composite_calls : list PaintCall; crop : QRect }.

(** [self.result]: [(rect, "copy", png_path)], [(rect, "save")] or
    [(None, "cancel", None)]; the rectangle is [(x, y, width, height)]. *)
Inductive Outcome :=
  | Copy (rect : Z * Z * Z * Z) (png : option Composite)
  | Save (rect : Z * Z * Z * Z)
  | Cancel.

(** The attributes of [RegionSelectorWithDrawing] that its handlers read,
    the system clipboard, and the object store.  The cursor shape, the
    toolbar widgets and the hover highlight are presentation only. *)
#[projections(primitive)]
Record Selector := mkSelector {
  screen_rect : QRect;
  screenshot_pixmap : bool;
  start_point : QPoint;
  end_point : QPoint;
  selecting : bool;
  selection_rect : QRect;
  result : option Outcome;
  closed : bool;
  dragging : bool;
  resizing : bool;
  resize_handle : option Handle;
  drag_offset : QPoint;
  drawing_mode : bool;
  current_tool : Tool;
  drawing_items : list ref;
  current_drawing_item : option ref;
  drawing_color : QColor;
  drawing_width : Z;
  undo_stack : list ref;
  redo_stack : list ref;
  active_text_item : option ref;
  text_dragging : bool;
  text_resizing : bool;
  text_drag_start : QPoint;
  text_resize_handle : option TextHandle;
  inline_editing : bool;
  editing_text_item : option ref;
  text_input_buffer : string;
  cursor_position : nat;
  last_click_time : Z;
  last_click_pos : QPoint;
  preedit_text : string;
  preedit_cursor_pos : nat;
  text_selection_start : nat;
  text_selection_end : nat;
  text_press_timer : option Timer;
  text_press_start_pos : QPoint;
  is_long_pressing : bool;
  text_tool_start_pos : QPoint;
  text_tool_is_dragging : bool;
  clipboard : string;
  heap : list DrawingItem
}.

(** Attribute assignment, [s <| f := v |>]. *)
Class Setter {R T} (proj : R -> T) := setter : T -> R -> R.
Notation "s <| p := v |>" := (@setter _ _ p _ v s)
  (at level 1, left associativity, p at level 9, format "s  <| p  :=  v |>").

#[global] Instance set_screen_rect : Setter screen_rect :=
  fun v s => mkSelector v (screenshot_pixmap s) (start_point s) (end_point s) (selecting s) (selection_rect s) (result s) (closed s) (dragging s) (resizing s) (resize_handle s) (drag_offset s) (drawing_mode s) (current_tool s) (drawing_items s) (current_drawing_item s) (drawing_color s) (drawing_width s) (undo_stack s) (redo_stack s) (active_text_item s) (text_dragging s) (text_resizing s) (text_drag_start s) (text_resize_handle s) (inline_editing s) (editing_text_item s) (text_input_buffer s) (cursor_position s) (last_click_time s) (last_click_pos s) (preedit_text s) (preedit_cursor_pos s) (text_selection_start s) (text_selection_end s) (text_press_timer s) (text_press_start_pos s) (is_long_pressing s) (text_tool_start_pos s) (text_tool_is_dragging s) (clipboard s) (heap s).
#[global] Instance set_screenshot_pixmap : Setter screenshot_pixmap :=
  fun v s => mkSelector (screen_rect s) v (start_point s) (end_point s) (selecting s) (selection_rect s) (result s) (closed s) (dragging s) (resizing s) (resize_handle s) (drag_offset s) (drawing_mode s) (current_tool s) (drawing_items s) (current_drawing_item s) (drawing_color s) (drawing_width s) (undo_stack s) (redo_stack s) (active_text_item s) (text_dragging s) (text_resizing s) (text_drag_start s) (text_resize_handle s) (inline_editing s) (editing_text_item s) (text_input_buffer s) (cursor_position s) (last_click_time s) (last_click_pos s) (preedit_text s) (preedit_cursor_pos s) (text_selection_start s) (text_selection_end s) (text_press_timer s) (text_press_start_pos s) (is_long_pressing s) (text_tool_start_pos s) (text_tool_is_dragging s) (clipboard s) (heap s).
#[global] Instance set_start_point : Setter start_point :=
  fun v s => mkSelector (screen_rect s) (screenshot_pixmap s) v (end_point s) (selecting s) (selection_rect s) (result s) (closed s) (dragging s) (resizing s) (resize_handle s) (drag_offset s) (drawing_mode s) (current_tool s) (drawing_items s) (current_drawing_item s) (drawing_color s) (drawing_width s) (undo_stack s) (redo_stack s) (active_text_item s) (text_dragging s) (text_resizing s) (text_drag_start s) (text_resize_handle s) (inline_editing s) (editing_text_item s) (text_input_buffer s) (cursor_position s) (last_click_time s) (last_click_pos s) (preedit_text s) (preedit_cursor_pos s) (text_selection_start s) (text_selection_end s) (text_press_timer s) (text_press_start_pos s) (is_long_pressing s) (text_tool_start_pos s) (text_tool_is_dragging s) (clipboard s) (heap s).
#[global] Instance set_end_point : Setter end_point :=
  fun v s => mkSelector (screen_rect s) (screenshot_pixmap s) (start_point s) v (selecting s) (selection_rect s) (result s) (closed s) (dragging s) (resizing s) (resize_handle s) (drag_offset s) (drawing_mode s) (current_tool s) (drawing_items s) (current_drawing_item s) (drawing_color s) (drawing_width s) (undo_stack s) (redo_stack s) (active_text_item s) (text_dragging s) (text_resizing s) (text_drag_start s) (text_resize_handle s) (inline_editing s) (editing_text_item s) (text_input_buffer s) (cursor_position s) (last_click_time s) (last_click_pos s) (preedit_text s) (preedit_cursor_pos s) (text_selection_start s) (text_selection_end s) (text_press_timer s) (text_press_start_pos s) (is_long_pressing s) (text_tool_start_pos s) (text_tool_is_dragging s) (clipboard s) (heap s).
#[global] Instance set_selecting : Setter selecting :=
  fun v s => mkSelector (screen_rect s) (screenshot_pixmap s) (start_point s) (end_point s) v (selection_rect s) (result s) (closed s) (dragging s) (resizing s) (resize_handle s) (drag_offset s) (drawing_mode s) (current_tool s) (drawing_items s) (current_drawing_item s) (drawing_color s) (drawing_width s) (undo_stack s) (redo_stack s) (active_text_item s) (text_dragging s) (text_resizing s) (text_drag_start s) (text_resize_handle s) (inline_editing s) (editing_text_item s) (text_input_buffer s) (cursor_position s) (last_click_time s) (last_click_pos s) (preedit_text s) (preedit_cursor_pos s) (text_selection_start s) (text_selection_end s) (text_press_timer s) (text_press_start_pos s) (is_long_pressing s) (text_tool_start_pos s) (text_tool_is_dragging s) (clipboard s) (heap s).
#[global] Instance set_selection_rect : Setter selection_rect :=
  fun v s => mkSelector (screen_rect s) (screenshot_pixmap s) (start_point s) (end_point s) (selecting s) v (result s) (closed s) (dragging s) (resizing s) (resize_handle s) (drag_offset s) (drawing_mode s) (current_tool s) (drawing_items s) (current_drawing_item s) (drawing_color s) (drawing_width s) (undo_stack s) (redo_stack s) (active_text_item s) (text_dragging s) (text_resizing s) (text_drag_start s) (text_resize_handle s) (inline_editing s) (editing_text_item s) (text_input_buffer s) (cursor_position s) (last_click_time s) (last_click_pos s) (preedit_text s) (preedit_cursor_pos s) (text_selection_start s) (text_selection_end s) (text_press_timer s) (text_press_start_pos s) (is_long_pressing s) (text_tool_start_pos s) (text_tool_is_dragging s) (clipboard s) (heap s).
#[global] Instance set_result : Setter result :=
  fun v s => mkSelector (screen_rect s) (screenshot_pixmap s) (start_point s) (end_point s) (selecting s) (selection_rect s) v (closed s) (dragging s) (resizing s) (resize_handle s) (drag_offset s) (drawing_mode s) (current_tool s) (drawing_items s) (current_drawing_item s) (drawing_color s) (drawing_width s) (undo_stack s) (redo_stack s) (active_text_item s) (text_dragging s) (text_resizing s) (text_drag_start s) (text_resize_handle s) (inline_editing s) (editing_text_item s) (text_input_buffer s) (cursor_position s) (last_click_time s) (last_click_pos s) (preedit_text s) (preedit_cursor_pos s) (text_selection_start s) (text_selection_end s) (text_press_timer s) (text_press_start_pos s) (is_long_pressing s) (text_tool_start_pos s) (text_tool_is_dragging s) (clipboard s) (heap s).
#[global] Instance set_closed : Setter closed :=
  fun v s => mkSelector (screen_rect s) (screenshot_pixmap s) (start_point s) (end_point s) (selecting s) (selection_rect s) (result s) v (dragging s) (resizing s) (resize_handle s) (drag_offset s) (drawing_mode s) (current_tool s) (drawing_items s) (current_drawing_item s) (drawing_color s) (drawing_width s) (undo_stack s) (redo_stack s) (active_text_item s) (text_dragging s) (text_resizing s) (text_drag_start s) (text_resize_handle s) (inline_editing s) (editing_text_item s) (text_input_buffer s) (cursor_position s) (last_click_time s) (last_click_pos s) (preedit_text s) (preedit_cursor_pos s) (text_selection_start s) (text_selection_end s) (text_press_timer s) (text_press_start_pos s) (is_long_pressing s) (text_tool_start_pos s) (text_tool_is_dragging s) (clipboard s) (heap s).
#[global] Instance set_dragging : Setter dragging :=
  fun v s => mkSelector (screen_rect s) (screenshot_pixmap s) (start_point s) (end_point s) (selecting s) (selection_rect s) (result s) (closed s) v (resizing s) (resize_handle s) (drag_offset s) (drawing_mode s) (current_tool s) (drawing_items s) (current_drawing_item s) (drawing_color s) (drawing_width s) (undo_stack s) (redo_stack s) (active_text_item s) (text_dragging s) (text_resizing s) (text_drag_start s) (text_resize_handle s) (inline_editing s) (editing_text_item s) (text_input_buffer s) (cursor_position s) (last_click_time s) (last_click_pos s) (preedit_text s) (preedit_cursor_pos s) (text_selection_start s) (text_selection_end s) (text_press_timer s) (text_press_start_pos s) (is_long_pressing s) (text_tool_start_pos s) (text_tool_is_dragging s) (clipboard s) (heap s).
#[global] Instance set_resizing : Setter resizing :=
  fun v s => mkSelector (screen_rect s) (screenshot_pixmap s) (start_point s) (end_point s) (selecting s) (selection_rect s) (result s) (closed s) (dragging s) v (resize_handle s) (drag_offset s) (drawing_mode s) (current_tool s) (drawing_items s) (current_drawing_item s) (drawing_color s) (drawing_width s) (undo_stack s) (redo_stack s) (active_text_item s) (text_dragging s) (text_resizing s) (text_drag_start s) (text_resize_handle s) (inline_editing s) (editing_text_item s) (text_input_buffer s) (cursor_position s) (last_click_time s) (last_click_pos s) (preedit_text s) (preedit_cursor_pos s) (text_selection_start s) (text_selection_end s) (text_press_timer s) (text_press_start_pos s) (is_long_pressing s) (text_tool_start_pos s) (text_tool_is_dragging s) (clipboard s) (heap s).
#[global] Instance set_resize_handle : Setter resize_handle :=
  fun v s => mkSelector (screen_rect s) (screenshot_pixmap s) (start_point s) (end_point s) (selecting s) (selection_rect s) (result s) (closed s) (dragging s) (resizing s) v (drag_offset s) (drawing_mode s) (current_tool s) (drawing_items s) (current_drawing_item s) (drawing_color s) (drawing_width s) (undo_stack s) (redo_stack s) (active_text_item s) (text_dragging s) (text_resizing s) (text_drag_start s) (text_resize_handle s) (inline_editing s) (editing_text_item s) (text_input_buffer s) (cursor_position s) (last_click_time s) (last_click_pos s) (preedit_text s) (preedit_cursor_pos s) (text_selection_start s) (text_selection_end s) (text_press_timer s) (text_press_start_pos s) (is_long_pressing s) (text_tool_start_pos s) (text_tool_is_dragging s) (clipboard s) (heap s).
#[global] Instance set_drag_offset : Setter drag_offset :=
  fun v s => mkSelector (screen_rect s) (screenshot_pixmap s) (start_point s) (end_point s) (selecting s) (selection_rect s) (result s) (closed s) (dragging s) (resizing s) (resize_handle s) v (drawing_mode s) (current_tool s) (drawing_items s) (current_drawing_item s) (drawing_color s) (drawing_width s) (undo_stack s) (redo_stack s) (active_text_item s) (text_dragging s) (text_resizing s) (text_drag_start s) (text_resize_handle s) (inline_editing s) (editing_text_item s) (text_input_buffer s) (cursor_position s) (last_click_time s) (last_click_pos s) (preedit_text s) (preedit_cursor_pos s) (text_selection_start s) (text_selection_end s) (text_press_timer s) (text_press_start_pos s) (is_long_pressing s) (text_tool_start_pos s) (text_tool_is_dragging s) (clipboard s) (heap s).
#[global] Instance set_drawing_mode : Setter drawing_mode :=
  fun v s => mkSelector (screen_rect s) (screenshot_pixmap s) (start_point s) (end_point s) (selecting s) (selection_rect s) (result s) (closed s) (dragging s) (resizing s) (resize_handle s) (drag_offset s) v (current_tool s) (drawing_items s) (current_drawing_item s) (drawing_color s) (drawing_width s) (undo_stack s) (redo_stack s) (active_text_item s) (text_dragging s) (text_resizing s) (text_drag_start s) (text_resize_handle s) (inline_editing s) (editing_text_item s) (text_input_buffer s) (cursor_position s) (last_click_time s) (last_click_pos s) (preedit_text s) (preedit_cursor_pos s) (text_selection_start s) (text_selection_end s) (text_press_timer s) (text_press_start_pos s) (is_long_pressing s) (text_tool_start_pos s) (text_tool_is_dragging s) (clipboard s) (heap s).
#[global] Instance set_current_tool : Setter current_tool :=
  fun v s => mkSelector (screen_rect s) (screenshot_pixmap s) (start_point s) (end_point s) (selecting s) (selection_rect s) (result s) (closed s) (dragging s) (resizing s) (resize_handle s) (drag_offset s) (drawing_mode s) v (drawing_items s) (current_drawing_item s) (drawing_color s) (drawing_width s) (undo_stack s) (redo_stack s) (active_text_item s) (text_dragging s) (text_resizing s) (text_drag_start s) (text_resize_handle s) (inline_editing s) (editing_text_item s) (text_input_buffer s) (cursor_position s) (last_click_time s) (last_click_pos s) (preedit_text s) (preedit_cursor_pos s) (text_selection_start s) (text_selection_end s) (text_press_timer s) (text_press_start_pos s) (is_long_pressing s) (text_tool_start_pos s) (text_tool_is_dragging s) (clipboard s) (heap s).
#[global] Instance set_drawing_items : Setter drawing_items :=
  fun v s => mkSelector (screen_rect s) (screenshot_pixmap s) (start_point s) (end_point s) (selecting s) (selection_rect s) (result s) (closed s) (dragging s) (resizing s) (resize_handle s) (drag_offset s) (drawing_mode s) (current_tool s) v (current_drawing_item s) (drawing_color s) (drawing_width s) (undo_stack s) (redo_stack s) (active_text_item s) (text_dragging s) (text_resizing s) (text_drag_start s) (text_resize_handle s) (inline_editing s) (editing_text_item s) (text_input_buffer s) (cursor_position s) (last_click_time s) (last_click_pos s) (preedit_text s) (preedit_cursor_pos s) (text_selection_start s) (text_selection_end s) (text_press_timer s) (text_press_start_pos s) (is_long_pressing s) (text_tool_start_pos s) (text_tool_is_dragging s) (clipboard s) (heap s).
#[global] Instance set_current_drawing_item : Setter current_drawing_item :=
  fun v s => mkSelector (screen_rect s) (screenshot_pixmap s) (start_point s) (end_point s) (selecting s) (selection_rect s) (result s) (closed s) (dragging s) (resizing s) (resize_handle s) (drag_offset s) (drawing_mode s) (current_tool s) (drawing_items s) v (drawing_color s) (drawing_width s) (undo_stack s) (redo_stack s) (active_text_item s) (text_dragging s) (text_resizing s) (text_drag_start s) (text_resize_handle s) (inline_editing s) (editing_text_item s) (text_input_buffer s) (cursor_position s) (last_click_time s) (last_click_pos s) (preedit_text s) (preedit_cursor_pos s) (text_selection_start s) (text_selection_end s) (text_press_timer s) (text_press_start_pos s) (is_long_pressing s) (text_tool_start_pos s) (text_tool_is_dragging s) (clipboard s) (heap s).
#[global] Instance set_drawing_color : Setter drawing_color :=
  fun v s => mkSelector (screen_rect s) (screenshot_pixmap s) (start_point s) (end_point s) (selecting s) (selection_rect s) (result s) (closed s) (dragging s) (resizing s) (resize_handle s) (drag_offset s) (drawing_mode s) (current_tool s) (drawing_items s) (current_drawing_item s) v (drawing_width s) (undo_stack s) (redo_stack s) (active_text_item s) (text_dragging s) (text_resizing s) (text_drag_start s) (text_resize_handle s) (inline_editing s) (editing_text_item s) (text_input_buffer s) (cursor_position s) (last_click_time s) (last_click_pos s) (preedit_text s) (preedit_cursor_pos s) (text_selection_start s) (text_selection_end s) (text_press_timer s) (text_press_start_pos s) (is_long_pressing s) (text_tool_start_pos s) (text_tool_is_dragging s) (clipboard s) (heap s).
#[global] Instance set_drawing_width : Setter drawing_width :=
  fun v s => mkSelector (screen_rect s) (screenshot_pixmap s) (start_point s) (end_point s) (selecting s) (selection_rect s) (result s) (closed s) (dragging s) (resizing s) (resize_handle s) (drag_offset s) (drawing_mode s) (current_tool s) (drawing_items s) (current_drawing_item s) (drawing_color s) v (undo_stack s) (redo_stack s) (active_text_item s) (text_dragging s) (text_resizing s) (text_drag_start s) (text_resize_handle s) (inline_editing s) (editing_text_item s) (text_input_buffer s) (cursor_position s) (last_click_time s) (last_click_pos s) (preedit_text s) (preedit_cursor_pos s) (text_selection_start s) (text_selection_end s) (text_press_timer s) (text_press_start_pos s) (is_long_pressing s) (text_tool_start_pos s) (text_tool_is_dragging s) (clipboard s) (heap s).
#[global] Instance set_undo_stack : Setter undo_stack :=
  fun v s => mkSelector (screen_rect s) (screenshot_pixmap s) (start_point s) (end_point s) (selecting s) (selection_rect s) (result s) (closed s) (dragging s) (resizing s) (resize_handle s) (drag_offset s) (drawing_mode s) (current_tool s) (drawing_items s) (current_drawing_item s) (drawing_color s) (drawing_width s) v (redo_stack s) (active_text_item s) (text_dragging s) (text_resizing s) (text_drag_start s) (text_resize_handle s) (inline_editing s) (editing_text_item s) (text_input_buffer s) (cursor_position s) (last_click_time s) (last_click_pos s) (preedit_text s) (preedit_cursor_pos s) (text_selection_start s) (text_selection_end s) (text_press_timer s) (text_press_start_pos s) (is_long_pressing s) (text_tool_start_pos s) (text_tool_is_dragging s) (clipboard s) (heap s).
#[global] Instance set_redo_stack : Setter redo_stack :=
  fun v s => mkSelector (screen_rect s) (screenshot_pixmap s) (start_point s) (end_point s) (selecting s) (selection_rect s) (result s) (closed s) (dragging s) (resizing s) (resize_handle s) (drag_offset s) (drawing_mode s) (current_tool s) (drawing_items s) (current_drawing_item s) (drawing_color s) (drawing_width s) (undo_stack s) v (active_text_item s) (text_dragging s) (text_resizing s) (text_drag_start s) (text_resize_handle s) (inline_editing s) (editing_text_item s) (text_input_buffer s) (cursor_position s) (last_click_time s) (last_click_pos s) (preedit_text s) (preedit_cursor_pos s) (text_selection_start s) (text_selection_end s) (text_press_timer s) (text_press_start_pos s) (is_long_pressing s) (text_tool_start_pos s) (text_tool_is_dragging s) (clipboard s) (heap s).
#[global] Instance set_active_text_item : Setter active_text_item :=
  fun v s => mkSelector (screen_rect s) (screenshot_pixmap s) (start_point s) (end_point s) (selecting s) (selection_rect s) (result s) (closed s) (dragging s) (resizing s) (resize_handle s) (drag_offset s) (drawing_mode s) (current_tool s) (drawing_items s) (current_drawing_item s) (drawing_color s) (drawing_width s) (undo_stack s) (redo_stack s) v (text_dragging s) (text_resizing s) (text_drag_start s) (text_resize_handle s) (inline_editing s) (editing_text_item s) (text_input_buffer s) (cursor_position s) (last_click_time s) (last_click_pos s) (preedit_text s) (preedit_cursor_pos s) (text_selection_start s) (text_selection_end s) (text_press_timer s) (text_press_start_pos s) (is_long_pressing s) (text_tool_start_pos s) (text_tool_is_dragging s) (clipboard s) (heap s).
#[global] Instance set_text_dragging : Setter text_dragging :=
  fun v s => mkSelector (screen_rect s) (screenshot_pixmap s) (start_point s) (end_point s) (selecting s) (selection_rect s) (result s) (closed s) (dragging s) (resizing s) (resize_handle s) (drag_offset s) (drawing_mode s) (current_tool s) (drawing_items s) (current_drawing_item s) (drawing_color s) (drawing_width s) (undo_stack s) (redo_stack s) (active_text_item s) v (text_resizing s) (text_drag_start s) (text_resize_handle s) (inline_editing s) (editing_text_item s) (text_input_buffer s) (cursor_position s) (last_click_time s) (last_click_pos s) (preedit_text s) (preedit_cursor_pos s) (text_selection_start s) (text_selection_end s) (text_press_timer s) (text_press_start_pos s) (is_long_pressing s) (text_tool_start_pos s) (text_tool_is_dragging s) (clipboard s) (heap s).
#[global] Instance set_text_resizing : Setter text_resizing :=
  fun v s => mkSelector (screen_rect s) (screenshot_pixmap s) (start_point s) (end_point s) (selecting s) (selection_rect s) (result s) (closed s) (dragging s) (resizing s) (resize_handle s) (drag_offset s) (drawing_mode s) (current_tool s) (drawing_items s) (current_drawing_item s) (drawing_color s) (drawing_width s) (undo_stack s) (redo_stack s) (active_text_item s) (text_dragging s) v (text_drag_start s) (text_resize_handle s) (inline_editing s) (editing_text_item s) (text_input_buffer s) (cursor_position s) (last_click_time s) (last_click_pos s) (preedit_text s) (preedit_cursor_pos s) (text_selection_start s) (text_selection_end s) (text_press_timer s) (text_press_start_pos s) (is_long_pressing s) (text_tool_start_pos s) (text_tool_is_dragging s) (clipboard s) (heap s).
#[global] Instance set_text_drag_start : Setter text_drag_start :=
  fun v s => mkSelector (screen_rect s) (screenshot_pixmap s) (start_point s) (end_point s) (selecting s) (selection_rect s) (result s) (closed s) (dragging s) (resizing s) (resize_handle s) (drag_offset s) (drawing_mode s) (current_tool s) (drawing_items s) (current_drawing_item s) (drawing_color s) (drawing_width s) (undo_stack s) (redo_stack s) (active_text_item s) (text_dragging s) (text_resizing s) v (text_resize_handle s) (inline_editing s) (editing_text_item s) (text_input_buffer s) (cursor_position s) (last_click_time s) (last_click_pos s) (preedit_text s) (preedit_cursor_pos s) (text_selection_start s) (text_selection_end s) (text_press_timer s) (text_press_start_pos s) (is_long_pressing s) (text_tool_start_pos s) (text_tool_is_dragging s) (clipboard s) (heap s).
#[global] Instance set_text_resize_handle : Setter text_resize_handle :=
  fun v s => mkSelector (screen_rect s) (screenshot_pixmap s) (start_point s) (end_point s) (selecting s) (selection_rect s) (result s) (closed s) (dragging s) (resizing s) (resize_handle s) (drag_offset s) (drawing_mode s) (current_tool s) (drawing_items s) (current_drawing_item s) (drawing_color s) (drawing_width s) (undo_stack s) (redo_stack s) (active_text_item s) (text_dragging s) (text_resizing s) (text_drag_start s) v (inline_editing s) (editing_text_item s) (text_input_buffer s) (cursor_position s) (last_click_time s) (last_click_pos s) (preedit_text s) (preedit_cursor_pos s) (text_selection_start s) (text_selection_end s) (text_press_timer s) (text_press_start_pos s) (is_long_pressing s) (text_tool_start_pos s) (text_tool_is_dragging s) (clipboard s) (heap s).
#[global] Instance set_inline_editing : Setter inline_editing :=
  fun v s => mkSelector (screen_rect s) (screenshot_pixmap s) (start_point s) (end_point s) (selecting s) (selection_rect s) (result s) (closed s) (dragging s) (resizing s) (resize_handle s) (drag_offset s) (drawing_mode s) (current_tool s) (drawing_items s) (current_drawing_item s) (drawing_color s) (drawing_width s) (undo_stack s) (redo_stack s) (active_text_item s) (text_dragging s) (text_resizing s) (text_drag_start s) (text_resize_handle s) v (editing_text_item s) (text_input_buffer s) (cursor_position s) (last_click_time s) (last_click_pos s) (preedit_text s) (preedit_cursor_pos s) (text_selection_start s) (text_selection_end s) (text_press_timer s) (text_press_start_pos s) (is_long_pressing s) (text_tool_start_pos s) (text_tool_is_dragging s) (clipboard s) (heap s).
#[global] Instance set_editing_text_item : Setter editing_text_item :=
  fun v s => mkSelector (screen_rect s) (screenshot_pixmap s) (start_point s) (end_point s) (selecting s) (selection_rect s) (result s) (closed s) (dragging s) (resizing s) (resize_handle s) (drag_offset s) (drawing_mode s) (current_tool s) (drawing_items s) (current_drawing_item s) (drawing_color s) (drawing_width s) (undo_stack s) (redo_stack s) (active_text_item s) (text_dragging s) (text_resizing s) (text_drag_start s) (text_resize_handle s) (inline_editing s) v (text_input_buffer s) (cursor_position s) (last_click_time s) (last_click_pos s) (preedit_text s) (preedit_cursor_pos s) (text_selection_start s) (text_selection_end s) (text_press_timer s) (text_press_start_pos s) (is_long_pressing s) (text_tool_start_pos s) (text_tool_is_dragging s) (clipboard s) (heap s).
#[global] Instance set_text_input_buffer : Setter text_input_buffer :=
  fun v s => mkSelector (screen_rect s) (screenshot_pixmap s) (start_point s) (end_point s) (selecting s) (selection_rect s) (result s) (closed s) (dragging s) (resizing s) (resize_handle s) (drag_offset s) (drawing_mode s) (current_tool s) (drawing_items s) (current_drawing_item s) (drawing_color s) (drawing_width s) (undo_stack s) (redo_stack s) (active_text_item s) (text_dragging s) (text_resizing s) (text_drag_start s) (text_resize_handle s) (inline_editing s) (editing_text_item s) v (cursor_position s) (last_click_time s) (last_click_pos s) (preedit_text s) (preedit_cursor_pos s) (text_selection_start s) (text_selection_end s) (text_press_timer s) (text_press_start_pos s) (is_long_pressing s) (text_tool_start_pos s) (text_tool_is_dragging s) (clipboard s) (heap s).
#[global] Instance set_cursor_position : Setter cursor_position :=
  fun v s => mkSelector (screen_rect s) (screenshot_pixmap s) (start_point s) (end_point s) (selecting s) (selection_rect s) (result s) (closed s) (dragging s) (resizing s) (resize_handle s) (drag_offset s) (drawing_mode s) (current_tool s) (drawing_items s) (current_drawing_item s) (drawing_color s) (drawing_width s) (undo_stack s) (redo_stack s) (active_text_item s) (text_dragging s) (text_resizing s) (text_drag_start s) (text_resize_handle s) (inline_editing s) (editing_text_item s) (text_input_buffer s) v (last_click_time s) (last_click_pos s) (preedit_text s) (preedit_cursor_pos s) (text_selection_start s) (text_selection_end s) (text_press_timer s) (text_press_start_pos s) (is_long_pressing s) (text_tool_start_pos s) (text_tool_is_dragging s) (clipboard s) (heap s).
#[global] Instance set_last_click_time : Setter last_click_time :=
  fun v s => mkSelector (screen_rect s) (screenshot_pixmap s) (start_point s) (end_point s) (selecting s) (selection_rect s) (result s) (closed s) (dragging s) (resizing s) (resize_handle s) (drag_offset s) (drawing_mode s) (current_tool s) (drawing_items s) (current_drawing_item s) (drawing_color s) (drawing_width s) (undo_stack s) (redo_stack s) (active_text_item s) (text_dragging s) (text_resizing s) (text_drag_start s) (text_resize_handle s) (inline_editing s) (editing_text_item s) (text_input_buffer s) (cursor_position s) v (last_click_pos s) (preedit_text s) (preedit_cursor_pos s) (text_selection_start s) (text_selection_end s) (text_press_timer s) (text_press_start_pos s) (is_long_pressing s) (text_tool_start_pos s) (text_tool_is_dragging s) (clipboard s) (heap s).
#[global] Instance set_last_click_pos : Setter last_click_pos :=
  fun v s => mkSelector (screen_rect s) (screenshot_pixmap s) (start_point s) (end_point s) (selecting s) (selection_rect s) (result s) (closed s) (dragging s) (resizing s) (resize_handle s) (drag_offset s) (drawing_mode s) (current_tool s) (drawing_items s) (current_drawing_item s) (drawing_color s) (drawing_width s) (undo_stack s) (redo_stack s) (active_text_item s) (text_dragging s) (text_resizing s) (text_drag_start s) (text_resize_handle s) (inline_editing s) (editing_text_item s) (text_input_buffer s) (cursor_position s) (last_click_time s) v (preedit_text s) (preedit_cursor_pos s) (text_selection_start s) (text_selection_end s) (text_press_timer s) (text_press_start_pos s) (is_long_pressing s) (text_tool_start_pos s) (text_tool_is_dragging s) (clipboard s) (heap s).
#[global] Instance set_preedit_text : Setter preedit_text :=
  fun v s => mkSelector (screen_rect s) (screenshot_pixmap s) (start_point s) (end_point s) (selecting s) (selection_rect s) (result s) (closed s) (dragging s) (resizing s) (resize_handle s) (drag_offset s) (drawing_mode s) (current_tool s) (drawing_items s) (current_drawing_item s) (drawing_color s) (drawing_width s) (undo_stack s) (redo_stack s) (active_text_item s) (text_dragging s) (text_resizing s) (text_drag_start s) (text_resize_handle s) (inline_editing s) (editing_text_item s) (text_input_buffer s) (cursor_position s) (last_click_time s) (last_click_pos s) v (preedit_cursor_pos s) (text_selection_start s) (text_selection_end s) (text_press_timer s) (text_press_start_pos s) (is_long_pressing s) (text_tool_start_pos s) (text_tool_is_dragging s) (clipboard s) (heap s).
#[global] Instance set_preedit_cursor_pos : Setter preedit_cursor_pos :=
  fun v s => mkSelector (screen_rect s) (screenshot_pixmap s) (start_point s) (end_point s) (selecting s) (selection_rect s) (result s) (closed s) (dragging s) (resizing s) (resize_handle s) (drag_offset s) (drawing_mode s) (current_tool s) (drawing_items s) (current_drawing_item s) (drawing_color s) (drawing_width s) (undo_stack s) (redo_stack s) (active_text_item s) (text_dragging s) (text_resizing s) (text_drag_start s) (text_resize_handle s) (inline_editing s) (editing_text_item s) (text_input_buffer s) (cursor_position s) (last_click_time s) (last_click_pos s) (preedit_text s) v (text_selection_start s) (text_selection_end s) (text_press_timer s) (text_press_start_pos s) (is_long_pressing s) (text_tool_start_pos s) (text_tool_is_dragging s) (clipboard s) (heap s).
#[global] Instance set_text_selection_start : Setter text_selection_start :=
  fun v s => mkSelector (screen_rect s) (screenshot_pixmap s) (start_point s) (end_point s) (selecting s) (selection_rect s) (result s) (closed s) (dragging s) (resizing s) (resize_handle s) (drag_offset s) (drawing_mode s) (current_tool s) (drawing_items s) (current_drawing_item s) (drawing_color s) (drawing_width s) (undo_stack s) (redo_stack s) (active_text_item s) (text_dragging s) (text_resizing s) (text_drag_start s) (text_resize_handle s) (inline_editing s) (editing_text_item s) (text_input_buffer s) (cursor_position s) (last_click_time s) (last_click_pos s) (preedit_text s) (preedit_cursor_pos s) v (text_selection_end s) (text_press_timer s) (text_press_start_pos s) (is_long_pressing s) (text_tool_start_pos s) (text_tool_is_dragging s) (clipboard s) (heap s).
#[global] Instance set_text_selection_end : Setter text_selection_end :=
  fun v s => mkSelector (screen_rect s) (screenshot_pixmap s) (start_point s) (end_point s) (selecting s) (selection_rect s) (result s) (closed s) (dragging s) (resizing s) (resize_handle s) (drag_offset s) (drawing_mode s) (current_tool s) (drawing_items s) (current_drawing_item s) (drawing_color s) (drawing_width s) (undo_stack s) (redo_stack s) (active_text_item s) (text_dragging s) (text_resizing s) (text_drag_start s) (text_resize_handle s) (inline_editing s) (editing_text_item s) (text_input_buffer s) (cursor_position s) (last_click_time s) (last_click_pos s) (preedit_text s) (preedit_cursor_pos s) (text_selection_start s) v (text_press_timer s) (text_press_start_pos s) (is_long_pressing s) (text_tool_start_pos s) (text_tool_is_dragging s) (clipboard s) (heap s).
#[global] Instance set_text_press_timer : Setter text_press_timer :=
  fun v s => mkSelector (screen_rect s) (screenshot_pixmap s) (start_point s) (end_point s) (selecting s) (selection_rect s) (result s) (closed s) (dragging s) (resizing s) (resize_handle s) (drag_offset s) (drawing_mode s) (current_tool s) (drawing_items s) (current_drawing_item s) (drawing_color s) (drawing_width s) (undo_stack s) (redo_stack s) (active_text_item s) (text_dragging s) (text_resizing s) (text_drag_start s) (text_resize_handle s) (inline_editing s) (editing_text_item s) (text_input_buffer s) (cursor_position s) (last_click_time s) (last_click_pos s) (preedit_text s) (preedit_cursor_pos s) (text_selection_start s) (text_selection_end s) v (text_press_start_pos s) (is_long_pressing s) (text_tool_start_pos s) (text_tool_is_dragging s) (clipboard s) (heap s).
#[global] Instance set_text_press_start_pos : Setter text_press_start_pos :=
  fun v s => mkSelector (screen_rect s) (screenshot_pixmap s) (start_point s) (end_point s) (selecting s) (selection_rect s) (result s) (closed s) (dragging s) (resizing s) (resize_handle s) (drag_offset s) (drawing_mode s) (current_tool s) (drawing_items s) (current_drawing_item s) (drawing_color s) (drawing_width s) (undo_stack s) (redo_stack s) (active_text_item s) (text_dragging s) (text_resizing s) (text_drag_start s) (text_resize_handle s) (inline_editing s) (editing_text_item s) (text_input_buffer s) (cursor_position s) (last_click_time s) (last_click_pos s) (preedit_text s) (preedit_cursor_pos s) (text_selection_start s) (text_selection_end s) (text_press_timer s) v (is_long_pressing s) (text_tool_start_pos s) (text_tool_is_dragging s) (clipboard s) (heap s).
#[global] Instance set_is_long_pressing : Setter is_long_pressing :=
  fun v s => mkSelector (screen_rect s) (screenshot_pixmap s) (start_point s) (end_point s) (selecting s) (selection_rect s) (result s) (closed s) (dragging s) (resizing s) (resize_handle s) (drag_offset s) (drawing_mode s) (current_tool s) (drawing_items s) (current_drawing_item s) (drawing_color s) (drawing_width s) (undo_stack s) (redo_stack s) (active_text_item s) (text_dragging s) (text_resizing s) (text_drag_start s) (text_resize_handle s) (inline_editing s) (editing_text_item s) (text_input_buffer s) (cursor_position s) (last_click_time s) (last_click_pos s) (preedit_text s) (preedit_cursor_pos s) (text_selection_start s) (text_selection_end s) (text_press_timer s) (text_press_start_pos s) v (text_tool_start_pos s) (text_tool_is_dragging s) (clipboard s) (heap s).
#[global] Instance set_text_tool_start_pos : Setter text_tool_start_pos :=
  fun v s => mkSelector (screen_rect s) (screenshot_pixmap s) (start_point s) (end_point s) (selecting s) (selection_rect s) (result s) (closed s) (dragging s) (resizing s) (resize_handle s) (drag_offset s) (drawing_mode s) (current_tool s) (drawing_items s) (current_drawing_item s) (drawing_color s) (drawing_width s) (undo_stack s) (redo_stack s) (active_text_item s) (text_dragging s) (text_resizing s) (text_drag_start s) (text_resize_handle s) (inline_editing s) (editing_text_item s) (text_input_buffer s) (cursor_position s) (last_click_time s) (last_click_pos s) (preedit_text s) (preedit_cursor_pos s) (text_selection_start s) (text_selection_end s) (text_press_timer s) (text_press_start_pos s) (is_long_pressing s) v (text_tool_is_dragging s) (clipboard s) (heap s).
#[global] Instance set_text_tool_is_dragging : Setter text_tool_is_dragging :=
  fun v s => mkSelector (screen_rect s) (screenshot_pixmap s) (start_point s) (end_point s) (selecting s) (selection_rect s) (result s) (closed s) (dragging s) (resizing s) (resize_handle s) (drag_offset s) (drawing_mode s) (current_tool s) (drawing_items s) (current_drawing_item s) (drawing_color s) (drawing_width s) (undo_stack s) (redo_stack s) (active_text_item s) (text_dragging s) (text_resizing s) (text_drag_start s) (text_resize_handle s) (inline_editing s) (editing_text_item s) (text_input_buffer s) (cursor_position s) (last_click_time s) (last_click_pos s) (preedit_text s) (preedit_cursor_pos s) (text_selection_start s) (text_selection_end s) (text_press_timer s) (text_press_start_pos s) (is_long_pressing s) (text_tool_start_pos s) v (clipboard s) (heap s).
#[global] Instance set_clipboard : Setter clipboard :=
  fun v s => mkSelector (screen_rect s) (screenshot_pixmap s) (start_point s) (end_point s) (selecting s) (selection_rect s) (result s) (closed s) (dragging s) (resizing s) (resize_handle s) (drag_offset s) (drawing_mode s) (current_tool s) (drawing_items s) (current_drawing_item s) (drawing_color s) (drawing_width s) (undo_stack s) (redo_stack s) (active_text_item s) (text_dragging s) (text_resizing s) (text_drag_start s) (text_resize_handle s) (inline_editing s) (editing_text_item s) (text_input_buffer s) (cursor_position s) (last_click_time s) (last_click_pos s) (preedit_text s) (preedit_cursor_pos s) (text_selection_start s) (text_selection_end s) (text_press_timer s) (text_press_start_pos s) (is_long_pressing s) (text_tool_start_pos s) (text_tool_is_dragging s) v (heap s).
#[global] Instance set_heap : Setter heap :=
  fun v s => mkSelector (screen_rect s) (screenshot_pixmap s) (start_point s) (end_point s) (selecting s) (selection_rect s) (result s) (closed s) (dragging s) (resizing s) (resize_handle s) (drag_offset s) (drawing_mode s) (current_tool s) (drawing_items s) (current_drawing_item s) (drawing_color s) (drawing_width s) (undo_stack s) (redo_stack s) (active_text_item s) (text_dragging s) (text_resizing s) (text_drag_start s) (text_resize_handle s) (inline_editing s) (editing_text_item s) (text_input_buffer s) (cursor_position s) (last_click_time s) (last_click_pos s) (preedit_text s) (preedit_cursor_pos s) (text_selection_start s) (text_selection_end s) (text_press_timer s) (text_press_start_pos s) (is_long_pressing s) (text_tool_start_pos s) (text_tool_is_dragging s) (clipboard s) v.

(** [__init__] followed by the set-up of [select_region]: the geometry of
    the primary screen is stored and the screenshot is taken. *)
Definition init (screen : QRect) : Selector :=
  {| screen_rect := screen; screenshot_pixmap := true;
     start_point := QPoint.null; end_point := QPoint.null; selecting := false;
     selection_rect := QRect.null; result := None; closed := false;
     dragging := false; resizing := false; resize_handle := None;
     drag_offset := QPoint.null;
     drawing_mode := false; current_tool := T_select; drawing_items := [];
     current_drawing_item := None; drawing_color := QColor_red; drawing_width := 3;
     undo_stack := []; redo_stack := [];
     active_text_item := None; text_dragging := false; text_resizing := false;
     text_drag_start := QPoint.null; text_resize_handle := None;
     inline_editing := false; editing_text_item := None; text_input_buffer := "";
     cursor_position := 0%nat;
     last_click_time := 0; last_click_pos := QPoint.null;
     preedit_text := ""; preedit_cursor_pos := 0%nat;
     text_selection_start := 0%nat; text_selection_end := 0%nat;
     text_press_timer := None; text_press_start_pos := QPoint.null;
     is_long_pressing := false;
     text_tool_start_pos := QPoint.null; text_tool_is_dragging := false;
     clipboard := ""; heap := [] |}.

(** *** The object store *)

(** Object creation: the new object gets the next free reference. *)
Definition new_item (it : DrawingItem) (s : Selector) : ref * Selector :=
  (length (heap s), s <| heap := heap s ++ [it] |>).

(** Attribute assignment on the object behind a reference. *)
Definition update_item (r : ref) (f : DrawingItem -> DrawingItem) (s : Selector) : Selector :=
  s <| heap := alter f r (heap s) |>.

Definition is_text_box (it : DrawingItem) : bool :=
  bool_decide (tool_type it = T_text) && (2 <=? length (points it))%nat.

(** *** Handlers that return early *)

(** A handler either has returned ([Done]) or goes on with the next
    statement ([Next]). *)
Inductive Flow := Done (s : Selector) | Next (s : Selector).

Definition and_then (f : Flow) (k : Selector -> Flow) : Flow :=
  match f with Done s => Done s | Next s => k s end.

Notation "'go' s <- f ; k" := (and_then f (fun s => k))
  (at level 10, s name, f at level 100, k at level 200).

Definition state_of (f : Flow) : Selector :=
  match f with Done s => s | Next s => s end.

(** *** Inline text editing: start and finish *)

(** [_start_inline_text_editing] *)
Definition _start_inline_text_editing (r : ref) (s : Selector) : Selector :=
  let buffer := match heap s !! r with Some it => text_content it | None => "" end in
  s <| inline_editing := true |>
    <| editing_text_item := Some r |>
    <| text_input_buffer := buffer |>
    <| cursor_position := String.length buffer |>.

(** [_finish_inline_text_editing] *)
Definition _finish_inline_text_editing (s : Selector) : Selector :=
  let s :=
    match inline_editing s, editing_text_item s with
    | true, Some r =>
        if truthy (strip (text_input_buffer s)) then
          update_item r (set_text_content (text_input_buffer s)) s
        else
          let s :=
            if py_in r (drawing_items s)
            then s <| drawing_items := py_remove r (drawing_items s) |> else s in
          if py_in r (undo_stack s)
          then s <| undo_stack := py_remove r (undo_stack s) |> else s
    | _, _ => s
    end in
  s <| inline_editing := false |>
    <| editing_text_item := None |>
    <| text_input_buffer := "" |>
    <| cursor_position := 0%nat |>.

(** *** Undo and redo *)

(** [_undo_drawing] *)
Definition _undo_drawing (s : Selector) : Selector :=
  match py_pop (undo_stack s) with
  | Some (item, rest) =>
      let s := s <| undo_stack := rest |> in
      let s := s <| redo_stack := py_append item (redo_stack s) |> in
      if py_in item (drawing_items s)
      then s <| drawing_items := py_remove item (drawing_items s) |> else s
  | None => s
  end.

(** [_redo_drawing] *)
Definition _redo_drawing (s : Selector) : Selector :=
  match py_pop (redo_stack s) with
  | Some (item, rest) =>
      let s := s <| redo_stack := rest |> in
      let s := s <| undo_stack := py_append item (undo_stack s) |> in
      s <| drawing_items := py_append item (drawing_items s) |>
  | None => s
  end.

(** The three statements that commit an item:
    [drawing_items.append(item); undo_stack.append(item); redo_stack.clear()] *)
Definition commit_item (item : ref) (s : Selector) : Selector :=
  s <| drawing_items := py_append item (drawing_items s) |>
    <| undo_stack := py_append item (undo_stack s) |>
    <| redo_stack := [] |>.

(** [_handle_text_input] *)
Definition _handle_text_input (pos : QPoint) (s : Selector) : Selector :=
  let text_item := DrawingItem_init T_text (drawing_color s) (drawing_width s) in
  let text_item := add_point pos text_item in
  let default_end := mkQPoint (qx pos + 250) (qy pos + 80) in
  let text_item := add_point default_end text_item in
  let text_item := set_text_content "" text_item in
  let '(r, s) := new_item text_item s in
  let s := commit_item r s in
  _start_inline_text_editing r s.

(** *** Toolbar *)

(** [_set_drawing_tool] *)
Definition _set_drawing_tool (tool : Tool) (s : Selector) : Selector :=
  s <| current_tool := tool |> <| drawing_mode := negb (bool_decide (tool = T_select)) |>.

(** [_set_drawing_color] *)
Definition _set_drawing_color (c : QColor) (s : Selector) : Selector :=
  s <| drawing_color := c |>.

(** [_auto_adjust_text_box_for_font_size]; [bounds] is the size of
    [QFontMetrics(font).boundingRect(text_item.text_content)]. *)
Definition _auto_adjust_text_box_for_font_size (r : ref) (bounds : QSize) (s : Selector) : Selector :=
  match heap s !! r with
  | Some text_item =>
      if negb (truthy (text_content text_item)) then s
      else
        let required_width := size_w bounds + 40 in
        let required_height := size_h bounds + 40 in
        let current_rect := item_rect text_item in
        let new_width := Z.max required_width MIN_SELECTION_SIZE in
        let new_height := Z.max required_height MIN_SELECTION_SIZE in
        let new_rect := QRect.pt_size (QRect.topLeft current_rect) (mkQSize new_width new_height) in
        let new_rect := _constrain_to_screen (screen_rect s) new_rect in
        update_item r (set_corners new_rect) s
  | None => s
  end.

(** [_set_brush_size] *)
Definition _set_brush_size (size : Z) (is_custom : bool) (bounds : QSize) (s : Selector) : Selector :=
  let s := s <| drawing_width := size |> in
  match inline_editing s, editing_text_item s with
  | true, Some r =>
      if is_custom then update_item r (set_custom_size size) s
      else
        let s := update_item r (set_width size) s in
        match heap s !! r with
        | Some it =>
            if negb (was_manually_resized it)
            then _auto_adjust_text_box_for_font_size r bounds s else s
        | None => s
        end
  | _, _ => s
  end.

(** [_auto_expand_text_box], which [draw] calls on the item being edited
    each time the overlay is painted; [bounds] is the size of
    [QFontMetrics(font).boundingRect(text)]. *)
Definition _auto_expand_text_box (r : ref) (bounds : QSize) (text : string) (s : Selector) : Selector :=
  match heap s !! r with
  | Some text_item =>
      if negb (truthy text) || (length (points text_item) <? 2)%nat then s
      else
        let required_width := size_w bounds + 20 in
        let required_height := size_h bounds + 20 in
        let current_rect := item_rect text_item in
        let new_rect := current_rect in
        let expand_w := QRect.width current_rect <? required_width in
        let new_rect := if expand_w then QRect.setWidth required_width new_rect else new_rect in
        let expand_h := QRect.height current_rect <? required_height in
        let new_rect := if expand_h then QRect.setHeight required_height new_rect else new_rect in
        if expand_w || expand_h then
          let constrained_rect := _constrain_to_screen (screen_rect s) new_rect in
          update_item r
            (fun it =>
               set_points
                 (<[1%nat := QRect.bottomRight constrained_rect]>
                    (<[0%nat := QRect.topLeft constrained_rect]>
                       (<[1%nat := QRect.bottomRight new_rect]> (points it)))) it) s
        else s
  | None => s
  end.

(** The part of [paintEvent] that changes state: painting the item under
    edit, when it is among the items the overlay draws. *)
Definition paintEvent (bounds : QSize) (s : Selector) : Selector :=
  match inline_editing s, editing_text_item s with
  | true, Some r =>
      let drawn :=
        negb (QRect.isEmpty (selection_rect s)) &&
        (py_in r (drawing_items s) ||
         bool_decide (current_drawing_item s = Some r) && drawing_mode s) in
      match heap s !! r with
      | Some it =>
          if drawn && bool_decide (tool_type it = T_text) && (1 <=? length (points it))%nat
          then _auto_expand_text_box r bounds (text_input_buffer s) s
          else s
      | None => s
      end
  | _, _ => s
  end.

(** *** The exported image *)

Definition draw_ref (dev : Device) (s : Selector) (r : ref) : list PaintCall :=
  match heap s !! r with Some it => draw dev it | None => [] end.

(** The device [draw] finds when the overlay paints the item [r]; the
    three measures are those of the font of the item. *)
Definition overlay_device (bounds : QSize) (char_width char_height : Z)
    (s : Selector) (r : ref) : Device :=
  if inline_editing s && bool_decide (editing_text_item s = Some r) then
    Editing
      {| view_screen_rect := screen_rect s;
         view_text_input_buffer := text_input_buffer s;
         view_cursor_position := cursor_position s;
         view_text_selection_start := text_selection_start s;
         view_text_selection_end := text_selection_end s;
         view_preedit_text := preedit_text s;
         view_preedit_cursor_pos := preedit_cursor_pos s;
         view_text_bounds := bounds;
         view_char_width := char_width;
         view_char_height := char_height |}
  else Overlay.

(** [_create_composite_image] *)
Definition _create_composite_image (s : Selector) : option (list PaintCall) :=
  if negb (screenshot_pixmap s) then None
  else
    Some (flat_map (draw_ref Pixmap s) (drawing_items s) ++
          match current_drawing_item s with
          | Some r => if drawing_mode s then draw_ref Pixmap s r else []
          | None => []
          end).

Definition close_app (s : Selector) : Selector := s <| closed := true |>.

(** [_confirm_selection] *)
Definition _confirm_selection (s : Selector) : Selector :=
  if negb (QRect.isEmpty (selection_rect s)) then
    let width := QRect.width (selection_rect s) in
    let height := QRect.height (selection_rect s) in
    if (width <=? 0) || (height <=? 0) then close_app (s <| result := None |>)
    else
      let rect := (QRect.x (selection_rect s), QRect.y (selection_rect s), width, height) in
      let png :=
        match _create_composite_image s with
        | Some calls => Some (mkComposite calls (selection_rect s))
        | None => None
        end in
      close_app (s <| result := Some (Copy rect png) |>)
  else close_app (s <| result := None |>).

(** [_save_selection] *)
Definition _save_selection (s : Selector) : Selector :=
  if negb (QRect.isEmpty (selection_rect s)) then
    let width := QRect.width (selection_rect s) in
    let height := QRect.height (selection_rect s) in
    if (width <=? 0) || (height <=? 0) then close_app (s <| result := None |>)
    else
      let rect := (QRect.x (selection_rect s), QRect.y (selection_rect s), width, height) in
      close_app (s <| result := Some (Save rect) |>)
  else close_app (s <| result := None |>).

(** [_cancel_selection] *)
Definition _cancel_selection (s : Selector) : Selector :=
  close_app (s <| result := Some Cancel |>).

(** *** Pointer events *)

(** The attribute [double_click_threshold], in milliseconds. *)
Definition double_click_threshold : Z := 300.
(** The attribute [text_tool_drag_threshold], in pixels. *)
Definition text_tool_drag_threshold : Z := 5.

(** A text item with at least two points and some text whose box holds
    [pos]: the test of the double-click and of the short click. *)
Definition editable_text_at (s : Selector) (pos : QPoint) (r : ref) : bool :=
  match heap s !! r with
  | Some item =>
      is_text_box item && truthy (text_content item) && QRect.contains (item_rect item) pos
  | None => false
  end.

(** A text item whose box, grown by 12 pixels, holds [pos]. *)
Definition text_box_near (s : Selector) (pos : QPoint) (r : ref) : bool :=
  match heap s !! r with
  | Some item =>
      is_text_box item && QRect.contains (QRect.adjusted (-12) (-12) 12 12 (item_rect item)) pos
  | None => false
  end.

(** The four corner hit areas of a text box [r], with [hs = 12]. *)
Definition text_corner (h : TextHandle) (r : QRect) : QRect :=
  let hs := 12 in
  match h with
  | tl => QRect.xywh (QRect.left r - hs) (QRect.top r - hs) (hs * 2) (hs * 2)
  | tr => QRect.xywh (QRect.right r - hs) (QRect.top r - hs) (hs * 2) (hs * 2)
  | bl => QRect.xywh (QRect.left r - hs) (QRect.bottom r - hs) (hs * 2) (hs * 2)
  | _ => QRect.xywh (QRect.right r - hs) (QRect.bottom r - hs) (hs * 2) (hs * 2)
  end.

(** A press on a corner of a text item: the branch bodies of lines 813-844. *)
Definition start_text_resize (item : ref) (h : TextHandle) (pos : QPoint) (s : Selector) : Selector :=
  let s := s <| active_text_item := Some item |>
             <| text_resizing := true |>
             <| text_resize_handle := Some h |>
             <| text_drag_start := pos |> in
  update_item item (set_was_manually_resized true) s.

(** Starting the long-press timer on a press inside a text item. *)
Definition start_long_press (target : TimerTarget) (pos : QPoint) (s : Selector) : Selector :=
  s <| text_press_start_pos := pos |>
    <| is_long_pressing := false |>
    <| text_press_timer := Some (mkTimer true target) |>.

(** The loop [for item in reversed(self.drawing_items)] of [mousePressEvent]. *)
Fixpoint press_text_items (pos : QPoint) (items : list ref) (s : Selector) : Flow :=
  match items with
  | [] => Next s
  | item :: rest =>
      match heap s !! item with
      | Some it =>
          if is_text_box it then
            let r := item_rect it in
            let expanded_text_area := QRect.adjusted (-8) (-8) 8 8 r in
            if QRect.contains (text_corner tl r) pos then Done (start_text_resize item tl pos s)
            else if QRect.contains (text_corner tr r) pos then Done (start_text_resize item tr pos s)
            else if QRect.contains (text_corner bl r) pos then Done (start_text_resize item bl pos s)
            else if QRect.contains (text_corner br r) pos then Done (start_text_resize item br pos s)
            else if QRect.contains expanded_text_area pos
                 then Done (start_long_press (OnItem item) pos s)
            else press_text_items pos rest s
          else press_text_items pos rest s
      | None => press_text_items pos rest s
      end
  end.

(** First part of [mousePressEvent]: a press while a text is being edited. *)
Definition press_while_editing (pos : QPoint) (s : Selector) : Flow :=
  match inline_editing s, editing_text_item s with
  | true, Some r =>
      match heap s !! r with
      | Some it =>
          if (2 <=? length (points it))%nat then
            if QRect.contains (item_rect it) pos
            then Done (start_long_press OnEditingItem pos s)
            else Next (_finish_inline_text_editing s)
          else Next s
      | None => Next s
      end
  | _, _ => Next s
  end.

(** Second part: the double click on a text. *)
Definition press_double_click (pos : QPoint) (current_time : Z) (s : Selector) : Flow :=
  if (current_time - last_click_time s <? double_click_threshold) &&
     (QPoint.manhattanLength (QPoint.sub pos (last_click_pos s)) <? 10)
  then
    match find (editable_text_at s pos) (drawing_items s) with
    | Some item => Done (_start_inline_text_editing item s)
    | None => Next s
    end
  else Next s.

(** Third part: a drawing tool is active and a selection exists. *)
Definition press_drawing (pos : QPoint) (s : Selector) : Flow :=
  if drawing_mode s && negb (QRect.isEmpty (selection_rect s)) then
    let clicked_on_text :=
      QRect.contains (selection_rect s) pos &&
      existsb (text_box_near s pos) (drawing_items s) in
    if negb clicked_on_text && bool_decide (current_tool s = T_text) &&
       QRect.contains (selection_rect s) pos
    then Done (s <| text_tool_start_pos := pos |> <| text_tool_is_dragging := false |>)
    else if negb clicked_on_text && negb (bool_decide (current_tool s = T_text)) &&
            QRect.contains (selection_rect s) pos
    then
      let item := add_point pos (DrawingItem_init (current_tool s) (drawing_color s) (drawing_width s)) in
      let '(r, s) := new_item item s in
      Done (s <| current_drawing_item := Some r |>)
    else Next s
  else Next s.

(** Fourth part: the selection's handles, the text items, the selection. *)
Definition press_selection (pos : QPoint) (s : Selector) : Flow :=
  if negb (QRect.isEmpty (selection_rect s)) then
    match find (fun hr => QRect.contains (snd hr) pos) (_get_resize_handles (selection_rect s)) with
    | Some (handle_type, _) =>
        Done (s <| resizing := true |> <| resize_handle := Some handle_type |>)
    | None =>
        go s <- (if QRect.contains (selection_rect s) pos
                 then press_text_items pos (reverse (drawing_items s)) s
                 else Next s);
        (* Fallback: selection drag *)
        if QRect.contains (selection_rect s) pos
        then Done (s <| dragging := true |>
                     <| drag_offset := QPoint.sub pos (QRect.topLeft (selection_rect s)) |>)
        else Next s
    end
  else Next s.

(** Last part: start a new selection. *)
Definition press_new_selection (pos : QPoint) (s : Selector) : Selector :=
  let s := s <| start_point := pos |> <| end_point := pos |> <| selecting := true |> in
  s <| selection_rect := QRect.normalized (QRect.pts (start_point s) (end_point s)) |>.

(** [mousePressEvent] for the left button; [current_time] is
    [int(time.time() * 1000)]. *)
Definition mousePressEvent (pos : QPoint) (current_time : Z) (s : Selector) : Selector :=
  state_of (
    go s <- press_while_editing pos s;
    go s <- press_double_click pos current_time s;
    go s <- Next (s <| last_click_time := current_time |> <| last_click_pos := pos |>);
    go s <- press_drawing pos s;
    go s <- press_selection pos s;
    Done (press_new_selection pos s)).

(** [_on_long_press_detected] *)
Definition _on_long_press_detected (text_item : option ref) (s : Selector) : Selector :=
  s <| is_long_pressing := true |>
    <| active_text_item := text_item |>
    <| text_dragging := true |>
    <| text_drag_start := text_press_start_pos s |>.

(** The single-shot timer fires: its callback runs. *)
Definition timer_timeout (s : Selector) : Selector :=
  match text_press_timer s with
  | Some (mkTimer true target) =>
      let s := s <| text_press_timer := Some (mkTimer false target) |> in
      _on_long_press_detected
        (match target with OnEditingItem => editing_text_item s | OnItem r => Some r end) s
  | _ => s
  end.

(** [_update_selection_rect] *)
Definition _update_selection_rect (s : Selector) : Selector :=
  let rect := QRect.normalized (QRect.pts (start_point s) (end_point s)) in
  s <| selection_rect := _constrain_to_screen (screen_rect s) rect |>.

(** [_resize_selection] *)
Definition _resize_selection (pos : QPoint) (s : Selector) : Selector :=
  match resize_handle s with
  | None => s
  | Some h => s <| selection_rect := resize_rect (screen_rect s) (selection_rect s) h pos |>
  end.

(** The text-item drag branch of [mouseMoveEvent] (lines 925-945). *)
Definition move_text_drag (item : ref) (it : DrawingItem) (pos : QPoint) (s : Selector) : Selector :=
  let r := item_rect it in
  let delta := QPoint.sub pos (text_drag_start s) in
  let new_rect := QRect.pt_size (QPoint.add (QRect.topLeft r) delta) (QRect.size r) in
  let new_rect := _constrain_to_screen (screen_rect s) new_rect in
  let s := update_item item (set_corners new_rect) s in
  s <| text_drag_start := pos |>.

(** The text-item resize branch of [mouseMoveEvent] (lines 946-995). *)
Definition move_text_resize (item : ref) (it : DrawingItem) (pos : QPoint) (s : Selector) : Selector :=
  let r := item_rect it in
  let current_pos := pos in
  let new_rect := r in
  let h := text_resize_handle s in
  let new_rect :=
    match h with
    | Some tl => QRect.setTopLeft current_pos new_rect
    | Some tr => QRect.setTopRight current_pos new_rect
    | Some bl => QRect.setBottomLeft current_pos new_rect
    | Some br => QRect.setBottomRight current_pos new_rect
    | Some tm => QRect.setTop (qy current_pos) new_rect
    | Some bm => QRect.setBottom (qy current_pos) new_rect
    | Some lm => QRect.setLeft (qx current_pos) new_rect
    | Some rm => QRect.setRight (qx current_pos) new_rect
    | None => new_rect
    end in
  let new_rect :=
    if QRect.width new_rect <? MIN_SELECTION_SIZE then
      match h with
      | Some tl | Some bl | Some lm =>
          QRect.setLeft (QRect.right new_rect - MIN_SELECTION_SIZE) new_rect
      | _ => QRect.setRight (QRect.left new_rect + MIN_SELECTION_SIZE) new_rect
      end
    else new_rect in
  let new_rect :=
    if QRect.height new_rect <? MIN_SELECTION_SIZE then
      match h with
      | Some tl | Some tr | Some tm =>
          QRect.setTop (QRect.bottom new_rect - MIN_SELECTION_SIZE) new_rect
      | _ => QRect.setBottom (QRect.top new_rect + MIN_SELECTION_SIZE) new_rect
      end
    else new_rect in
  let new_rect := _constrain_to_screen (screen_rect s) (QRect.normalized new_rect) in
  update_item item (set_corners new_rect) s.

(** The gesture whose item [self.active_text_item] has at least two points. *)
Definition active_text_box (s : Selector) : option (ref * DrawingItem) :=
  match active_text_item s with
  | Some item =>
      match heap s !! item with
      | Some it => if (2 <=? length (points it))%nat then Some (item, it) else None
      | None => None
      end
  | None => None
  end.

Definition timer_is_active (s : Selector) : bool :=
  match text_press_timer s with Some t => isActive t | None => false end.

(** [mouseMoveEvent] *)
Definition mouseMoveEvent (pos : QPoint) (s : Selector) : Selector :=
  state_of (
    (* a long press is given up once the pointer has moved too far *)
    go s <- Next (
      if timer_is_active s && negb (QPoint.isNull (text_press_start_pos s)) then
        let distance := QPoint.manhattanLength (QPoint.sub pos (text_press_start_pos s)) in
        if 10 <? distance then s <| text_press_timer := None |> else s
      else s);
    (* the text tool tells a drag from a click *)
    go s <- Next (
      if drawing_mode s && bool_decide (current_tool s = T_text) &&
         negb (QPoint.isNull (text_tool_start_pos s)) && negb (text_tool_is_dragging s) then
        let distance := QPoint.manhattanLength (QPoint.sub pos (text_tool_start_pos s)) in
        if text_tool_drag_threshold <? distance then
          let s := s <| text_tool_is_dragging := true |> in
          let item :=
            add_point (text_tool_start_pos s)
              (DrawingItem_init (current_tool s) (drawing_color s) (drawing_width s)) in
          let '(r, s) := new_item item s in
          s <| current_drawing_item := Some r |>
        else s
      else s);
    (* Continue drawing *)
    go s <- (match drawing_mode s, current_drawing_item s with
             | true, Some r => Done (update_item r (add_point pos) s)
             | _, _ => Next s
             end);
    (* Text item drag/resize updates *)
    go s <- (match text_dragging s, active_text_box s with
             | true, Some (item, it) => Done (move_text_drag item it pos s)
             | _, _ => Next s
             end);
    go s <- (match text_resizing s, active_text_box s with
             | true, Some (item, it) => Done (move_text_resize item it pos s)
             | _, _ => Next s
             end);
    if selecting s then Done (_update_selection_rect (s <| end_point := pos |>))
    else if resizing s && bool_decide (resize_handle s <> None)
    then Done (_resize_selection pos s)
    else if dragging s then
      let new_top_left := QPoint.sub pos (drag_offset s) in
      let new_rect := QRect.pt_size new_top_left (QRect.size (selection_rect s)) in
      Done (s <| selection_rect := _constrain_to_screen (screen_rect s) new_rect |>)
    else Done s).

(** [mouseReleaseEvent] for the left button *)
Definition mouseReleaseEvent (pos : QPoint) (s : Selector) : Selector :=
  state_of (
    go s <- Next (s <| text_press_timer := None |>);
    (* a short press on a text opens it for editing *)
    go s <- Next (
      if negb (is_long_pressing s) && negb (QPoint.isNull (text_press_start_pos s)) &&
         (QPoint.manhattanLength (QPoint.sub pos (text_press_start_pos s)) <? 10)
      then
        match find (editable_text_at s pos) (drawing_items s) with
        | Some item => _start_inline_text_editing item s
        | None => s
        end
      else s);
    go s <- Next (s <| is_long_pressing := false |> <| text_press_start_pos := QPoint.null |>);
    (* Finish text interactions first *)
    go s <- (if text_dragging s || text_resizing s then
               Done (s <| text_dragging := false |> <| text_resizing := false |>
                       <| active_text_item := None |> <| text_resize_handle := None |>)
             else Next s);
    (* Finish drawing *)
    go s <- (match drawing_mode s, current_drawing_item s with
             | true, Some r =>
                 let s := update_item r (add_point pos) s in
                 let s :=
                   if bool_decide (current_tool s = T_text) then
                     let s := update_item r (set_text_content "") s in
                     _start_inline_text_editing r s
                   else s in
                 let s := commit_item r s in
                 Done (s <| current_drawing_item := None |>
                         <| text_tool_start_pos := QPoint.null |>
                         <| text_tool_is_dragging := false |>)
             | _, _ => Next s
             end);
    (* a click of the text tool *)
    go s <- (if bool_decide (current_tool s = T_text) &&
                negb (QPoint.isNull (text_tool_start_pos s)) &&
                negb (text_tool_is_dragging s)
             then
               let s := _handle_text_input (text_tool_start_pos s) s in
               Done (s <| text_tool_start_pos := QPoint.null |>
                       <| text_tool_is_dragging := false |>)
             else Next s);
    if selecting s then
      Done (_update_selection_rect (s <| selecting := false |> <| end_point := pos |>))
    else if resizing s then Done (s <| resizing := false |> <| resize_handle := None |>)
    else if dragging s then Done (s <| dragging := false |>)
    else Done s).

(** *** Keyboard and input method *)

Inductive Key :=
  | Key_Escape | Key_Return | Key_Enter | Key_A | Key_C | Key_V
  | Key_Backspace | Key_Delete | Key_Left | Key_Right | Key_Up | Key_Down
  | Key_other.

#[global] Instance Key_eq_dec : EqDecision Key.
Proof. solve_decision. Defined.

(** [event.modifiers()], as far as the handler compares it. *)
Inductive Modifiers := NoModifier | ControlModifier | ShiftModifier | other_modifiers.

#[global] Instance Modifiers_eq_dec : EqDecision Modifiers.
Proof. solve_decision. Defined.

(** Replacing the selected range by [text], or inserting [text] at the
    cursor: the statements shared, up to the name of the inserted string, by
    the paste branch (lines 2165-2177) and the printable-key branch (lines
    2279-2292) of [keyPressEvent]. *)
Definition splice_text (text : string) (s : Selector) : Selector :=
  if negb (bool_decide (text_selection_start s = text_selection_end s)) then
    let start := Nat.min (text_selection_start s) (text_selection_end s) in
    let end_ := Nat.max (text_selection_start s) (text_selection_end s) in
    s <| text_input_buffer :=
           str_take start (text_input_buffer s) +:+ text +:+ str_drop end_ (text_input_buffer s) |>
      <| cursor_position := (start + String.length text)%nat |>
  else
    s <| text_input_buffer :=
           str_take (cursor_position s) (text_input_buffer s) +:+ text +:+
           str_drop (cursor_position s) (text_input_buffer s) |>
      <| cursor_position := (cursor_position s + String.length text)%nat |>.

(** [self.text_selection_start = self.text_selection_end = v] *)
Definition collapse_selection (v : nat) (s : Selector) : Selector :=
  s <| text_selection_end := v |> <| text_selection_start := v |>.

(** Deleting the selected range (lines 2186-2191 and 2204-2209). *)
Definition delete_selection (s : Selector) : Selector :=
  let start := Nat.min (text_selection_start s) (text_selection_end s) in
  let end_ := Nat.max (text_selection_start s) (text_selection_end s) in
  let s := s <| text_input_buffer :=
                  str_take start (text_input_buffer s) +:+ str_drop end_ (text_input_buffer s) |>
             <| cursor_position := start |> in
  collapse_selection start s.

(** The arrow keys Up and Down on the item being edited. *)
Definition font_key (up : bool) (s : Selector) : Selector :=
  match editing_text_item s with
  | Some r =>
      match heap s !! r with
      | Some it =>
          let current_size := custom_font_size it in
          let current_size :=
            if negb (bool_decide (text_size_mode it = M_custom))
            then initial_font_size it else current_size in
          let new_size :=
            if up then Z.min 100 (current_size + 2) else Z.max 8 (current_size - 2) in
          update_item r (set_custom_size new_size) s
      | None => s
      end
  | None => s
  end.

(** The Escape branch of [keyPressEvent]. *)
Definition key_escape (s : Selector) : Selector :=
  if inline_editing s then
    let s :=
      match editing_text_item s with
      | Some r =>
          if py_in r (drawing_items s)
          then s <| drawing_items := py_remove r (drawing_items s) |> else s
      | None => s
      end in
    _finish_inline_text_editing s
  else _cancel_selection s.

(** The Return/Enter branch of [keyPressEvent]. *)
Definition key_enter (s : Selector) : Selector :=
  if inline_editing s then _finish_inline_text_editing s
  else if negb (QRect.isEmpty (selection_rect s)) then _confirm_selection s
  else s.

(** The keys handled while a text is edited (lines 2142-2295). *)
Definition key_editing (key : Key) (modifiers : Modifiers) (text : string) (s : Selector) : Selector :=
  if bool_decide (key = Key_A) && bool_decide (modifiers = ControlModifier) then
    let s := s <| text_selection_start := 0%nat |> in
    let s := s <| text_selection_end := String.length (text_input_buffer s) |> in
    s <| cursor_position := text_selection_end s |>
  else if bool_decide (key = Key_C) && bool_decide (modifiers = ControlModifier) then
    if negb (bool_decide (text_selection_start s = text_selection_end s)) then
      s <| clipboard :=
             str_slice (text_selection_start s) (text_selection_end s) (text_input_buffer s) |>
    else s
  else if bool_decide (key = Key_V) && bool_decide (modifiers = ControlModifier) then
    let clipboard_text := clipboard s in
    if truthy clipboard_text then
      let s := splice_text clipboard_text s in
      collapse_selection (cursor_position s) s
    else s
  else
    match key with
    | Key_Backspace =>
        if negb (bool_decide (text_selection_start s = text_selection_end s)) then
          delete_selection s
        else if (0 <? cursor_position s)%nat then
          let s := s <| text_input_buffer :=
                          str_take (cursor_position s - 1) (text_input_buffer s) +:+
                          str_drop (cursor_position s) (text_input_buffer s) |> in
          let s := s <| cursor_position := (cursor_position s - 1)%nat |> in
          collapse_selection (cursor_position s) s
        else s
    | Key_Delete =>
        if negb (bool_decide (text_selection_start s = text_selection_end s)) then
          delete_selection s
        else if (cursor_position s <? String.length (text_input_buffer s))%nat then
          let s := s <| text_input_buffer :=
                          str_take (cursor_position s) (text_input_buffer s) +:+
                          str_drop (cursor_position s + 1) (text_input_buffer s) |> in
          collapse_selection (cursor_position s) s
        else s
    | Key_Left =>
        if bool_decide (modifiers = ShiftModifier) then
          if (0 <? cursor_position s)%nat then
            let s := s <| cursor_position := (cursor_position s - 1)%nat |> in
            s <| text_selection_end := cursor_position s |>
          else s
        else
          let s :=
            if negb (bool_decide (text_selection_start s = text_selection_end s)) then
              s <| cursor_position := Nat.min (text_selection_start s) (text_selection_end s) |>
            else if (0 <? cursor_position s)%nat then
              s <| cursor_position := (cursor_position s - 1)%nat |>
            else s in
          collapse_selection (cursor_position s) s
    | Key_Right =>
        if bool_decide (modifiers = ShiftModifier) then
          if (cursor_position s <? String.length (text_input_buffer s))%nat then
            let s := s <| cursor_position := (cursor_position s + 1)%nat |> in
            s <| text_selection_end := cursor_position s |>
          else s
        else
          let s :=
            if negb (bool_decide (text_selection_start s = text_selection_end s)) then
              s <| cursor_position := Nat.max (text_selection_start s) (text_selection_end s) |>
            else if (cursor_position s <? String.length (text_input_buffer s))%nat then
              s <| cursor_position := (cursor_position s + 1)%nat |>
            else s in
          collapse_selection (cursor_position s) s
    | Key_Up => font_key true s
    | Key_Down => font_key false s
    | _ =>
        if truthy text && isprintable text then
          let s := splice_text text s in
          collapse_selection (cursor_position s) s
        else s
    end.

(** [keyPressEvent]; [text] is [event.text()]. *)
Definition keyPressEvent (key : Key) (modifiers : Modifiers) (text : string) (s : Selector) : Selector :=
  match key with
  | Key_Escape => key_escape s
  | Key_Return | Key_Enter => key_enter s
  | _ => if inline_editing s then key_editing key modifiers text s else s
  end.

(** [inputMethodEvent]; the arguments are [event.commitString()] and
    [event.preeditString()]. *)
Definition inputMethodEvent (commit_string preedit_string : string) (s : Selector) : Selector :=
  if inline_editing s then
    let s :=
      if truthy commit_string then
        let s :=
          if negb (bool_decide (text_selection_start s = text_selection_end s)) then
            let start := Nat.min (text_selection_start s) (text_selection_end s) in
            let end_ := Nat.max (text_selection_start s) (text_selection_end s) in
            let s := s <| text_input_buffer :=
                            str_take start (text_input_buffer s) +:+ commit_string +:+
                            str_drop end_ (text_input_buffer s) |> in
            let s := s <| cursor_position := (start + String.length commit_string)%nat |> in
            collapse_selection (cursor_position s) s
          else
            let s := s <| text_input_buffer :=
                            str_take (cursor_position s) (text_input_buffer s) +:+ commit_string +:+
                            str_drop (cursor_position s) (text_input_buffer s) |> in
            s <| cursor_position := (cursor_position s + String.length commit_string)%nat |> in
        s <| preedit_text := "" |> <| preedit_cursor_pos := 0%nat |>
      else s in
    s <| preedit_text := preedit_string |>
      <| preedit_cursor_pos := String.length preedit_string |>
  else s.

(** *** Events and runs *)

Inductive Event :=
  | MousePress (pos : QPoint) (current_time : Z)
  | MouseMove (pos : QPoint)
  | MouseRelease (pos : QPoint)
  | TimerTimeout
  | KeyPress (key : Key) (modifiers : Modifiers) (text : string)
  | InputMethod (commit_string preedit_string : string)
  | Paint (bounds : QSize)
  | ToolButton (tool : Tool)
  | ColorChosen (c : QColor)
  | SizeChosen (size : Z) (is_custom : bool) (bounds : QSize)
  | UndoButton
  | RedoButton
  | CopyButton
  | SaveButton
  | CancelButton
  | ClipboardChanged (t : string).

Definition step (s : Selector) (e : Event) : Selector :=
  match e with
  | MousePress pos t => mousePressEvent pos t s
  | MouseMove pos => mouseMoveEvent pos s
  | MouseRelease pos => mouseReleaseEvent pos s
  | TimerTimeout => timer_timeout s
  | KeyPress k m t => keyPressEvent k m t s
  | InputMethod c p => inputMethodEvent c p s
  | Paint b => paintEvent b s
  | ToolButton t => _set_drawing_tool t s
  | ColorChosen c => _set_drawing_color c s
  | SizeChosen n c b => _set_brush_size n c b s
  | UndoButton => _undo_drawing s
  | RedoButton => _redo_drawing s
  | CopyButton => _confirm_selection s
  | SaveButton => _save_selection s
  | CancelButton => _cancel_selection s
  | ClipboardChanged t => s <| clipboard := t |>
  end.

Definition run (s : Selector) (es : list Event) : Selector := foldl step s es.

(** The states the overlay can be in on a screen [screen]. *)
Definition reachable (screen : QRect) (s : Selector) : Prop :=
  exists es, s = run (init screen) es.

(** * Properties *)

(** ** Running a handler symbolically *)

(** Reads attributes through assignments; [let] is left alone. *)
Ltac sel_red :=
  cbn beta iota delta [setter andb orb negb fst snd new_item update_item
       set_screen_rect set_screenshot_pixmap set_start_point set_end_point
       set_selecting set_selection_rect set_result set_closed
       set_dragging set_resizing set_resize_handle set_drag_offset
       set_drawing_mode set_current_tool set_drawing_items set_current_drawing_item
       set_drawing_color set_drawing_width set_undo_stack set_redo_stack
       set_active_text_item set_text_dragging set_text_resizing set_text_drag_start
       set_text_resize_handle set_inline_editing set_editing_text_item set_text_input_buffer
       set_cursor_position set_last_click_time set_last_click_pos set_preedit_text
       set_preedit_cursor_pos set_text_selection_start set_text_selection_end set_text_press_timer
       set_text_press_start_pos set_is_long_pressing set_text_tool_start_pos set_text_tool_is_dragging
       set_clipboard set_heap
       screen_rect screenshot_pixmap start_point end_point selecting
       selection_rect result closed dragging resizing
       resize_handle drag_offset drawing_mode current_tool drawing_items
       current_drawing_item drawing_color drawing_width undo_stack redo_stack
       active_text_item text_dragging text_resizing text_drag_start text_resize_handle
       inline_editing editing_text_item text_input_buffer cursor_position last_click_time
       last_click_pos preedit_text preedit_cursor_pos text_selection_start text_selection_end
       text_press_timer text_press_start_pos is_long_pressing text_tool_start_pos text_tool_is_dragging
       clipboard heap] in *.

Ltac no_match v :=
  lazymatch v with
  | context [match _ with _ => _ end] => fail
  | _ => idtac
  end.

(** The scrutinee of an innermost case distinction of [t], and under it
    the first operand of a boolean connective. *)
Ltac inner_scrut t :=
  match t with
  | context [match ?x with _ => _ end] =>
      match x with
      | context [match _ with _ => _ end] => inner_scrut x
      | _ => constr:(x)
      end
  end.

Ltac bool_atom x :=
  lazymatch x with
  | ?a && _ => bool_atom a
  | ?a || _ => bool_atom a
  | negb ?a => bool_atom a
  | _ => constr:(x)
  end.

(** Rewrites with the hypotheses that give the value of an attribute. *)
Ltac use_eqs :=
  repeat match goal with
    | H : ?a = ?b |- context [?a] =>
        lazymatch b with
        | true => idtac | false => idtac | None => idtac | Some _ => idtac
        | QPoint.null => idtac
        end;
        progress (rewrite H)
    end;
  change (QPoint.isNull QPoint.null) with true in *.

(** One statement of a handler is executed once the value it binds holds
    no undecided case distinction, so that none is ever copied. *)
Ltac flow_step :=
  match goal with
  | |- context G [let x := ?v in @?b x] =>
      no_match v;
      let t := eval cbv beta in (b v) in
      let g := context G [t] in change g
  | |- context G [and_then (Next ?v) ?k] =>
      no_match v;
      let t := eval cbv beta in (k v) in
      let g := context G [t] in change g
  | |- context G [and_then (Done ?v) ?k] =>
      let g := context G [Done v] in change g
  | |- context G [state_of (Done ?v)] =>
      let g := context G [v] in change g
  | |- context G [state_of (Next ?v)] =>
      let g := context G [v] in change g
  end.

Ltac case_split :=
  match goal with
  | |- ?G => let x := inner_scrut G in let y := bool_atom x in destruct y eqn:?
  end;
  try congruence.

Ltac run_handler :=
  repeat (sel_red; use_eqs; sel_red; first [flow_step | case_split]);
  sel_red; use_eqs; sel_red.

(** ** Screen constraint *)

Section Geometry.

Variable screen : QRect.

(** Case analysis on the comparisons of a block, outermost first. *)
Ltac split_ltb :=
  repeat match goal with
    | |- context [if (?a <? ?b) then _ else _] =>
        lazymatch a with context [if _ then _ else _] => fail | _ => idtac end;
        lazymatch b with context [if _ then _ else _] => fail | _ => idtac end;
        destruct (Z.ltb_spec a b); cbn [rx1 ry1 rx2 ry2] in *
    end.

Ltac rect_unfold :=
  unfold MIN_SELECTION_SIZE,
    QRect.x, QRect.y, QRect.left, QRect.top, QRect.right, QRect.bottom,
    QRect.width, QRect.height,
    QRect.moveLeft, QRect.moveTop, QRect.moveRight, QRect.moveBottom,
    QRect.setWidth, QRect.setHeight in *;
  cbn [rx1 ry1 rx2 ry2] in *.

Lemma constrain_position_size (r : QRect) :
  QRect.width (constrain_position screen r) = QRect.width r /\
  QRect.height (constrain_position screen r) = QRect.height r.
Proof.
  destruct r, screen. unfold constrain_position. rect_unfold.
  split_ltb; lia.
Qed.

Lemma ensure_minimum_size_spec (r : QRect) :
  QRect.width (ensure_minimum_size r) = Z.max MIN_SELECTION_SIZE (QRect.width r) /\
  QRect.height (ensure_minimum_size r) = Z.max MIN_SELECTION_SIZE (QRect.height r) /\
  QRect.left (ensure_minimum_size r) = QRect.left r /\
  QRect.top (ensure_minimum_size r) = QRect.top r.
Proof.
  destruct r. unfold ensure_minimum_size. rect_unfold.
  split_ltb; lia.
Qed.

Lemma final_boundary_check_size (r : QRect) :
  QRect.width (final_boundary_check screen r) = QRect.width r /\
  QRect.height (final_boundary_check screen r) = QRect.height r.
Proof.
  destruct r, screen. unfold final_boundary_check. rect_unfold.
  split_ltb; lia.
Qed.

(** Whatever goes in, a rectangle of at least the minimum size comes out. *)
Lemma constrain_min_size (r : QRect) :
  MIN_SELECTION_SIZE <= QRect.width (_constrain_to_screen screen r) /\
  MIN_SELECTION_SIZE <= QRect.height (_constrain_to_screen screen r).
Proof.
  unfold _constrain_to_screen. cbv zeta.
  destruct (final_boundary_check_size (ensure_minimum_size (constrain_position screen r)))
    as [-> ->].
  destruct (ensure_minimum_size_spec (constrain_position screen r)) as (-> & -> & _).
  lia.
Qed.

(** A rectangle of at least the minimum size is moved, never resized. *)
Lemma constrain_keeps_size (r : QRect) :
  MIN_SELECTION_SIZE <= QRect.width r ->
  MIN_SELECTION_SIZE <= QRect.height r ->
  QRect.width (_constrain_to_screen screen r) = QRect.width r /\
  QRect.height (_constrain_to_screen screen r) = QRect.height r.
Proof.
  intros Hw Hh. unfold _constrain_to_screen. cbv zeta.
  destruct (final_boundary_check_size (ensure_minimum_size (constrain_position screen r)))
    as [-> ->].
  destruct (ensure_minimum_size_spec (constrain_position screen r)) as (-> & -> & _).
  destruct (constrain_position_size r) as [-> ->].
  lia.
Qed.

(** The rectangle lies on the screen: [x >= 0], [y >= 0],
    [x + w <= screen_w], [y + h <= screen_h]. *)
Definition fits_screen (r : QRect) : Prop :=
  0 <= QRect.x r /\ 0 <= QRect.y r /\
  QRect.x r + QRect.width r <= QRect.width screen /\
  QRect.y r + QRect.height r <= QRect.height screen.

(** A rectangle of at least the minimum size that lies on the screen is
    left as it is. *)
Lemma constrain_fits_id (r : QRect) :
  MIN_SELECTION_SIZE <= QRect.width r ->
  MIN_SELECTION_SIZE <= QRect.height r ->
  fits_screen r ->
  _constrain_to_screen screen r = r.
Proof.
  unfold fits_screen. intros Hw Hh (Hx & Hy & Hr & Hb).
  assert (H1 : constrain_position screen r = r).
  { destruct r, screen. unfold constrain_position. rect_unfold.
    split_ltb; try reflexivity; exfalso; lia. }
  assert (H2 : ensure_minimum_size r = r).
  { destruct r. unfold ensure_minimum_size. rect_unfold.
    split_ltb; try reflexivity; exfalso; lia. }
  assert (H3 : final_boundary_check screen r = r).
  { destruct r, screen. unfold final_boundary_check. rect_unfold.
    split_ltb; try reflexivity; exfalso; lia. }
  unfold _constrain_to_screen. cbv zeta. rewrite H1, H2, H3. reflexivity.
Qed.

End Geometry.

(** ** Dragging moves, it does not resize *)

Section Drag.

(** The two gestures that move a rectangle: the drag of the whole
    selection, and the drag of a text item by its body. *)
Inductive DragGesture := SelectionDrag | TextBodyDrag (item : ref).

(** The rectangle a drag gesture moves. *)
Definition dragged_rect (s : Selector) (g : DragGesture) : option QRect :=
  match g with
  | SelectionDrag => Some (selection_rect s)
  | TextBodyDrag item => item_rect <$> heap s !! item
  end.

(** The gesture is the one a pointer move serves: no item is being drawn,
    the text tool is not waiting to tell a click from a drag, and for the
    selection no other gesture is flagged. *)
Definition drag_in_progress (s : Selector) (g : DragGesture) : Prop :=
  current_drawing_item s = None /\
  text_tool_start_pos s = QPoint.null /\
  match g with
  | SelectionDrag =>
      dragging s = true /\ selecting s = false /\ resizing s = false /\
      text_dragging s = false /\ text_resizing s = false
  | TextBodyDrag item =>
      text_dragging s = true /\ active_text_item s = Some item /\
      exists it, heap s !! item = Some it /\ (2 <= length (points it))%nat
  end.

(** The rectangle [r] translated as the pointer at [pos] asks for. *)
Definition translated (s : Selector) (g : DragGesture) (pos : QPoint) (r : QRect) : QRect :=
  match g with
  | SelectionDrag => QRect.pt_size (QPoint.sub pos (drag_offset s)) (QRect.size r)
  | TextBodyDrag _ =>
      QRect.pt_size (QPoint.add (QRect.topLeft r) (QPoint.sub pos (text_drag_start s))) (QRect.size r)
  end.

Lemma pt_size_size (p : QPoint) (r : QRect) :
  QRect.width (QRect.pt_size p (QRect.size r)) = QRect.width r /\
  QRect.height (QRect.pt_size p (QRect.size r)) = QRect.height r.
Proof. unfold QRect.pt_size, QRect.size, QRect.width, QRect.height. cbn. lia. Qed.

Lemma normalized_id (r : QRect) :
  0 <= QRect.width r -> 0 <= QRect.height r -> QRect.normalized r = r.
Proof.
  destruct r. unfold QRect.normalized, QRect.width, QRect.height. cbn. intros.
  destruct (Z.ltb_spec rx4 (rx3 - 1)); [lia|].
  destruct (Z.ltb_spec ry4 (ry3 - 1)); [lia|]. reflexivity.
Qed.

(** Assigning the two corners of a box to an item with at least two
    points makes that box the item's rectangle. *)
Lemma item_rect_set_corners (r : QRect) (it : DrawingItem) :
  (2 <= length (points it))%nat ->
  0 <= QRect.width r -> 0 <= QRect.height r ->
  item_rect (set_corners r it) = r.
Proof.
  intros Hlen Hw Hh. unfold item_rect, set_corners, first_point, last_point, py_set_last.
  cbn [points set_points].
  destruct (points it) as [|p0 [|p1 ps]]; cbn [length] in Hlen; try lia.
  rewrite length_insert. cbn [length Nat.pred].
  assert (Hlast : last (<[S (length ps) := QRect.bottomRight r]>
                          (<[0%nat := QRect.topLeft r]> (p0 :: p1 :: ps)))
                  = Some (QRect.bottomRight r)).
  { rewrite last_lookup, length_insert, length_insert. cbn [length Nat.pred].
    apply list_lookup_insert_eq. rewrite length_insert. cbn [length]. lia. }
  rewrite Hlast. cbn [default head insert list_insert from_option].
  transitivity (QRect.normalized r); [destruct r; reflexivity|].
  apply normalized_id; assumption.
Qed.

(** C10. During a drag of the whole selection, or of a text item by its
    body, a pointer move that finds the dragged rectangle at least 20
    pixels wide and high, and whose translated rectangle lies on the
    screen, changes the position only: the rectangle becomes the translated
    one, of the same width and height. *)
Theorem drag_move_keeps_size (s : Selector) (g : DragGesture) (pos : QPoint) (r : QRect) :
  drag_in_progress s g ->
  dragged_rect s g = Some r ->
  MIN_SELECTION_SIZE <= QRect.width r ->
  MIN_SELECTION_SIZE <= QRect.height r ->
  fits_screen (screen_rect s) (translated s g pos r) ->
  exists r',
    dragged_rect (mouseMoveEvent pos s) g = Some r' /\
    r' = translated s g pos r /\
    QRect.width r' = QRect.width r /\ QRect.height r' = QRect.height r.
Proof.
  intros (Hcur & Htool & Hg) Hr Hw Hh Hfit.
  assert (Hsz : QRect.width (translated s g pos r) = QRect.width r /\
                QRect.height (translated s g pos r) = QRect.height r).
  { destruct g; apply pt_size_size. }
  destruct Hsz as [Hsw Hsh].
  assert (Hid : _constrain_to_screen (screen_rect s) (translated s g pos r)
                = translated s g pos r).
  { apply constrain_fits_id; [lia | lia | assumption]. }
  exists (translated s g pos r). split; [|auto].
  unfold mouseMoveEvent.
  destruct g as [|item].
  - destruct Hg as (Hd & Hsel & Hres & Htd & Htr).
    cbn [dragged_rect] in *. injection Hr as <-.
    f_equal.
    run_handler.
    all: exact Hid.
  - destruct Hg as (Htd & Hact & it & Hit & Hlen).
    cbn [dragged_rect] in *. rewrite Hit in Hr. cbn in Hr. injection Hr as <-.
    assert (Hlen' : (2 <=? length (points it))%nat = true) by (apply Nat.leb_le; lia).
    unfold active_text_box.
    run_handler.
    all: unfold move_text_drag; run_handler.
    all: rewrite list_lookup_alter_eq, Hit; cbn [fmap option_fmap option_map].
    all: f_equal; fold (translated s (TextBodyDrag item) pos (item_rect it)); rewrite Hid.
    all: apply item_rect_set_corners; unfold MIN_SELECTION_SIZE in *; lia.
Qed.

End Drag.

(** ** The history lists and the object store *)

Section Invariant.

(** Every reference of the list points into a store of [n] objects. *)
Definition allocated (n : nat) (l : list nat) : Prop :=
  forall r, r ∈ l -> (r < n)%nat.

(** No reference occurs in both lists. *)
Definition disjoint (l k : list nat) : Prop :=
  forall r, r ∈ l -> r ∉ k.

(** The invariant of the three lists over a store of [n] objects:
    references are allocated, no list holds an item twice, an undone item
    is neither committed nor undoable, and the item being drawn is in none
    of the lists. *)
Record wf_view (n : nat) (items undo redo : list nat) (cur : option nat) : Prop := {
  wf_items : allocated n items;
  wf_undo : allocated n undo;
  wf_redo : allocated n redo;
  wf_cur : forall r, cur = Some r ->
             (r < n)%nat /\ (r ∉ items) /\ (r ∉ undo) /\ (r ∉ redo);
  wf_items_nodup : NoDup items;
  wf_undo_nodup : NoDup undo;
  wf_redo_nodup : NoDup redo;
  wf_undo_redo : disjoint undo redo;
  wf_items_redo : disjoint items redo
}.

Definition wf (s : Selector) : Prop :=
  wf_view (length (heap s)) (drawing_items s) (undo_stack s) (redo_stack s)
    (current_drawing_item s).

Lemma py_remove_elem_of (x y : nat) (l : list nat) : y ∈ py_remove x l -> y ∈ l.
Proof.
  induction l as [|z l IH]; cbn; [auto|].
  destruct (decide (x = z)); rewrite !elem_of_cons; [auto|].
  intros [->|H]; auto.
Qed.

Lemma py_remove_not_in (x : nat) (l : list nat) : x ∉ l -> py_remove x l = l.
Proof.
  induction l as [|y l IH]; cbn; intros H; [reflexivity|].
  apply not_elem_of_cons in H as [Hne H].
  destruct (decide (x = y)); [contradiction|]. f_equal. apply IH, H.
Qed.

Lemma py_remove_NoDup (x : nat) (l : list nat) :
  NoDup l -> NoDup (py_remove x l) /\ x ∉ py_remove x l.
Proof.
  induction l as [|y l IH]; cbn; intros H.
  - split; [constructor | apply not_elem_of_nil].
  - apply NoDup_cons in H as [Hy H]. destruct (IH H) as [IH1 IH2].
    destruct (decide (x = y)) as [->|Hne]; [auto|].
    split.
    + apply NoDup_cons. split; [|exact IH1].
      intros Hin. apply Hy. eapply py_remove_elem_of, Hin.
    + apply not_elem_of_cons. auto.
Qed.

Lemma py_remove_snoc_fresh (x : nat) (l : list nat) : x ∉ l -> py_remove x (l ++ [x]) = l.
Proof.
  induction l as [|y l IH]; cbn; intros H.
  - destruct (decide (x = x)); congruence.
  - apply not_elem_of_cons in H as [Hne H].
    destruct (decide (x = y)); [contradiction|]. f_equal. apply IH, H.
Qed.

Lemma elem_of_snoc (x y : nat) (l : list nat) : x ∈ l ++ [y] <-> x ∈ l \/ x = y.
Proof. rewrite elem_of_app, list_elem_of_singleton. reflexivity. Qed.

Lemma py_in_snoc (x : nat) (l : list nat) : py_in x (l ++ [x]) = true.
Proof. unfold py_in. apply bool_decide_eq_true, elem_of_snoc. auto. Qed.

Lemma py_in_true (x : nat) (l : list nat) : py_in x l = true <-> x ∈ l.
Proof. unfold py_in. apply bool_decide_eq_true. Qed.

Lemma py_in_false (x : nat) (l : list nat) : py_in x l = false <-> x ∉ l.
Proof. unfold py_in. apply bool_decide_eq_false. Qed.

Lemma py_pop_snoc {A} (l : list A) (x : A) : py_pop (l ++ [x]) = Some (x, l).
Proof. unfold py_pop. rewrite last_snoc, removelast_last. reflexivity. Qed.

Lemma py_pop_Some {A} (l : list A) (x : A) (rest : list A) :
  py_pop l = Some (x, rest) -> l = rest ++ [x].
Proof.
  unfold py_pop. destruct (last l) as [y|] eqn:E; [|discriminate].
  intros [= <- <-]. apply last_Some in E as [l' ->]. rewrite removelast_last. reflexivity.
Qed.

Lemma NoDup_snoc (x : nat) (l : list nat) : NoDup (l ++ [x]) <-> NoDup l /\ x ∉ l.
Proof.
  rewrite NoDup_app. split.
  - intros (H1 & H2 & _). split; [exact H1|].
    intros Hx. apply (H2 x Hx), list_elem_of_singleton. reflexivity.
  - intros [H1 H2]. split; [exact H1|]. split.
    + intros y Hy Hy'. apply list_elem_of_singleton in Hy' as ->. contradiction.
    + apply NoDup_singleton.
Qed.

Lemma allocated_mono (n n' : nat) (l : list nat) :
  (n <= n')%nat -> allocated n l -> allocated n' l.
Proof. intros Hn H r Hr. specialize (H r Hr). lia. Qed.

Lemma allocated_remove (n x : nat) (l : list nat) :
  allocated n l -> allocated n (py_remove x l).
Proof. intros H r Hr. apply H. eapply py_remove_elem_of, Hr. Qed.

Lemma allocated_snoc (n x : nat) (l : list nat) :
  allocated n l -> (x < n)%nat -> allocated n (l ++ [x]).
Proof.
  intros H Hx r Hr. apply elem_of_snoc in Hr as [Hr| ->]; auto.
Qed.

Lemma allocated_nil (n : nat) : allocated n [].
Proof. intros r Hr. apply elem_of_nil in Hr. contradiction. Qed.

Lemma allocated_fresh (n : nat) (l : list nat) : allocated n l -> n ∉ l.
Proof. intros H Hn. specialize (H n Hn). lia. Qed.

Lemma disjoint_nil_r (l : list nat) : disjoint l [].
Proof. intros r _. apply not_elem_of_nil. Qed.

Lemma disjoint_remove_l (x : nat) (l k : list nat) :
  disjoint l k -> disjoint (py_remove x l) k.
Proof. intros H r Hr. apply H. eapply py_remove_elem_of, Hr. Qed.

Lemma wf_view_mono n n' items undo redo cur :
  (n <= n')%nat -> wf_view n items undo redo cur -> wf_view n' items undo redo cur.
Proof.
  intros Hn []. split; eauto using allocated_mono.
  intros r Hr. destruct (wf_cur0 r Hr) as (Ha & Hb & Hc & Hd).
  split; [lia|auto].
Qed.

Lemma wf_view_no_current n items undo redo cur :
  wf_view n items undo redo cur -> wf_view n items undo redo None.
Proof. intros []. split; auto. discriminate. Qed.

Lemma wf_view_remove_items n items undo redo cur x :
  wf_view n items undo redo cur -> wf_view n (py_remove x items) undo redo cur.
Proof.
  intros []. split; auto using allocated_remove, disjoint_remove_l.
  - intros r Hr. destruct (wf_cur0 r Hr) as (Ha & Hb & Hc & Hd).
    split; [|split]; auto. intros Hin. apply Hb. eapply py_remove_elem_of, Hin.
  - apply py_remove_NoDup, wf_items_nodup0.
Qed.

Lemma wf_view_remove_undo n items undo redo cur x :
  wf_view n items undo redo cur -> wf_view n items (py_remove x undo) redo cur.
Proof.
  intros []. split; auto using allocated_remove, disjoint_remove_l.
  - intros r Hr. destruct (wf_cur0 r Hr) as (Ha & Hb & Hc & Hd).
    split; [|split; [|split]]; auto. intros Hin. apply Hc. eapply py_remove_elem_of, Hin.
  - apply py_remove_NoDup, wf_undo_nodup0.
Qed.

Lemma wf_view_new_current n items undo redo cur :
  wf_view n items undo redo cur -> wf_view (S n) items undo redo (Some n).
Proof.
  intros []. split; eauto using allocated_mono.
  intros r [= <-]. split; [lia|]. auto using allocated_fresh.
Qed.

Lemma wf_view_commit_current n items undo redo r :
  wf_view n items undo redo (Some r) -> wf_view n (items ++ [r]) (undo ++ [r]) [] None.
Proof.
  intros []. destruct (wf_cur0 r eq_refl) as (Hr & Hi & Hu & _).
  split; auto using allocated_snoc, allocated_nil, disjoint_nil_r.
  - discriminate.
  - apply NoDup_snoc. auto.
  - apply NoDup_snoc. auto.
  - constructor.
Qed.

Lemma wf_view_commit_new n items undo redo cur :
  wf_view n items undo redo cur -> wf_view (S n) (items ++ [n]) (undo ++ [n]) [] cur.
Proof.
  intros [].
  split; auto using allocated_nil, disjoint_nil_r;
    try (apply allocated_snoc; [eapply allocated_mono; [|eassumption]|]; lia).
  - intros r Hr. destruct (wf_cur0 r Hr) as (Ha & Hb & Hc & Hd).
    split; [lia|]. split; [|split].
    + rewrite elem_of_snoc. intros [?| ->]; [auto|lia].
    + rewrite elem_of_snoc. intros [?| ->]; [auto|lia].
    + apply not_elem_of_nil.
  - apply NoDup_snoc. auto using allocated_fresh.
  - apply NoDup_snoc. auto using allocated_fresh.
  - constructor.
Qed.

Lemma wf_view_undo n items undo redo cur x rest :
  py_pop undo = Some (x, rest) ->
  wf_view n items undo redo cur ->
  wf_view n (py_remove x items) rest (redo ++ [x]) cur.
Proof.
  intros Hpop []. apply py_pop_Some in Hpop as ->.
  apply NoDup_snoc in wf_undo_nodup0 as [Hnd Hx'].
  assert (Hx : (x < n)%nat) by (apply wf_undo0, elem_of_snoc; auto).
  assert (Hxr : x ∉ redo) by (apply wf_undo_redo0, elem_of_snoc; auto).
  destruct (py_remove_NoDup x items wf_items_nodup0) as [Hni Hxi].
  split; auto using allocated_snoc, allocated_remove.
  - intros r Hr. apply wf_undo0, elem_of_snoc. auto.
  - intros r Hr. destruct (wf_cur0 r Hr) as (Ha & Hb & Hc & Hd).
    rewrite elem_of_snoc in Hc.
    split; [|split; [|split]]; auto.
    + intros Hin. apply Hb. eapply py_remove_elem_of, Hin.
    + rewrite elem_of_snoc. intros [?| ->]; auto.
  - apply NoDup_snoc. auto.
  - intros r Hr. rewrite elem_of_snoc. intros [Hin| ->]; [|contradiction].
    apply (wf_undo_redo0 r); [apply elem_of_snoc; auto | exact Hin].
  - intros r Hr. rewrite elem_of_snoc. intros [Hin| ->]; [|contradiction].
    apply (wf_items_redo0 r); [eapply py_remove_elem_of, Hr | exact Hin].
Qed.

Lemma wf_view_redo n items undo redo cur x rest :
  py_pop redo = Some (x, rest) ->
  wf_view n items undo redo cur ->
  wf_view n (items ++ [x]) (undo ++ [x]) rest cur.
Proof.
  intros Hpop []. apply py_pop_Some in Hpop as ->.
  apply NoDup_snoc in wf_redo_nodup0 as [Hnd Hx'].
  assert (Hx : (x < n)%nat) by (apply wf_redo0, elem_of_snoc; auto).
  assert (Hxu : x ∉ undo).
  { intros Hin. apply (wf_undo_redo0 x Hin), elem_of_snoc. auto. }
  assert (Hxi : x ∉ items).
  { intros Hin. apply (wf_items_redo0 x Hin), elem_of_snoc. auto. }
  split; auto using allocated_snoc.
  - intros r Hr. apply wf_redo0, elem_of_snoc. auto.
  - intros r Hr. destruct (wf_cur0 r Hr) as (Ha & Hb & Hc & Hd).
    rewrite elem_of_snoc in Hd.
    split; [|split; [|split]]; auto; rewrite elem_of_snoc; intros [?| ->]; auto.
  - apply NoDup_snoc. auto.
  - apply NoDup_snoc. auto.
  - intros r Hr Hin. apply elem_of_snoc in Hr as [Hr| ->]; [|contradiction].
    apply (wf_undo_redo0 r Hr), elem_of_snoc. auto.
  - intros r Hr Hin. apply elem_of_snoc in Hr as [Hr| ->]; [|contradiction].
    apply (wf_items_redo0 r Hr), elem_of_snoc. auto.
Qed.

Ltac wf_close :=
  unfold wf in *; sel_red;
  rewrite ?length_alter, ?length_app; cbn [length]; rewrite ?Nat.add_1_r;
  repeat match goal with
    | E : current_drawing_item ?s = _, W : context [current_drawing_item ?s] |- _ =>
        rewrite E in W
    end;
  use_eqs;
  eauto 3 using wf_view_no_current, wf_view_remove_items, wf_view_remove_undo,
    wf_view_new_current, wf_view_commit_current, wf_view_commit_new.

Lemma wf_init (screen : QRect) : wf (init screen).
Proof.
  unfold wf. cbn.
  split; try apply allocated_nil; try apply disjoint_nil_r; try apply NoDup_nil_2.
  discriminate.
Qed.

Lemma wf_start_editing (r : ref) (s : Selector) :
  wf s -> wf (_start_inline_text_editing r s).
Proof. intros H. unfold _start_inline_text_editing. wf_close. Qed.

Lemma wf_finish_editing (s : Selector) : wf s -> wf (_finish_inline_text_editing s).
Proof.
  intros H. unfold _finish_inline_text_editing. run_handler; wf_close.
Qed.

Lemma wf_undo_drawing (s : Selector) : wf s -> wf (_undo_drawing s).
Proof.
  intros H. unfold _undo_drawing, py_append.
  destruct (py_pop (undo_stack s)) as [[item rest]|] eqn:E; [|assumption].
  pose proof (wf_view_undo _ _ _ _ _ _ _ E H) as H1.
  run_handler; [wf_close|].
  apply py_in_false in Heqb. rewrite (py_remove_not_in _ _ Heqb) in H1. wf_close.
Qed.

Lemma wf_redo_drawing (s : Selector) : wf s -> wf (_redo_drawing s).
Proof.
  intros H. unfold _redo_drawing, py_append.
  destruct (py_pop (redo_stack s)) as [[item rest]|] eqn:E; [|assumption].
  pose proof (wf_view_redo _ _ _ _ _ _ _ E H) as H1.
  run_handler; wf_close.
Qed.

Lemma wf_handle_text_input (pos : QPoint) (s : Selector) :
  wf s -> wf (_handle_text_input pos s).
Proof.
  intros H. unfold _handle_text_input, _start_inline_text_editing, commit_item, py_append.
  run_handler; wf_close.
Qed.


Lemma wf_press_text_items (pos : QPoint) (items : list ref) (s : Selector) :
  wf s -> wf (state_of (press_text_items pos items s)).
Proof.
  intros H. induction items as [|item rest IH]; cbn [press_text_items]; [exact H|].
  unfold start_text_resize, start_long_press.
  run_handler; try exact IH; wf_close.
Qed.

Definition wf_flow (f : Flow) : Prop := wf (state_of f).

Lemma wf_and_then (f : Flow) (k : Selector -> Flow) :
  wf_flow f -> (forall s, wf s -> wf (state_of (k s))) -> wf (state_of (and_then f k)).
Proof. destruct f; cbn; auto. Qed.

(** The next statement of a handler. *)
Ltac wf_seq :=
  apply wf_and_then;
  [ unfold wf_flow | let s := fresh "s" in let H := fresh "H" in intros s H; cbv beta ].

Lemma wf_press_while_editing (pos : QPoint) (s : Selector) :
  wf s -> wf_flow (press_while_editing pos s).
Proof.
  intros H. pose proof (wf_finish_editing s H) as Hf.
  unfold wf_flow, press_while_editing, start_long_press.
  run_handler; try assumption; wf_close.
Qed.

Lemma wf_press_double_click (pos : QPoint) (t : Z) (s : Selector) :
  wf s -> wf_flow (press_double_click pos t s).
Proof.
  intros H. unfold wf_flow, press_double_click.
  run_handler; try assumption.
Qed.

Lemma wf_press_drawing (pos : QPoint) (s : Selector) :
  wf s -> wf_flow (press_drawing pos s).
Proof.
  intros H. unfold wf_flow, press_drawing.
  run_handler; try assumption; wf_close.
Qed.

Lemma wf_press_selection (pos : QPoint) (s : Selector) :
  wf s -> wf_flow (press_selection pos s).
Proof.
  intros H. unfold wf_flow, press_selection.
  pose proof (wf_press_text_items pos (reverse (drawing_items s)) s H) as W.
  destruct (press_text_items pos (reverse (drawing_items s)) s) as [s1|s1];
    cbn [state_of] in W.
  all: run_handler; try assumption; wf_close.
Qed.

Lemma wf_mousePressEvent (pos : QPoint) (t : Z) (s : Selector) :
  wf s -> wf (mousePressEvent pos t s).
Proof.
  intros H. unfold mousePressEvent.
  wf_seq; [apply wf_press_while_editing, H|].
  wf_seq; [apply wf_press_double_click; assumption|].
  wf_seq; [cbn [state_of]; wf_close|].
  wf_seq; [apply wf_press_drawing; assumption|].
  wf_seq; [apply wf_press_selection; assumption|].
  unfold press_new_selection. cbn [state_of]. cbv zeta. wf_close.
Qed.

Lemma wf_move_text_drag item it pos s : wf s -> wf (move_text_drag item it pos s).
Proof. intros H. unfold move_text_drag. cbv zeta. wf_close. Qed.

Lemma wf_move_text_resize item it pos s : wf s -> wf (move_text_resize item it pos s).
Proof. intros H. unfold move_text_resize. cbv zeta. wf_close. Qed.

Lemma wf_mouseMoveEvent (pos : QPoint) (s : Selector) :
  wf s -> wf (mouseMoveEvent pos s).
Proof.
  intros H. unfold mouseMoveEvent.
  wf_seq; [run_handler; wf_close|].
  wf_seq; [run_handler; wf_close|].
  wf_seq; [run_handler; wf_close|].
  wf_seq; [run_handler; auto using wf_move_text_drag|].
  wf_seq; [run_handler; auto using wf_move_text_resize|].
  unfold _update_selection_rect, _resize_selection.
  run_handler; wf_close.
Qed.

Lemma wf_mouseReleaseEvent (pos : QPoint) (s : Selector) :
  wf s -> wf (mouseReleaseEvent pos s).
Proof.
  intros H. unfold mouseReleaseEvent.
  wf_seq; [run_handler; wf_close|].
  wf_seq; [run_handler; auto using wf_start_editing|].
  wf_seq; [run_handler; wf_close|].
  wf_seq; [run_handler; wf_close|].
  wf_seq; [unfold _start_inline_text_editing, commit_item, py_append; run_handler; wf_close|].
  wf_seq; [pose proof (wf_handle_text_input (text_tool_start_pos s4) s4 H4);
           run_handler; wf_close|].
  unfold _update_selection_rect.
  run_handler; wf_close.
Qed.

Lemma wf_timer_timeout (s : Selector) : wf s -> wf (timer_timeout s).
Proof.
  intros H. unfold timer_timeout, _on_long_press_detected. run_handler; wf_close.
Qed.

Lemma wf_close_app (s : Selector) : wf s -> wf (close_app s).
Proof. intros H. unfold close_app. wf_close. Qed.

Lemma wf_confirm_selection (s : Selector) : wf s -> wf (_confirm_selection s).
Proof.
  intros H. unfold _confirm_selection, close_app. cbv zeta. run_handler; wf_close.
Qed.

Lemma wf_keyPressEvent k m t (s : Selector) : wf s -> wf (keyPressEvent k m t s).
Proof.
  intros H. unfold keyPressEvent.
  pose proof (wf_finish_editing s H) as Hf.
  pose proof (wf_confirm_selection s H) as Hc.
  assert (He : wf (key_escape s)).
  { unfold key_escape, _cancel_selection, close_app.
    destruct (inline_editing s); [|wf_close].
    apply wf_finish_editing. run_handler; wf_close. }
  assert (Hk : wf (key_editing k m t s)).
  { unfold key_editing, font_key, splice_text, collapse_selection, delete_selection.
    run_handler; wf_close. }
  unfold key_enter. run_handler; wf_close.
Qed.

Lemma wf_inputMethodEvent c p (s : Selector) : wf s -> wf (inputMethodEvent c p s).
Proof.
  intros H. unfold inputMethodEvent, collapse_selection. run_handler; wf_close.
Qed.

Lemma wf_paintEvent b (s : Selector) : wf s -> wf (paintEvent b s).
Proof.
  intros H. unfold paintEvent, _auto_expand_text_box. cbv zeta. run_handler; wf_close.
Qed.

Lemma wf_set_brush_size n c b (s : Selector) : wf s -> wf (_set_brush_size n c b s).
Proof.
  intros H. unfold _set_brush_size, _auto_adjust_text_box_for_font_size. cbv zeta.
  run_handler; wf_close.
Qed.

Lemma wf_step (s : Selector) (e : Event) : wf s -> wf (step s e).
Proof.
  intros H. destruct e; cbn [step].
  - apply wf_mousePressEvent, H.
  - apply wf_mouseMoveEvent, H.
  - apply wf_mouseReleaseEvent, H.
  - apply wf_timer_timeout, H.
  - apply wf_keyPressEvent, H.
  - apply wf_inputMethodEvent, H.
  - apply wf_paintEvent, H.
  - unfold _set_drawing_tool. wf_close.
  - unfold _set_drawing_color. wf_close.
  - apply wf_set_brush_size, H.
  - apply wf_undo_drawing, H.
  - apply wf_redo_drawing, H.
  - apply wf_confirm_selection, H.
  - unfold _save_selection, close_app. cbv zeta. run_handler; wf_close.
  - unfold _cancel_selection, close_app. wf_close.
  - wf_close.
Qed.

Lemma wf_run (es : list Event) (s : Selector) : wf s -> wf (run s es).
Proof.
  revert s. induction es as [|e es IH]; intros s H; cbn; [exact H|].
  apply IH, wf_step, H.
Qed.

Theorem reachable_wf (screen : QRect) (s : Selector) : reachable screen s -> wf s.
Proof. intros [es ->]. apply wf_run, wf_init. Qed.

End Invariant.

(** ** Undo, redo and the text-editing session *)

Section History.

(** The committed list, the undo stack and the redo stack. *)
Definition history_view (s : Selector) :=
  (drawing_items s, undo_stack s, redo_stack s).

Lemma history_view_eq (s : Selector) (a b c : list ref) :
  history_view s = (a, b, c) ->
  drawing_items s = a /\ undo_stack s = b /\ redo_stack s = c.
Proof.
  intros E. split; [|split].
  - exact (f_equal (fun v => fst (fst v)) E).
  - exact (f_equal (fun v => snd (fst v)) E).
  - exact (f_equal snd E).
Qed.

Lemma undo_after_commit (s : Selector) (L U : list ref) (r : ref) :
  drawing_items s = L ++ [r] -> undo_stack s = U ++ [r] -> r ∉ L ->
  history_view (_undo_drawing s) = (L, U, redo_stack s ++ [r]).
Proof.
  intros Hi Hu Hr. unfold _undo_drawing, py_append.
  rewrite Hu, py_pop_snoc.
  run_handler.
  - unfold history_view. sel_red. rewrite Hi, py_remove_snoc_fresh by exact Hr. reflexivity.
  - rewrite Hi, py_in_snoc in *. discriminate.
Qed.

Lemma redo_after_undo (s : Selector) (R : list ref) (r : ref) :
  redo_stack s = R ++ [r] ->
  history_view (_redo_drawing s) = (drawing_items s ++ [r], undo_stack s ++ [r], R).
Proof.
  intros Hr. unfold _redo_drawing, py_append. rewrite Hr, py_pop_snoc.
  run_handler. reflexivity.
Qed.

Lemma mouseReleaseEvent_commit (s : Selector) (r : ref) (p : QPoint) :
  drawing_mode s = true -> current_drawing_item s = Some r ->
  text_dragging s = false -> text_resizing s = false ->
  history_view (mouseReleaseEvent p s) = (drawing_items s ++ [r], undo_stack s ++ [r], []).
Proof.
  intros Hm Hc Htd Htr.
  unfold mouseReleaseEvent, _start_inline_text_editing, commit_item, py_append.
  run_handler.
  all: reflexivity.
Qed.

Lemma handle_text_input_commit (s : Selector) (p : QPoint) :
  history_view (_handle_text_input p s)
  = (drawing_items s ++ [length (heap s)], undo_stack s ++ [length (heap s)], []) /\
  inline_editing (_handle_text_input p s) = true /\
  editing_text_item (_handle_text_input p s) = Some (length (heap s)).
Proof.
  unfold _handle_text_input, _start_inline_text_editing, commit_item, py_append.
  cbv zeta. run_handler. all: repeat split; reflexivity.
Qed.

(** Undo after a commit, then redo. *)
Lemma roundtrip (s s1 : Selector) (r : ref) :
  history_view s1 = (drawing_items s ++ [r], undo_stack s ++ [r], []) ->
  r ∉ drawing_items s ->
  history_view (_undo_drawing s1) = (drawing_items s, undo_stack s, [r]) /\
  history_view (_redo_drawing (_undo_drawing s1)) = history_view s1.
Proof.
  intros E Hr. destruct (history_view_eq _ _ _ _ E) as (E1 & E2 & E3).
  pose proof (undo_after_commit s1 _ _ r E1 E2 Hr) as Hu.
  rewrite E3 in Hu. cbn [app] in Hu. split; [exact Hu|].
  destruct (history_view_eq _ _ _ _ Hu) as (U1 & U2 & U3).
  rewrite (redo_after_undo (_undo_drawing s1) [] r U3).
  rewrite U1, U2, E. reflexivity.
Qed.

(** C2. From a reachable state in which a drawing gesture is in progress,
    the release of the pointer commits the item; undo then restores the
    committed list and the undo stack to what they were before the commit,
    and redo after that undo restores them to what they were after it. *)
Theorem commit_undo_redo_roundtrip
    (screen : QRect) (s : Selector) (r : ref) (pos : QPoint) :
  reachable screen s ->
  drawing_mode s = true -> current_drawing_item s = Some r ->
  text_dragging s = false -> text_resizing s = false ->
  let committed := mouseReleaseEvent pos s in
  let undone := _undo_drawing committed in
  let redone := _redo_drawing undone in
  (drawing_items committed = drawing_items s ++ [r] /\
   undo_stack committed = undo_stack s ++ [r]) /\
  (drawing_items undone = drawing_items s /\ undo_stack undone = undo_stack s) /\
  (drawing_items redone = drawing_items committed /\
   undo_stack redone = undo_stack committed).
Proof.
  intros Hreach Hm Hc Htd Htr. cbv zeta.
  pose proof (reachable_wf _ _ Hreach) as Hwf.
  destruct (wf_cur _ _ _ _ _ Hwf r Hc) as (_ & Hfresh & _).
  pose proof (mouseReleaseEvent_commit s r pos Hm Hc Htd Htr) as E.
  destruct (roundtrip s _ r E Hfresh) as [Hu Hr].
  rewrite E in Hr.
  destruct (history_view_eq _ _ _ _ E) as (E1 & E2 & E3).
  destruct (history_view_eq _ _ _ _ Hu) as (U1 & U2 & U3).
  destruct (history_view_eq _ _ _ _ Hr) as (R1 & R2 & R3).
  rewrite E1, E2, U1, U2, R1, R2. auto.
Qed.

(** The same round trip for the item a click of the text tool commits. *)
Lemma text_click_undo_redo_roundtrip (screen : QRect) (s : Selector) (pos : QPoint) :
  reachable screen s ->
  let committed := _handle_text_input pos s in
  let undone := _undo_drawing committed in
  let redone := _redo_drawing undone in
  (drawing_items undone = drawing_items s /\ undo_stack undone = undo_stack s) /\
  (drawing_items redone = drawing_items committed /\
   undo_stack redone = undo_stack committed).
Proof.
  intros Hreach. cbv zeta.
  pose proof (reachable_wf _ _ Hreach) as Hwf.
  destruct (handle_text_input_commit s pos) as (E & _).
  assert (Hfresh : length (heap s) ∉ drawing_items s).
  { apply allocated_fresh, Hwf. }
  destruct (roundtrip s _ _ E Hfresh) as [Hu Hr].
  rewrite E in Hr.
  destruct (history_view_eq _ _ _ _ E) as (E1 & E2 & E3).
  destruct (history_view_eq _ _ _ _ Hu) as (U1 & U2 & U3).
  destruct (history_view_eq _ _ _ _ Hr) as (R1 & R2 & R3).
  rewrite E1, E2, U1, U2, R1, R2. auto.
Qed.

(** The events of a text-editing session that leave it open: keys other
    than Escape, Return and Enter, input-method events, repaints, and the
    colour and size pickers of the toolbar. *)
Definition editing_input (e : Event) : bool :=
  match e with
  | KeyPress Key_Escape _ _ | KeyPress Key_Return _ _ | KeyPress Key_Enter _ _ => false
  | KeyPress _ _ _ | InputMethod _ _ | ClipboardChanged _ | Paint _
  | ColorChosen _ | SizeChosen _ _ _ => true
  | _ => false
  end.

Definition session_view (s : Selector) :=
  (inline_editing s, editing_text_item s, drawing_items s, undo_stack s).

Lemma session_view_eq (s : Selector) a b c d :
  session_view s = (a, b, c, d) ->
  inline_editing s = a /\ editing_text_item s = b /\
  drawing_items s = c /\ undo_stack s = d.
Proof.
  intros E. split; [|split; [|split]].
  - exact (f_equal (fun v => fst (fst (fst v))) E).
  - exact (f_equal (fun v => snd (fst (fst v))) E).
  - exact (f_equal (fun v => snd (fst v)) E).
  - exact (f_equal snd E).
Qed.

Lemma key_editing_session k m t (s : Selector) :
  session_view (key_editing k m t s) = session_view s.
Proof.
  unfold key_editing, font_key, splice_text, collapse_selection, delete_selection.
  run_handler. all: reflexivity.
Qed.

Lemma editing_input_session (e : Event) (s : Selector) :
  editing_input e = true -> session_view (step s e) = session_view s.
Proof.
  destruct e; cbn [editing_input step]; try discriminate; intros He.
  - unfold keyPressEvent.
    destruct key; try discriminate;
      (destruct (inline_editing s); [apply key_editing_session | reflexivity]).
  - unfold inputMethodEvent, collapse_selection. run_handler. all: reflexivity.
  - unfold paintEvent, _auto_expand_text_box. cbv zeta. run_handler. all: reflexivity.
  - reflexivity.
  - unfold _set_brush_size, _auto_adjust_text_box_for_font_size. cbv zeta.
    run_handler. all: reflexivity.
  - reflexivity.
Qed.

Lemma editing_inputs_session (es : list Event) (s : Selector) :
  forallb editing_input es = true -> session_view (run s es) = session_view s.
Proof.
  revert s. induction es as [|e es IH]; intros s H; cbn in *; [reflexivity|].
  apply andb_prop in H as [He Hes].
  unfold run in IH. rewrite (IH _ Hes). apply editing_input_session, He.
Qed.

(** Ending a session on a blank buffer, by Return, Enter or Escape. *)
Lemma blank_session_end (s : Selector) (r : ref) (L U : list ref) (k : Key) m t :
  k = Key_Return \/ k = Key_Enter \/ k = Key_Escape ->
  session_view s = (true, Some r, L ++ [r], U ++ [r]) ->
  r ∉ L -> r ∉ U ->
  truthy (strip (text_input_buffer s)) = false ->
  session_view (keyPressEvent k m t s) = (false, None, L, U).
Proof.
  intros Hk E HL HU Hblank. destruct (session_view_eq _ _ _ _ _ E) as (E1 & E2 & E3 & E4).
  assert (HinL : py_in r (L ++ [r]) = true) by apply py_in_snoc.
  assert (HinU : py_in r (U ++ [r]) = true) by apply py_in_snoc.
  assert (HnL : py_in r L = false) by (apply py_in_false, HL).
  unfold keyPressEvent, key_enter, key_escape, _finish_inline_text_editing.
  destruct Hk as [-> | [-> | ->]].
  all: run_handler.
  all: unfold session_view; sel_red;
    rewrite ?E3, ?E4, ?py_remove_snoc_fresh by assumption; try reflexivity.
  all: rewrite ?E3, ?E4, ?py_remove_snoc_fresh in * by assumption; congruence.
Qed.

Lemma key_editing_redo k m t (s : Selector) :
  redo_stack (key_editing k m t s) = redo_stack s.
Proof.
  unfold key_editing, font_key, splice_text, collapse_selection, delete_selection.
  run_handler. all: reflexivity.
Qed.

Lemma editing_input_redo (e : Event) (s : Selector) :
  editing_input e = true -> redo_stack (step s e) = redo_stack s.
Proof.
  destruct e; cbn [editing_input step]; try discriminate; intros He.
  - unfold keyPressEvent.
    destruct key; try discriminate;
      (destruct (inline_editing s); [apply key_editing_redo | reflexivity]).
  - unfold inputMethodEvent, collapse_selection. run_handler. all: reflexivity.
  - unfold paintEvent, _auto_expand_text_box. cbv zeta. run_handler. all: reflexivity.
  - reflexivity.
  - unfold _set_brush_size, _auto_adjust_text_box_for_font_size. cbv zeta.
    run_handler. all: reflexivity.
  - reflexivity.
Qed.

Lemma editing_inputs_redo (es : list Event) (s : Selector) :
  forallb editing_input es = true -> redo_stack (run s es) = redo_stack s.
Proof.
  revert s. induction es as [|e es IH]; intros s H; cbn in *; [reflexivity|].
  apply andb_prop in H as [He Hes].
  unfold run in IH. rewrite (IH _ Hes). apply editing_input_redo, He.
Qed.

(** Return, Enter and Escape leave the redo stack alone while a text is
    edited. *)
Lemma session_end_redo (s : Selector) (k : Key) m t :
  k = Key_Return \/ k = Key_Enter \/ k = Key_Escape ->
  inline_editing s = true ->
  redo_stack (keyPressEvent k m t s) = redo_stack s.
Proof.
  intros Hk He.
  unfold keyPressEvent, key_enter, key_escape, _finish_inline_text_editing.
  destruct Hk as [-> | [-> | ->]].
  all: run_handler.
  all: first [reflexivity | congruence].
Qed.

(** What holds of blank sessions.  A click of the text tool opens a
    session on a new item.  If, after any keys, input-method events,
    repaints and colour or size choices that leave the session open, the
    buffer is blank, ending the session by Return, Enter or Escape leaves
    the committed list and the undo stack as they were before the click:
    the new item is removed from both, and the redo stack is empty. *)
Theorem blank_text_session_leaves_history
    (screen : QRect) (s : Selector) (pos : QPoint) (es : list Event) (k : Key) m t :
  reachable screen s ->
  forallb editing_input es = true ->
  k = Key_Return \/ k = Key_Enter \/ k = Key_Escape ->
  let edited := run (_handle_text_input pos s) es in
  truthy (strip (text_input_buffer edited)) = false ->
  let ended := keyPressEvent k m t edited in
  editing_text_item edited = Some (length (heap s)) /\
  length (heap s) ∈ drawing_items edited /\
  length (heap s) ∈ undo_stack edited /\
  drawing_items ended = drawing_items s /\
  undo_stack ended = undo_stack s /\
  redo_stack ended = [] /\
  inline_editing ended = false.
Proof.
  intros Hreach Hes Hk. cbv zeta. intros Hblank.
  pose proof (reachable_wf _ _ Hreach) as Hwf.
  destruct (handle_text_input_commit s pos) as (E & Hed & Hit).
  destruct (history_view_eq _ _ _ _ E) as (E1 & E2 & E3).
  pose proof (editing_inputs_session es (_handle_text_input pos s) Hes) as Hs.
  unfold session_view at 2 in Hs. rewrite Hed, Hit, E1, E2 in Hs.
  assert (HL : length (heap s) ∉ drawing_items s) by (apply allocated_fresh, Hwf).
  assert (HU : length (heap s) ∉ undo_stack s) by (apply allocated_fresh, Hwf).
  pose proof (blank_session_end _ _ _ _ k m t Hk Hs HL HU Hblank) as He.
  destruct (session_view_eq _ _ _ _ _ Hs) as (S1 & S2 & S3 & S4).
  destruct (session_view_eq _ _ _ _ _ He) as (F1 & F2 & F3 & F4).
  rewrite (session_end_redo _ k m t Hk S1), (editing_inputs_redo es _ Hes), E3.
  rewrite S2, S3, S4, F3, F4, F1.
  repeat split; try reflexivity; apply elem_of_snoc; auto.
Qed.

(** C5, as the code has it.  Escape during a text-editing session ends the
    session and leaves the overlay open, and the edited item is removed
    from the committed list whether it was newly created or not and
    whatever the buffer holds; with a blank buffer it leaves the undo
    stack as well. *)
Theorem escape_removes_edited_item
    (screen : QRect) (s : Selector) (r : ref) m t :
  reachable screen s ->
  inline_editing s = true -> editing_text_item s = Some r ->
  let s' := keyPressEvent Key_Escape m t s in
  inline_editing s' = false /\ editing_text_item s' = None /\
  result s' = result s /\ closed s' = closed s /\
  selection_rect s' = selection_rect s /\
  drawing_items s' = py_remove r (drawing_items s) /\
  (r ∉ drawing_items s') /\
  (truthy (strip (text_input_buffer s)) = false ->
   undo_stack s' = py_remove r (undo_stack s)).
Proof.
  intros Hreach He Hr. cbv zeta.
  pose proof (reachable_wf _ _ Hreach) as Hwf.
  destruct (py_remove_NoDup r (drawing_items s) (wf_items_nodup _ _ _ _ _ Hwf)) as [_ Hnot].
  assert (Hnin : py_in r (py_remove r (drawing_items s)) = false) by (apply py_in_false, Hnot).
  unfold keyPressEvent, key_escape, _finish_inline_text_editing.
  run_handler.
  all: repeat split; try reflexivity; try assumption; try discriminate.
  all: try (rewrite py_remove_not_in; [reflexivity|]); try (apply py_in_false; assumption).
  all: try (apply py_in_false in Heqb; rewrite (py_remove_not_in _ _ Heqb); assumption).
  all: try (apply py_in_false in Heqb; exact Heqb).
Qed.

End History.

(** ** The inline text editor *)

Section Editor.

(** Decides the equalities between constructors. *)
Ltac decide_consts :=
  repeat match goal with
    | |- context [bool_decide (?a = ?b)] =>
        first [ rewrite (bool_decide_eq_true_2 (a = b)) by reflexivity
              | rewrite (bool_decide_eq_false_2 (a = b)) by discriminate ]
    end.

(** Pasting [text]: Ctrl+V with [text] on the clipboard. *)
Definition paste (text : string) (s : Selector) : Selector :=
  keyPressEvent Key_V ControlModifier "" (s <| clipboard := text |>).

(** The selected range is empty. *)
Definition no_selection (s : Selector) : Prop :=
  text_selection_start s = text_selection_end s.

(** An input-method commit and a paste of the same string agree on the
    buffer and on the cursor; they agree on the selection range when a
    range is selected, and when none is selected the commit leaves the
    range where it was while the paste collapses it onto the cursor. *)
Lemma ime_commit_and_paste (s : Selector) (text preedit : string) :
  inline_editing s = true -> truthy text = true ->
  let ime := inputMethodEvent text preedit s in
  let pasted := paste text s in
  text_input_buffer ime = text_input_buffer pasted /\
  cursor_position ime = cursor_position pasted /\
  preedit_text ime = preedit /\
  preedit_cursor_pos ime = String.length preedit /\
  (text_selection_start pasted = cursor_position pasted /\
   text_selection_end pasted = cursor_position pasted) /\
  (~ no_selection s ->
   text_selection_start ime = text_selection_start pasted /\
   text_selection_end ime = text_selection_end pasted) /\
  (no_selection s ->
   text_selection_start ime = text_selection_start s /\
   text_selection_end ime = text_selection_end s).
Proof.
  intros He Ht. cbv zeta. unfold no_selection.
  unfold paste, inputMethodEvent, keyPressEvent, key_editing, splice_text, collapse_selection.
  decide_consts. run_handler.
  all: repeat split; try reflexivity; try congruence.
  all: exfalso;
    match goal with
    | E : bool_decide _ = true |- _ => apply bool_decide_eq_true in E
    | E : bool_decide _ = false |- _ => apply bool_decide_eq_false in E
    end; congruence.
Qed.

(** The base the arrow keys step from: the custom size once the item is in
    custom mode, else the size recorded when the item was created. *)
Definition font_key_base (it : DrawingItem) : Z :=
  match text_size_mode it with
  | M_custom => custom_font_size it
  | M_auto => initial_font_size it
  end.

(** Up and Down on the item being edited: the item goes to custom mode
    with the size [min 100 (base + 2)] or [max 8 (base - 2)]; the result is
    within [8 .. 100] when the base is. *)
Lemma font_key_spec (s : Selector) (r : ref) (it : DrawingItem) (up : bool) m t :
  inline_editing s = true -> editing_text_item s = Some r -> heap s !! r = Some it ->
  let s' := keyPressEvent (if up then Key_Up else Key_Down) m t s in
  exists it',
    heap s' !! r = Some it' /\
    text_size_mode it' = M_custom /\
    custom_font_size it' =
      (if up then Z.min 100 (font_key_base it + 2) else Z.max 8 (font_key_base it - 2)) /\
    (8 <= font_key_base it <= 100 -> 8 <= custom_font_size it' <= 100).
Proof.
  intros He Hr Hit. cbv zeta.
  assert (E : keyPressEvent (if up then Key_Up else Key_Down) m t s = font_key up s).
  { unfold keyPressEvent, key_editing. destruct up; rewrite He; decide_consts; reflexivity. }
  rewrite E. unfold font_key. rewrite Hr, Hit.
  unfold update_item. sel_red. rewrite list_lookup_alter_eq, Hit.
  cbn [fmap option_fmap option_map].
  eexists. split; [reflexivity|].
  unfold font_key_base. cbn [text_size_mode custom_font_size set_custom_size].
  destruct (text_size_mode it), up; decide_consts; cbn [negb];
    repeat split; try reflexivity; lia.
Qed.

End Editor.

(** ** The exported image *)

Section CompositeImage.

(** What a list of painter calls leaves on a fresh device. *)
Definition marks (calls : list PaintCall) : list Mark :=
  snd (paint painter_init calls).










(** What [_confirm_selection] hands over: the marks on the composite and
    the rectangle it is cropped to. *)
Definition exported (s : Selector) : option (list Mark * QRect) :=
  match result s with
  | Some (Copy _ (Some c)) => Some (marks (composite_calls c), crop c)
  | _ => None
  end.

End CompositeImage.

(** ** Drawing a shape *)

Section Drawing.

(** A drawing gesture is in progress on the item [r]: a shape, pen or
    arrow tool is active and no text item is being moved. *)
Definition drawing_gesture (s : Selector) (r : ref) (it : DrawingItem) : Prop :=
  drawing_mode s = true /\ current_drawing_item s = Some r /\
  heap s !! r = Some it /\ current_tool s <> T_text /\
  text_dragging s = false /\ text_resizing s = false.

(** What a drawing gesture reads and writes. *)
Definition gesture_view (s : Selector) :=
  (drawing_mode s, current_drawing_item s, current_tool s, text_dragging s, text_resizing s,
   drawing_items s, undo_stack s, heap s).

Lemma mouseMoveEvent_drawing (s : Selector) (r : ref) (p : QPoint) :
  drawing_mode s = true -> current_drawing_item s = Some r -> current_tool s <> T_text ->
  gesture_view (mouseMoveEvent p s) =
  (true, Some r, current_tool s, text_dragging s, text_resizing s,
   drawing_items s, undo_stack s, alter (add_point p) r (heap s)).
Proof.
  intros Hm Hc Ht.
  assert (Ht' : bool_decide (current_tool s = T_text) = false)
    by (apply bool_decide_eq_false; exact Ht).
  unfold mouseMoveEvent.
  run_handler.
  all: unfold gesture_view; run_handler; reflexivity.
Qed.

Lemma move_while_drawing (s : Selector) (r : ref) (it : DrawingItem) (p : QPoint) :
  drawing_gesture s r it ->
  drawing_gesture (mouseMoveEvent p s) r (add_point p it) /\
  drawing_items (mouseMoveEvent p s) = drawing_items s /\
  undo_stack (mouseMoveEvent p s) = undo_stack s.
Proof.
  intros (Hm & Hc & Hit & Ht & Htd & Htr).
  pose proof (mouseMoveEvent_drawing s r p Hm Hc Ht) as E.
  unfold gesture_view in E. injection E as E1 E2 E3 E4 E5 E6 E7 E8.
  unfold drawing_gesture.
  rewrite E1, E2, E3, E4, E5, E6, E7, E8, list_lookup_alter_eq, Hit.
  cbn. auto 10.
Qed.

Lemma moves_while_drawing (moves : list QPoint) (s : Selector) (r : ref) (it : DrawingItem) :
  drawing_gesture s r it ->
  let s' := foldl (fun s p => mouseMoveEvent p s) s moves in
  drawing_gesture s' r (set_points (points it ++ moves) it) /\
  drawing_items s' = drawing_items s /\ undo_stack s' = undo_stack s.
Proof.
  revert s it. induction moves as [|p moves IH]; intros s it H; cbn [foldl].
  - rewrite app_nil_r. destruct it; cbn. auto.
  - destruct (move_while_drawing s r it p H) as (H1 & H2 & H3).
    destruct (IH _ _ H1) as (H4 & H5 & H6).
    rewrite H5, H6, H2, H3. split; [|auto].
    replace (set_points (points it ++ p :: moves) it)
      with (set_points (points (add_point p it) ++ moves) (add_point p it)); [exact H4|].
    unfold add_point, py_append, set_points. cbn. rewrite <- app_assoc. reflexivity.
Qed.

Definition store_view (s : Selector) :=
  (heap s, drawing_items s, undo_stack s, redo_stack s, current_drawing_item s).

Lemma mouseReleaseEvent_drawing (s : Selector) (r : ref) (p : QPoint) :
  drawing_mode s = true -> current_drawing_item s = Some r -> current_tool s <> T_text ->
  text_dragging s = false -> text_resizing s = false ->
  store_view (mouseReleaseEvent p s) =
  (alter (add_point p) r (heap s), drawing_items s ++ [r], undo_stack s ++ [r], [], None).
Proof.
  intros Hm Hc Ht Htd Htr.
  assert (Ht' : bool_decide (current_tool s = T_text) = false)
    by (apply bool_decide_eq_false; exact Ht).
  unfold mouseReleaseEvent, _start_inline_text_editing, commit_item, py_append.
  run_handler.
  all: reflexivity.
Qed.

(** The shape of what [draw] paints for the shape tools depends on the first
    and the last point only. *)
Lemma draw_shape_corners (dev : Device) (it : DrawingItem) (p0 : QPoint) (mid : list QPoint) (p1 : QPoint) :
  tool_type it = T_rectangle \/ tool_type it = T_circle \/ tool_type it = T_arrow ->
  draw dev (set_points (p0 :: mid ++ [p1]) it) = draw dev (set_points [p0; p1] it).
Proof.
  intros Ht. unfold draw, item_rect, first_point, last_point.
  cbn [points set_points tool_type color width].
  assert (Hlast : last (p0 :: mid ++ [p1]) = Some p1).
  { change (p0 :: mid ++ [p1]) with ((p0 :: mid) ++ [p1]). apply last_snoc. }
  assert (Hlen : (2 <=? length (p0 :: mid ++ [p1]))%nat = true).
  { apply Nat.leb_le. cbn [length]. rewrite length_app. cbn. lia. }
  rewrite Hlast, Hlen. cbn [last head default from_option length Nat.leb].
  destruct Ht as [-> | [-> | ->]]; reflexivity.
Qed.

(** C6, as the code has it.  While a Rectangle, Circle or Arrow gesture is
    in progress every pointer move appends its position to the item, as for
    the pen: the committed item holds the press point, every move point in
    order, and the release point.  The first and the last of them are the
    two corners, and they alone decide what is drawn. *)
Theorem shape_gesture_points
    (s : Selector) (r : ref) (it : DrawingItem) (press : QPoint)
    (moves : list QPoint) (release : QPoint) :
  drawing_gesture s r it ->
  points it = [press] ->
  let s' := mouseReleaseEvent release (foldl (fun s p => mouseMoveEvent p s) s moves) in
  exists it',
    heap s' !! r = Some it' /\
    drawing_items s' = drawing_items s ++ [r] /\
    undo_stack s' = undo_stack s ++ [r] /\
    points it' = press :: moves ++ [release] /\
    first_point it' = press /\ last_point it' = release /\
    (tool_type it = T_rectangle \/ tool_type it = T_circle \/ tool_type it = T_arrow ->
     forall dev, draw dev it' = draw dev (set_points [press; release] it')).
Proof.
  intros H Hp. cbn zeta.
  destruct (moves_while_drawing moves s r it H) as ((Hm & Hc & Hit & Ht & Htd & Htr) & Hi & Hu).
  set (s1 := foldl _ s moves) in *.
  pose proof (mouseReleaseEvent_drawing s1 r release Hm Hc Ht Htd Htr) as E.
  unfold store_view in E. injection E as E1 E2 E3 E4 E5.
  rewrite E1, E2, E3, Hi, Hu, list_lookup_alter_eq, Hit. cbn [fmap option_fmap option_map].
  eexists. split; [reflexivity|].
  assert (Hpts : points (add_point release (set_points (points it ++ moves) it))
                 = press :: moves ++ [release]).
  { unfold add_point, py_append. cbn [points set_points]. rewrite Hp. reflexivity. }
  repeat split; try reflexivity.
  - exact Hpts.
  - unfold first_point. rewrite Hpts. reflexivity.
  - unfold last_point. rewrite Hpts.
    change (press :: moves ++ [release]) with ((press :: moves) ++ [release]).
    rewrite last_snoc. reflexivity.
  - intros Htool dev.
    set (it' := add_point release _) in *.
    assert (Eit : it' = set_points (press :: moves ++ [release]) it').
    { rewrite <- Hpts. destruct it'; reflexivity. }
    rewrite Eit at 1.
    rewrite draw_shape_corners; [reflexivity|]. exact Htool.
Qed.

End Drawing.

(** ** What a press starts *)

Section HitTest.

(** What a press at [pos] meets on a text box: one of the four corners,
    tested in the order tl, tr, bl, br, or else the body grown by 8 pixels
    ([Some None]), or nothing. *)
Definition text_box_hit (it : DrawingItem) (pos : QPoint) : option (option TextHandle) :=
  let r := item_rect it in
  if QRect.contains (text_corner tl r) pos then Some (Some tl)
  else if QRect.contains (text_corner tr r) pos then Some (Some tr)
  else if QRect.contains (text_corner bl r) pos then Some (Some bl)
  else if QRect.contains (text_corner br r) pos then Some (Some br)
  else if QRect.contains (QRect.adjusted (-8) (-8) 8 8 r) pos then Some None
  else None.

Definition text_hit (s : Selector) (pos : QPoint) (item : ref)
  : option (ref * option TextHandle) :=
  match heap s !! item with
  | Some it =>
      if is_text_box it then (fun h => (item, h)) <$> text_box_hit it pos else None
  | None => None
  end.

(** The topmost text item under the pointer: the last committed one that
    is hit, with the part of it that is hit. *)
Definition topmost_text_hit (s : Selector) (pos : QPoint) : option (ref * option TextHandle) :=
  head (omap (text_hit s pos) (reverse (drawing_items s))).

(** The first handle of the selection, in the order of the dictionary,
    that holds [pos]. *)
Definition selection_handle_hit (s : Selector) (pos : QPoint) : option Handle :=
  fst <$> find (fun hr => QRect.contains (snd hr) pos) (_get_resize_handles (selection_rect s)).

Inductive Target :=
  | OnSelectionHandle (h : Handle)
  | OnTextCorner (item : ref) (c : TextHandle)
  | OnTextBody (item : ref)
  | OnSelectionBody
  | OnEmptySpace.

(** The target of a press by precedence: (1) the resize handles of the
    selection; then, inside the selection only, (2) the text items from the
    topmost down, for each its corners before its body; (3) the selection
    body; (4) empty space. *)
Definition press_target (s : Selector) (pos : QPoint) : Target :=
  match selection_handle_hit s pos with
  | Some h => OnSelectionHandle h
  | None =>
      if QRect.contains (selection_rect s) pos then
        match topmost_text_hit s pos with
        | Some (item, Some c) => OnTextCorner item c
        | Some (item, None) => OnTextBody item
        | None => OnSelectionBody
        end
      else OnEmptySpace
  end.

(** The attributes that say which gesture is under way. *)
Definition gesture_flags (s : Selector) :=
  (resizing s, resize_handle s, (text_resizing s, active_text_item s, text_resize_handle s),
   text_press_timer s, dragging s, selecting s).

(** The flags after the gesture for [target] has started from [s]. *)
Definition started (s : Selector) (target : Target) :=
  match target with
  | OnSelectionHandle h =>
      (true, Some h, (text_resizing s, active_text_item s, text_resize_handle s),
       text_press_timer s, dragging s, selecting s)
  | OnTextCorner item c =>
      (resizing s, resize_handle s, (true, Some item, Some c),
       text_press_timer s, dragging s, selecting s)
  | OnTextBody item =>
      (resizing s, resize_handle s, (text_resizing s, active_text_item s, text_resize_handle s),
       Some (mkTimer true (OnItem item)), dragging s, selecting s)
  | OnSelectionBody =>
      (resizing s, resize_handle s, (text_resizing s, active_text_item s, text_resize_handle s),
       text_press_timer s, true, selecting s)
  | OnEmptySpace =>
      (resizing s, resize_handle s, (text_resizing s, active_text_item s, text_resize_handle s),
       text_press_timer s, dragging s, true)
  end.

Lemma press_text_items_spec (pos : QPoint) (items : list ref) (s : Selector) :
  press_text_items pos items s =
  match head (omap (text_hit s pos) items) with
  | Some (item, Some c) => Done (start_text_resize item c pos s)
  | Some (item, None) => Done (start_long_press (OnItem item) pos s)
  | None => Next s
  end.
Proof.
  induction items as [|item rest IH]; [reflexivity|].
  cbn [press_text_items omap list_omap]. unfold text_hit at 1.
  destruct (heap s !! item) as [it|]; [|exact IH].
  destruct (is_text_box it); [|exact IH].
  unfold text_box_hit. cbv zeta.
  repeat match goal with
    | |- context [if QRect.contains ?a ?b then _ else _] =>
        destruct (QRect.contains a b); [reflexivity|]
    end.
  exact IH.
Qed.

(** Precedence of the hit targets of [mousePressEvent]: on a press outside
    text editing, outside a double click and with no drawing tool active,
    over a non-empty selection, the gesture that starts is the one of
    [press_target]: the selection's resize handles come first, then (inside
    the selection) the text items from the topmost down with corners before
    body, then the selection body, then empty space; the flags of all other
    gestures stay as they were. *)
Theorem press_precedence (s : Selector) (pos : QPoint) (t : Z) :
  inline_editing s = false ->
  double_click_threshold <= t - last_click_time s ->
  drawing_mode s = false ->
  QRect.isEmpty (selection_rect s) = false ->
  gesture_flags (mousePressEvent pos t s) = started s (press_target s pos).
Proof.
  intros Hedit Hclick Hmode Hsel.
  assert (Hlt : (t - last_click_time s <? double_click_threshold) = false)
    by (apply Z.ltb_ge; exact Hclick).
  unfold mousePressEvent, press_while_editing, press_double_click, press_drawing,
    press_selection, press_target, selection_handle_hit, topmost_text_hit.
  rewrite Hedit. repeat flow_step. rewrite Hlt. cbn [andb].
  repeat flow_step. sel_red. rewrite Hmode. cbn [andb negb].
  repeat flow_step. sel_red. rewrite Hsel. cbn [negb].
  destruct (find _ _) as [[h hr]|]; [reflexivity|].
  cbn [fmap option_fmap option_map].
  destruct (QRect.contains (selection_rect s) pos) eqn:Hin.
  - rewrite press_text_items_spec.
    set (s1 := s <| last_click_time := t |> <| last_click_pos := pos |>).
    change (text_hit s1 pos) with (text_hit s pos).
    destruct (head _) as [[item [c|]]|].
    + reflexivity.
    + reflexivity.
    + repeat flow_step. subst s1. sel_red. rewrite Hin. reflexivity.
  - repeat flow_step. sel_red. rewrite Hin. reflexivity.
Qed.

End HitTest.

(** ** Runs of the overlay on an 800 x 600 screen *)

Module Scenario.

Definition screen : QRect := QRect.xywh 0 0 800 600.

(** Dragging out the selection from (100,100) to (299,249). *)
Definition select_region : list Event :=
  [ MousePress (mkQPoint 100 100) 1000000;
    MouseMove (mkQPoint 200 200);
    MouseRelease (mkQPoint 299 249) ].

(** With that selection: a click of the text tool at (110,110), the keys
    [H] and [i], and Return. *)
Definition type_hi : list Event :=
  select_region ++
  [ ToolButton T_text;
    MousePress (mkQPoint 110 110) 1005000;
    MouseRelease (mkQPoint 110 110);
    KeyPress Key_other NoModifier "H";
    KeyPress Key_other NoModifier "i";
    KeyPress Key_Return NoModifier "" ].

(** A press inside the selection with the select tool: the selection is
    being dragged. *)
Definition dragging_selection : Selector :=
  run (init screen) (select_region ++ [MousePress (mkQPoint 200 200) 1005000]).

(** A long press on the text "Hi": the text item is being dragged. *)
Definition dragging_text : Selector :=
  run (init screen)
    (type_hi ++ [ToolButton T_select; MousePress (mkQPoint 200 150) 1010000; TimerTimeout]).

Example dragging_selection_rect :
  selection_rect dragging_selection = QRect.xywh 100 100 200 150.
Proof. reflexivity. Qed.

Example dragging_text_item :
  active_text_item dragging_text = Some 0%nat /\
  item_rect <$> heap dragging_text !! 0%nat = Some (QRect.xywh 110 110 251 81).
Proof. split; vm_compute; reflexivity. Qed.

(** With the selection: the arrow tool is pressed at (150,150). *)
Definition arrow_pressed : Selector :=
  run (init screen)
    (select_region ++ [ToolButton T_arrow; MousePress (mkQPoint 150 150) 1005000]).

Definition arrow_item : DrawingItem :=
  add_point (mkQPoint 150 150) (DrawingItem_init T_arrow QColor_red 3).

(** The arrow of Scenario B: dragged from (150,150) over (200,150) to
    (250,150). *)
Definition draw_arrow : list Event :=
  select_region ++
  [ ToolButton T_arrow;
    MousePress (mkQPoint 150 150) 1005000;
    MouseMove (mkQPoint 200 150);
    MouseRelease (mkQPoint 250 150) ].

(** The selection (700,100)-(789,149), then its left edge handle dragged
    to x = 781. *)
Definition resize_left_edge : list Event :=
  [ MousePress (mkQPoint 700 100) 1000000;
    MouseMove (mkQPoint 750 120);
    MouseRelease (mkQPoint 789 149);
    MousePress (mkQPoint 700 124) 1005000;
    MouseMove (mkQPoint 781 124) ].

(** The text "Hi" is clicked and so opened for editing. *)
Definition editing_hi : Selector :=
  run (init screen)
    (type_hi ++ [MousePress (mkQPoint 200 150) 1010000; MouseRelease (mkQPoint 200 150)]).

(** The text "Hi" is opened, [!] is typed, Escape is pressed. *)
Definition edit_hi_escape : list Event :=
  type_hi ++
  [ MousePress (mkQPoint 200 150) 1010000;
    MouseRelease (mkQPoint 200 150);
    KeyPress Key_other NoModifier "!";
    KeyPress Key_Escape NoModifier "" ].

(** A click of the text tool at (110,110): a new, empty text item is
    open for editing. *)
Definition new_text : Selector :=
  run (init screen)
    (select_region ++
     [ ToolButton T_text;
       MousePress (mkQPoint 110 110) 1005000;
       MouseRelease (mkQPoint 110 110) ]).

(** A selection (100,100)-(499,399), the text "Hi" typed at (110,110) and
    finished with Return. *)
Definition hi_in_large_selection : list Event :=
  [ MousePress (mkQPoint 100 100) 1000000;
    MouseMove (mkQPoint 300 300);
    MouseRelease (mkQPoint 499 399);
    ToolButton T_text;
    MousePress (mkQPoint 110 110) 1005000;
    MouseRelease (mkQPoint 110 110);
    KeyPress Key_other NoModifier "H";
    KeyPress Key_other NoModifier "i";
    KeyPress Key_Return NoModifier "" ].

(** The same, confirmed with Return: the selection is copied. *)
Definition export_hi : list Event :=
  hi_in_large_selection ++ [KeyPress Key_Return NoModifier ""].

(** The text "Hi" is committed and the select tool is chosen again. *)
Definition hi_selected : Selector :=
  run (init screen) (type_hi ++ [ToolButton T_select]).

(** The committed text item "Hi". *)
Definition hi_item : DrawingItem :=
  set_text_content "Hi"
    (add_point (mkQPoint 360 190)
       (add_point (mkQPoint 110 110) (DrawingItem_init T_text QColor_red 3))).

(** A click of the text tool at (110,110) opens a session on a new item;
    Undo on the toolbar, then Return on the blank buffer. *)
Definition blank_text_undone : list Event :=
  select_region ++
  [ ToolButton T_text;
    MousePress (mkQPoint 110 110) 1005000;
    MouseRelease (mkQPoint 110 110);
    UndoButton;
    KeyPress Key_Return NoModifier "" ].

(** In the selection (100,100)-(499,399) the text "Hi" is typed at
    (150,150); a click at (110,110) opens a session on a second, new
    item. *)
Definition second_text_opened : list Event :=
  [ MousePress (mkQPoint 100 100) 1000000;
    MouseMove (mkQPoint 300 300);
    MouseRelease (mkQPoint 499 399);
    ToolButton T_text;
    MousePress (mkQPoint 150 150) 1005000;
    MouseRelease (mkQPoint 150 150);
    KeyPress Key_other NoModifier "H";
    KeyPress Key_other NoModifier "i";
    KeyPress Key_Return NoModifier "";
    MousePress (mkQPoint 110 110) 1010000;
    MouseRelease (mkQPoint 110 110) ].

(** Then a click at (200,160), inside the box under edit and on the text
    "Hi", and Return. *)
Definition second_text_abandoned : list Event :=
  second_text_opened ++
  [ MousePress (mkQPoint 200 160) 1015000;
    MouseRelease (mkQPoint 200 160);
    KeyPress Key_Return NoModifier "" ].

End Scenario.

(** The selection dragged by (30,20) and the text item dragged by (10,20)
    keep their sizes. *)
Lemma drag_move_keeps_size_witness :
  (exists r',
     dragged_rect (mouseMoveEvent (mkQPoint 230 220) Scenario.dragging_selection)
       SelectionDrag = Some r' /\
     r' = QRect.xywh 130 120 200 150 /\
     QRect.width r' = 200 /\ QRect.height r' = 150) /\
  (exists r',
     dragged_rect (mouseMoveEvent (mkQPoint 210 170) Scenario.dragging_text)
       (TextBodyDrag 0) = Some r' /\
     r' = QRect.xywh 120 130 251 81 /\
     QRect.width r' = 251 /\ QRect.height r' = 81).
Proof.
  split.
  - apply (drag_move_keeps_size Scenario.dragging_selection SelectionDrag
             (mkQPoint 230 220) (QRect.xywh 100 100 200 150)).
    + repeat split; reflexivity.
    + reflexivity.
    + vm_compute; discriminate.
    + vm_compute; discriminate.
    + repeat split; vm_compute; discriminate.
  - apply (drag_move_keeps_size Scenario.dragging_text (TextBodyDrag 0)
             (mkQPoint 210 170) (QRect.xywh 110 110 251 81)).
    + repeat split; try reflexivity.
      vm_compute; eexists; split; [reflexivity | vm_compute; lia].
    + reflexivity.
    + vm_compute; discriminate.
    + vm_compute; discriminate.
    + repeat split; vm_compute; discriminate.
Defined.

(** Scenario B with one pointer move between press and release. *)
Lemma shape_gesture_points_witness :
  exists it',
    heap (mouseReleaseEvent (mkQPoint 250 150)
            (foldl (fun s p => mouseMoveEvent p s) Scenario.arrow_pressed [mkQPoint 200 150]))
      !! 0%nat = Some it' /\
    points it' = [mkQPoint 150 150; mkQPoint 200 150; mkQPoint 250 150].
Proof.
  destruct (shape_gesture_points Scenario.arrow_pressed 0 Scenario.arrow_item
              (mkQPoint 150 150) [mkQPoint 200 150] (mkQPoint 250 150))
    as (it' & H1 & _ & _ & H4 & _).
  - vm_compute. repeat split; try reflexivity. discriminate.
  - reflexivity.
  - exists it'. split; assumption.
Defined.

(** C6, as stated, fails: the arrow dragged from (150,150) to (250,150)
    over (200,150) is committed with three points, not with the two
    corner points. *)
Lemma arrow_keeps_move_points :
  let s := run (init Scenario.screen) Scenario.draw_arrow in
  drawing_items s = [0%nat] /\
  points <$> heap s !! 0%nat
    = Some [mkQPoint 150 150; mkQPoint 200 150; mkQPoint 250 150] /\
  points <$> heap s !! 0%nat <> Some [mkQPoint 150 150; mkQPoint 250 150].
Proof. vm_compute. repeat split; try reflexivity. discriminate. Qed.

(** ** Resizing the selection *)

(** The right and bottom pixel of a constrained rectangle never pass the
    width and height of the screen: [x + w <= screen_w + 1]. *)
Lemma constrain_right_bottom (screen r : QRect) :
  QRect.right (_constrain_to_screen screen r) <= QRect.width screen /\
  QRect.bottom (_constrain_to_screen screen r) <= QRect.height screen.
Proof.
  unfold _constrain_to_screen. cbv zeta.
  generalize (ensure_minimum_size (constrain_position screen r)). intros c.
  destruct c, screen. unfold final_boundary_check.
  unfold QRect.right, QRect.bottom, QRect.width, QRect.height, QRect.moveLeft, QRect.moveTop.
  cbn [rx1 ry1 rx2 ry2].
  repeat match goal with
    | |- context [if (?a <? ?b) then _ else _] =>
        lazymatch a with context [if _ then _ else _] => fail | _ => idtac end;
        lazymatch b with context [if _ then _ else _] => fail | _ => idtac end;
        destruct (Z.ltb_spec a b); cbn [rx1 ry1 rx2 ry2] in *
    end; lia.
Qed.

(** Every resize drag yields a selection of at least the minimum size. *)
Lemma resize_min_size (screen selection : QRect) (h : Handle) (pos : QPoint) :
  MIN_SELECTION_SIZE <= QRect.width (resize_rect screen selection h pos) /\
  MIN_SELECTION_SIZE <= QRect.height (resize_rect screen selection h pos).
Proof. apply constrain_min_size. Qed.

(** C1 at a failing input.  On the 800 x 600 screen the selection
    (700,100,90,50) has its left edge handle dragged to x = 781, a position
    on the screen.  The selection becomes (781,100,20,50): it ends at
    x + w = 801, one pixel past the screen width of 800. *)
Theorem resize_drag_leaves_screen :
  let s := run (init Scenario.screen) Scenario.resize_left_edge in
  resizing s = true /\ resize_handle s = Some HLeft /\
  selection_rect s = QRect.xywh 781 100 20 50 /\
  ~ (QRect.x (selection_rect s) + QRect.width (selection_rect s)
     <= QRect.width Scenario.screen).
Proof. vm_compute. repeat split; try reflexivity. intros H. apply H. reflexivity. Qed.

(** The arrow of Scenario B committed, undone and redone. *)
Lemma commit_undo_redo_roundtrip_witness :
  let committed := mouseReleaseEvent (mkQPoint 250 150) Scenario.arrow_pressed in
  let undone := _undo_drawing committed in
  let redone := _redo_drawing undone in
  (drawing_items committed = drawing_items Scenario.arrow_pressed ++ [0%nat] /\
   undo_stack committed = undo_stack Scenario.arrow_pressed ++ [0%nat]) /\
  (drawing_items undone = drawing_items Scenario.arrow_pressed /\
   undo_stack undone = undo_stack Scenario.arrow_pressed) /\
  (drawing_items redone = drawing_items committed /\
   undo_stack redone = undo_stack committed).
Proof.
  apply (commit_undo_redo_roundtrip Scenario.screen Scenario.arrow_pressed 0
           (mkQPoint 250 150)).
  - eexists. reflexivity.
  - reflexivity.
  - reflexivity.
  - reflexivity.
  - reflexivity.
Defined.

(** A click of the text tool, a space typed, Return. *)
Lemma blank_text_session_leaves_history_witness :
  let s := run (init Scenario.screen) (Scenario.select_region ++ [ToolButton T_text]) in
  let edited :=
    run (_handle_text_input (mkQPoint 110 110) s) [KeyPress Key_other NoModifier " "] in
  let ended := keyPressEvent Key_Return NoModifier "" edited in
  editing_text_item edited = Some (length (heap s)) /\
  length (heap s) ∈ drawing_items edited /\
  length (heap s) ∈ undo_stack edited /\
  drawing_items ended = drawing_items s /\
  undo_stack ended = undo_stack s /\
  redo_stack ended = [] /\
  inline_editing ended = false.
Proof.
  apply (blank_text_session_leaves_history Scenario.screen
           (run (init Scenario.screen) (Scenario.select_region ++ [ToolButton T_text]))
           (mkQPoint 110 110) [KeyPress Key_other NoModifier " "] Key_Return NoModifier "").
  - eexists. reflexivity.
  - reflexivity.
  - left. reflexivity.
  - vm_compute. reflexivity.
Defined.

(** C4 at two failing inputs.  (1) A click of the text tool opens a
    session on a new item, Undo is pressed on the toolbar and the session
    is ended by Return on the empty buffer: the committed list and the
    undo stack are as before the click, but the empty item is on the redo
    stack, and Redo puts it on the committed list and on the undo stack.
    (2) A session on a new item, its buffer empty, is left by a click that
    lies in the box under edit and on another text: that text is opened
    and the session on the new item is not finished, so after Return the
    empty item is still on the committed list and on the undo stack. *)
Theorem blank_text_item_left_behind :
  (let before := run (init Scenario.screen) (Scenario.select_region ++ [ToolButton T_text]) in
   let ended := run (init Scenario.screen) Scenario.blank_text_undone in
   let redone := _redo_drawing ended in
   (drawing_items before, undo_stack before, redo_stack before) = ([], [], []) /\
   inline_editing ended = false /\
   (drawing_items ended, undo_stack ended, redo_stack ended) = ([], [], [0%nat]) /\
   (drawing_items redone, undo_stack redone, redo_stack redone) = ([0%nat], [0%nat], []) /\
   text_content <$> heap redone !! 0%nat = Some "") /\
  (let edited := run (init Scenario.screen) Scenario.second_text_opened in
   let ended := run (init Scenario.screen) Scenario.second_text_abandoned in
   inline_editing edited = true /\ editing_text_item edited = Some 1%nat /\
   text_input_buffer edited = "" /\
   inline_editing ended = false /\
   drawing_items ended = [0%nat; 1%nat] /\ undo_stack ended = [0%nat; 1%nat] /\
   text_content <$> heap ended !! 0%nat = Some "Hi" /\
   text_content <$> heap ended !! 1%nat = Some "").
Proof. vm_compute. repeat split; reflexivity. Qed.

(** Escape in the session on a new text item, nothing typed. *)
Lemma escape_removes_edited_item_witness :
  let s' := keyPressEvent Key_Escape NoModifier "" Scenario.new_text in
  inline_editing s' = false /\ editing_text_item s' = None /\
  result s' = result Scenario.new_text /\ closed s' = closed Scenario.new_text /\
  selection_rect s' = selection_rect Scenario.new_text /\
  drawing_items s' = py_remove 0 (drawing_items Scenario.new_text) /\
  (0%nat ∉ drawing_items s') /\
  (truthy (strip (text_input_buffer Scenario.new_text)) = false ->
   undo_stack s' = py_remove 0 (undo_stack Scenario.new_text)).
Proof.
  apply (escape_removes_edited_item Scenario.screen Scenario.new_text 0 NoModifier "").
  - eexists. reflexivity.
  - vm_compute. reflexivity.
  - vm_compute. reflexivity.
Defined.

(** C5, as stated, fails: the text "Hi" existed before it was opened for
    editing; after [!] is typed and Escape is pressed the item is gone
    from the committed list, its text is "Hi!", and it is still on the
    undo stack.  The overlay stays open. *)
Lemma escape_drops_existing_text :
  let before := Scenario.editing_hi in
  let s := run (init Scenario.screen) Scenario.edit_hi_escape in
  drawing_items before = [0%nat] /\
  text_content <$> heap before !! 0%nat = Some "Hi" /\
  drawing_items s = [] /\
  text_content <$> heap s !! 0%nat = Some "Hi!" /\
  undo_stack s = [0%nat] /\
  inline_editing s = false /\ result s = None /\ closed s = false.
Proof. vm_compute. repeat split; reflexivity. Qed.

(** After that Escape the removed item is still on the undo stack: Undo
    and then Redo put it back on the committed list, with the text of the
    abandoned edit. *)
Example escape_undo_redo_restores_edit :
  let s := run (init Scenario.screen) (Scenario.edit_hi_escape ++ [UndoButton; RedoButton]) in
  drawing_items s = [0%nat] /\ undo_stack s = [0%nat] /\
  text_content <$> heap s !! 0%nat = Some "Hi!".
Proof. vm_compute. repeat split; reflexivity. Qed.

(** C8 at a failing input.  In the session on a new text item nothing is
    selected and the range is (0,0).  The input method commits "a": buffer
    and cursor become what a paste of "a" makes them, but the selection
    range stays (0,0), where the paste sets it to (1,1).  After "a" and "b"
    have come in this way, Shift+Left and a typed X replace "a"; after two
    pastes they replace "b". *)
Theorem ime_commit_leaves_selection_behind :
  let s := Scenario.new_text in
  let ime := inputMethodEvent "a" "" s in
  let pasted := paste "a" s in
  (text_selection_start s, text_selection_end s) = (0%nat, 0%nat) /\
  (text_input_buffer ime, cursor_position ime) = ("a", 1%nat) /\
  (text_input_buffer pasted, cursor_position pasted) = ("a", 1%nat) /\
  (text_selection_start ime, text_selection_end ime) = (0%nat, 0%nat) /\
  (text_selection_start pasted, text_selection_end pasted) = (1%nat, 1%nat) /\
  text_input_buffer
    (run s [ InputMethod "a" ""; InputMethod "b" "";
             KeyPress Key_Left ShiftModifier ""; KeyPress Key_other NoModifier "X" ])
  = "Xb" /\
  text_input_buffer
    (run s [ ClipboardChanged "a"; KeyPress Key_V ControlModifier "";
             ClipboardChanged "b"; KeyPress Key_V ControlModifier "";
             KeyPress Key_Left ShiftModifier ""; KeyPress Key_other NoModifier "X" ])
  = "aX".
Proof. vm_compute. repeat split; reflexivity. Qed.

(** C9 at a failing input.  A text item created with the default stroke
    width 3 is in auto mode and is drawn, in its box of height 81, at size
    32.  One press of Up puts it in custom mode at size 5: below 8, and 27
    less than before. *)
Theorem font_key_up_on_new_text :
  let s := Scenario.new_text in
  let s' := keyPressEvent Key_Up NoModifier "" s in
  exists it it',
    heap s !! 0%nat = Some it /\ heap s' !! 0%nat = Some it' /\
    editing_text_item s = Some 0%nat /\
    (text_size_mode it, initial_font_size it) = (M_auto, 3) /\
    text_font_size it (Z.max 20 (QRect.height (item_rect it))) = 32 /\
    (text_size_mode it', custom_font_size it') = (M_custom, 5) /\
    text_font_size it' (Z.max 20 (QRect.height (item_rect it'))) = 5 /\
    ~ (8 <= custom_font_size it' <= 100).
Proof.
  vm_compute. eexists. eexists.
  repeat split; try reflexivity.
  intros [H _]. apply H. reflexivity.
Qed.


(** C3, as stated, fails: the text "Hi" is committed inside the selection
    (100,100,400,300) and the selection is copied.  The composite that is
    cropped to the selection holds, besides the text, the dashed bounding
    box of the item and its four corner handles, all inside the crop. *)
Lemma export_holds_text_affordances :
  exported (run (init Scenario.screen) Scenario.export_hi)
  = Some
      ([ MRect (mkQPen QColor_red 1 DashLine false) NoBrush (QRect.xywh 110 110 251 81);
         MEllipse (mkQPen QColor_handle 1 SolidLine false) NoBrush (QRect.xywh 107 107 6 6);
         MEllipse (mkQPen QColor_handle 1 SolidLine false) NoBrush (QRect.xywh 357 107 6 6);
         MEllipse (mkQPen QColor_handle 1 SolidLine false) NoBrush (QRect.xywh 107 187 6 6);
         MEllipse (mkQPen QColor_handle 1 SolidLine false) NoBrush (QRect.xywh 357 187 6 6);
         MText (mkQPen QColor_red 1 SolidLine false) (mkQFont "Microsoft YaHei" 32 true)
           (QRect.xywh 116 116 239 69) "Hi" ],
       QRect.xywh 100 100 400 300).
Proof. vm_compute. reflexivity. Qed.

(** The text "Hi" opened again and [!] typed, with the buffer measuring
    40 x 30 pixels and characters of 10 x 20: the overlay paints the
    buffer with the cursor bar behind it, the export the text of the
    item. *)
Example overlay_paints_edit_buffer :
  let s := keyPressEvent Key_other NoModifier "!" Scenario.editing_hi in
  last (marks (draw_ref (overlay_device (mkQSize 40 30) 10 20 s 0) s 0))
  = Some (MText (mkQPen QColor_red 1 SolidLine false) (mkQFont "Microsoft YaHei" 32 true)
            (QRect.xywh 116 116 239 69) "Hi!|") /\
  last (marks (draw_ref Pixmap s 0))
  = Some (MText (mkQPen QColor_red 1 SolidLine false) (mkQFont "Microsoft YaHei" 32 true)
            (QRect.xywh 116 116 239 69) "Hi").
Proof. split; vm_compute; reflexivity. Qed.

(** The same with the whole buffer selected: the highlight is painted
    under the text, three characters wide. *)
Example overlay_paints_selection :
  let s := keyPressEvent Key_A ControlModifier ""
             (keyPressEvent Key_other NoModifier "!" Scenario.editing_hi) in
  MFill QColor_selection (QRect.xywh 116 116 30 20)
    ∈ marks (draw_ref (overlay_device (mkQSize 40 30) 10 20 s 0) s 0).
Proof. vm_compute. do 5 apply list_elem_of_further. apply list_elem_of_here. Qed.

(** ** Hit targets *)

(** A press on the top-left corner of the text "Hi", clear of the handles
    of the selection: the text item is being resized. *)
Lemma press_precedence_witness :
  press_target Scenario.hi_selected (mkQPoint 112 112) = OnTextCorner 0 tl /\
  gesture_flags (mousePressEvent (mkQPoint 112 112) 1010000 Scenario.hi_selected) =
  started Scenario.hi_selected (press_target Scenario.hi_selected (mkQPoint 112 112)).
Proof.
  split; [vm_compute; reflexivity|].
  apply (press_precedence Scenario.hi_selected (mkQPoint 112 112) 1010000).
  - reflexivity.
  - vm_compute. discriminate.
  - reflexivity.
  - reflexivity.
Defined.

(** The point (102,102) lies inside the selection, on its
    top-left resize handle and on the top-left corner of the text "Hi";
    the press starts a resize of the selection and no resize of the
    text item. *)
Lemma press_on_both_handles_resizes_selection :
  let s := Scenario.hi_selected in
  let pos := mkQPoint 102 102 in
  let s' := mousePressEvent pos 1010000 s in
  reachable Scenario.screen s /\
  inline_editing s = false /\ drawing_items s = [0%nat] /\
  selection_rect s = QRect.xywh 100 100 200 150 /\
  item_rect <$> heap s !! 0%nat = Some (QRect.xywh 110 110 251 81) /\
  QRect.contains (selection_rect s) pos = true /\
  selection_handle_hit s pos = Some HTopLeft /\
  topmost_text_hit s pos = Some (0%nat, Some tl) /\
  resizing s' = true /\ resize_handle s' = Some HTopLeft /\
  text_resizing s' = false /\ active_text_item s' = None /\
  text_resize_handle s' = None.
Proof.
  split; [eexists; reflexivity|].
  vm_compute. repeat split; reflexivity.
Qed.

(** ** More on the screen constraint *)

Section ConstrainMore.

Variable screen : QRect.

Ltac geo_unfold :=
  unfold MIN_SELECTION_SIZE,
    QRect.left, QRect.top, QRect.right, QRect.bottom, QRect.width, QRect.height,
    QRect.moveLeft, QRect.moveTop, QRect.moveRight, QRect.moveBottom,
    QRect.setWidth, QRect.setHeight in *;
  cbn [rx1 ry1 rx2 ry2] in *.

(** Every comparison of the block goes the way that leaves the rectangle. *)
Ltac geo_stable :=
  repeat match goal with
    | |- context [if (?a <? ?b) then _ else _] =>
        lazymatch a with context [if _ then _ else _] => fail | _ => idtac end;
        lazymatch b with context [if _ then _ else _] => fail | _ => idtac end;
        destruct (Z.ltb_spec a b); [exfalso; lia|]; cbn [rx1 ry1 rx2 ry2] in *
    end; reflexivity.

Ltac geo_cases :=
  repeat match goal with
    | |- context [if (?a <? ?b) then _ else _] =>
        lazymatch a with context [if _ then _ else _] => fail | _ => idtac end;
        lazymatch b with context [if _ then _ else _] => fail | _ => idtac end;
        destruct (Z.ltb_spec a b); cbn [rx1 ry1 rx2 ry2] in *
    end; lia.

(** [_constrain_to_screen] changes a size only to raise it to the minimum:
    the width and the height of the result are the larger of 20 and those of
    the argument, wherever the rectangle lies. *)
Theorem constrain_size (r : QRect) :
  QRect.width (_constrain_to_screen screen r) = Z.max MIN_SELECTION_SIZE (QRect.width r) /\
  QRect.height (_constrain_to_screen screen r) = Z.max MIN_SELECTION_SIZE (QRect.height r).
Proof.
  unfold _constrain_to_screen. cbv zeta.
  destruct (final_boundary_check_size screen
              (ensure_minimum_size (constrain_position screen r))) as [-> ->].
  destruct (ensure_minimum_size_spec (constrain_position screen r)) as (-> & -> & _).
  destruct (constrain_position_size screen r) as [-> ->].
  split; reflexivity.
Qed.

(** The rectangle is settled: it starts on the screen, its last column and
    row are at most the width and height of the screen (the comparison
    [_constrain_to_screen] makes), and it has the minimum size. *)
Definition settled (r : QRect) : Prop :=
  0 <= QRect.left r /\ 0 <= QRect.top r /\
  QRect.right r <= QRect.width screen /\ QRect.bottom r <= QRect.height screen /\
  MIN_SELECTION_SIZE <= QRect.width r /\ MIN_SELECTION_SIZE <= QRect.height r.

Lemma constrain_settled_id (r : QRect) : settled r -> _constrain_to_screen screen r = r.
Proof.
  unfold settled. intros (Hx & Hy & Hr & Hb & Hw & Hh).
  assert (H1 : constrain_position screen r = r).
  { destruct r, screen. unfold constrain_position.
    geo_unfold. geo_stable. }
  assert (H2 : ensure_minimum_size r = r).
  { destruct r. unfold ensure_minimum_size.
    geo_unfold. geo_stable. }
  assert (H3 : final_boundary_check screen r = r).
  { destruct r, screen. unfold final_boundary_check.
    geo_unfold. geo_stable. }
  unfold _constrain_to_screen. cbv zeta. rewrite H1, H2, H3. reflexivity.
Qed.

Lemma constrain_settles (r : QRect) :
  Z.max MIN_SELECTION_SIZE (QRect.width r) <= QRect.width screen ->
  Z.max MIN_SELECTION_SIZE (QRect.height r) <= QRect.height screen ->
  settled (_constrain_to_screen screen r).
Proof.
  intros Hw Hh. unfold settled.
  destruct (constrain_size r) as [Ew Eh]. rewrite Ew, Eh.
  destruct (constrain_right_bottom screen r) as [Hr Hb].
  repeat split; try assumption; try lia.
  - clear Eh Hb Hh. revert Ew Hr. unfold _constrain_to_screen. cbv zeta.
    destruct (ensure_minimum_size_spec (constrain_position screen r)) as (Mw & _ & Ml & _).
    destruct (constrain_position_size screen r) as [Pw _]. rewrite Pw in Mw.
    assert (Pl : QRect.width r <= QRect.width screen + 1 -> 0 <= QRect.left (constrain_position screen r)).
    { destruct r, screen. unfold constrain_position.
      geo_unfold. geo_cases. }
    rewrite <- Ml in Pl. revert Mw Pl.
    generalize (ensure_minimum_size (constrain_position screen r)). intros c Mw Pl.
    destruct c, screen. unfold final_boundary_check.
    geo_unfold. geo_cases.
  - clear Ew Hr Hw. revert Eh Hb. unfold _constrain_to_screen. cbv zeta.
    destruct (ensure_minimum_size_spec (constrain_position screen r)) as (_ & Mh & _ & Mt).
    destruct (constrain_position_size screen r) as [_ Ph]. rewrite Ph in Mh.
    assert (Pt : QRect.height r <= QRect.height screen + 1 -> 0 <= QRect.top (constrain_position screen r)).
    { destruct r, screen. unfold constrain_position.
      geo_unfold. geo_cases. }
    rewrite <- Mt in Pt. revert Mh Pt.
    generalize (ensure_minimum_size (constrain_position screen r)). intros c Mh Pt.
    destruct c, screen. unfold final_boundary_check.
    geo_unfold. geo_cases.
Qed.

(** A rectangle no larger than the screen, raised to the minimum size,
    comes out with its corner on the screen and its last column and row at
    most the width and height of the screen. *)
Theorem constrain_on_screen (r : QRect) :
  Z.max MIN_SELECTION_SIZE (QRect.width r) <= QRect.width screen ->
  Z.max MIN_SELECTION_SIZE (QRect.height r) <= QRect.height screen ->
  0 <= QRect.left (_constrain_to_screen screen r) /\
  0 <= QRect.top (_constrain_to_screen screen r) /\
  QRect.right (_constrain_to_screen screen r) <= QRect.width screen /\
  QRect.bottom (_constrain_to_screen screen r) <= QRect.height screen.
Proof.
  intros Hw Hh. destruct (constrain_settles r Hw Hh) as (H1 & H2 & H3 & H4 & _).
  auto.
Qed.

(** Constraining twice is constraining once, for a rectangle no larger
    than the screen. *)
Theorem constrain_idempotent (r : QRect) :
  Z.max MIN_SELECTION_SIZE (QRect.width r) <= QRect.width screen ->
  Z.max MIN_SELECTION_SIZE (QRect.height r) <= QRect.height screen ->
  _constrain_to_screen screen (_constrain_to_screen screen r) = _constrain_to_screen screen r.
Proof. intros Hw Hh. apply constrain_settled_id, constrain_settles; assumption. Qed.

End ConstrainMore.

(** A 30 x 10 rectangle hanging over the right edge of the 800 x 600
    screen. *)
Lemma constrain_on_screen_witness :
  let r := _constrain_to_screen Scenario.screen (QRect.xywh 790 300 30 10) in
  0 <= QRect.left r /\ 0 <= QRect.top r /\
  QRect.right r <= QRect.width Scenario.screen /\
  QRect.bottom r <= QRect.height Scenario.screen.
Proof.
  apply (constrain_on_screen Scenario.screen (QRect.xywh 790 300 30 10)).
  - vm_compute. discriminate.
  - vm_compute. discriminate.
Defined.

Lemma constrain_idempotent_witness :
  let r := QRect.xywh 790 300 30 10 in
  _constrain_to_screen Scenario.screen (_constrain_to_screen Scenario.screen r) =
  _constrain_to_screen Scenario.screen r.
Proof.
  apply (constrain_idempotent Scenario.screen (QRect.xywh 790 300 30 10)).
  - vm_compute. discriminate.
  - vm_compute. discriminate.
Defined.

(** ** The dimmed overlay *)

Section Overlay.

(** [_draw_overlay]: the rectangles filled with the overlay colour
    [QColor(0, 0, 0, 120)], in the order they are filled.  The widget has
    the geometry of the screen: [self.width()] and [self.height()] are its
    width and height, [self.rect()] starts at (0,0). *)
Definition _draw_overlay (s : Selector) : list QRect :=
  let width := QRect.width (screen_rect s) in
  let height := QRect.height (screen_rect s) in
  let selection_rect := selection_rect s in
  if QRect.isEmpty selection_rect then [QRect.xywh 0 0 width height]
  else
    (if 0 <? QRect.top selection_rect
     then [QRect.xywh 0 0 width (QRect.top selection_rect)] else []) ++
    (if QRect.bottom selection_rect <? height
     then [QRect.xywh 0 (QRect.bottom selection_rect + 1)
             width (height - QRect.bottom selection_rect - 1)] else []) ++
    (if 0 <? QRect.left selection_rect
     then [QRect.xywh 0 (QRect.top selection_rect)
             (QRect.left selection_rect) (QRect.height selection_rect)] else []) ++
    (if QRect.right selection_rect <? width
     then [QRect.xywh (QRect.right selection_rect + 1) (QRect.top selection_rect)
             (width - QRect.right selection_rect - 1) (QRect.height selection_rect)] else []).

(** How many of the rectangles hold the pixel [p]. *)
Definition coverage (rects : list QRect) (p : QPoint) : nat :=
  length (filter (fun r => QRect.contains r p = true) rects).

(** The pixel lies on the widget. *)
Definition on_widget (s : Selector) (p : QPoint) : Prop :=
  0 <= qx p < QRect.width (screen_rect s) /\ 0 <= qy p < QRect.height (screen_rect s).

Lemma contains_valid (x1 y1 x2 y2 : Z) (p : QPoint) :
  x1 - 1 <= x2 -> y1 - 1 <= y2 ->
  QRect.contains (mkQRect x1 y1 x2 y2) p = true <->
  x1 <= qx p <= x2 /\ y1 <= qy p <= y2.
Proof.
  intros Hx Hy. unfold QRect.contains, QRect.normalized. cbn [rx1 ry1 rx2 ry2].
  destruct (Z.ltb_spec x2 (x1 - 1)); [lia|].
  destruct (Z.ltb_spec y2 (y1 - 1)); [lia|].
  cbn [rx1 ry1 rx2 ry2].
  rewrite andb_true_iff, !negb_true_iff, !orb_false_iff, !Z.ltb_ge. lia.
Qed.

Lemma coverage_cons (r : QRect) (rects : list QRect) (p : QPoint) :
  coverage (r :: rects) p =
  ((if QRect.contains r p then 1 else 0) + coverage rects p)%nat.
Proof.
  unfold coverage. rewrite filter_cons.
  destruct (decide (QRect.contains r p = true)) as [E|E].
  - rewrite E. reflexivity.
  - apply not_true_is_false in E. rewrite E. reflexivity.
Qed.

Lemma coverage_app (l k : list QRect) (p : QPoint) :
  coverage (l ++ k) p = (coverage l p + coverage k p)%nat.
Proof. unfold coverage. rewrite filter_app, length_app. reflexivity. Qed.

(** The overlay is cut out around the selection: a pixel of the widget
    that lies in the selection is not dimmed, every other pixel of the
    widget is dimmed exactly once. *)
Theorem overlay_cutout (s : Selector) (p : QPoint) :
  QRect.isEmpty (selection_rect s) = false ->
  on_widget s p ->
  coverage (_draw_overlay s) p = if QRect.contains (selection_rect s) p then 0%nat else 1%nat.
Proof.
  intros Hne [Hpx Hpy]. unfold _draw_overlay. cbv zeta. rewrite Hne.
  destruct (selection_rect s) as [x1 y1 x2 y2].
  unfold QRect.isEmpty in Hne. cbn [rx1 ry1 rx2 ry2] in Hne.
  apply orb_false_iff in Hne as [Hx Hy]. apply Z.ltb_ge in Hx, Hy.
  revert Hpx Hpy. generalize (QRect.width (screen_rect s)) (QRect.height (screen_rect s)).
  intros W H Hpx Hpy.
  unfold QRect.top, QRect.bottom, QRect.left, QRect.right, QRect.height, QRect.xywh.
  cbn [rx1 ry1 rx2 ry2].
  rewrite !coverage_app.
  assert (Hsel := contains_valid x1 y1 x2 y2 p ltac:(lia) ltac:(lia)).
  repeat match goal with
    | |- context [if (?a <? ?b) then _ else _] => destruct (Z.ltb_spec a b)
    end;
  rewrite ?coverage_cons; change (coverage [] p) with 0%nat;
  repeat match goal with
    | |- context [QRect.contains (mkQRect ?a ?b ?c ?d) p] =>
        let E := fresh "E" in
        destruct (QRect.contains (mkQRect a b c d) p) eqn:E;
        [ apply contains_valid in E; [|lia|lia]
        | apply not_true_iff_false in E; rewrite contains_valid in E by lia ]
    end; lia.
Qed.

(** With no selection the whole widget is dimmed, once. *)
Theorem overlay_full (s : Selector) (p : QPoint) :
  QRect.isEmpty (selection_rect s) = true ->
  on_widget s p ->
  coverage (_draw_overlay s) p = 1%nat.
Proof.
  intros He [Hpx Hpy]. unfold _draw_overlay. cbv zeta. rewrite He.
  rewrite coverage_cons. change (coverage [] p) with 0%nat.
  unfold QRect.xywh.
  destruct (QRect.contains _ p) eqn:E; [reflexivity|].
  apply not_true_iff_false in E. rewrite contains_valid in E by lia. lia.
Qed.

End Overlay.

(** The pixel (50,50) lies outside the selection (100,100,200,150). *)
Lemma overlay_cutout_witness :
  coverage (_draw_overlay Scenario.dragging_selection) (mkQPoint 50 50) =
  if QRect.contains (selection_rect Scenario.dragging_selection) (mkQPoint 50 50)
  then 0%nat else 1%nat.
Proof.
  apply (overlay_cutout Scenario.dragging_selection (mkQPoint 50 50)).
  - reflexivity.
  - vm_compute. repeat split; discriminate.
Defined.

Lemma overlay_full_witness :
  coverage (_draw_overlay (init Scenario.screen)) (mkQPoint 50 50) = 1%nat.
Proof.
  apply (overlay_full (init Scenario.screen) (mkQPoint 50 50)).
  - reflexivity.
  - vm_compute. repeat split; discriminate.
Defined.

(** ** The pointer while nothing is pressed *)

Section Hover.

(** The values of [Qt.CursorShape] the widget sets. *)
Inductive CursorShape :=
  | ArrowCursor | CrossCursor | SizeFDiagCursor | SizeBDiagCursor
  | SizeVerCursor | SizeHorCursor | OpenHandCursor | ClosedHandCursor | IBeamCursor.

(** [_get_cursor_for_handle]; every handle name is a key of its dictionary. *)
Definition _get_cursor_for_handle (handle_type : Handle) : CursorShape :=
  match handle_type with
  | HTopLeft => SizeFDiagCursor
  | HTopRight => SizeBDiagCursor
  | HBottomLeft => SizeBDiagCursor
  | HBottomRight => SizeFDiagCursor
  | HTop => SizeVerCursor
  | HBottom => SizeVerCursor
  | HLeft => SizeHorCursor
  | HRight => SizeHorCursor
  end.

(** The cursor of the widget and [self.hover_handle]. *)
Record Pointer := mkPointer { cursor_shape : CursorShape; hover_handle : option Handle }.

(** The loop [for item in reversed(self.drawing_items)] of
    [_update_hover_state]: the cursor of the first text box hit. *)
Fixpoint hover_text_items (s : Selector) (pos : QPoint) (items : list ref) : option CursorShape :=
  match items with
  | [] => None
  | item :: rest =>
      match heap s !! item with
      | Some it =>
          if is_text_box it then
            let r := item_rect it in
            if QRect.contains (text_corner tl r) pos || QRect.contains (text_corner br r) pos
            then Some SizeFDiagCursor
            else if QRect.contains (text_corner tr r) pos || QRect.contains (text_corner bl r) pos
            then Some SizeBDiagCursor
            else if QRect.contains (QRect.adjusted (-8) (-8) 8 8 r) pos
            then Some OpenHandCursor
            else hover_text_items s pos rest
          else hover_text_items s pos rest
      | None => hover_text_items s pos rest
      end
  end.

(** [_update_hover_state] *)
Definition _update_hover_state (pos : QPoint) (s : Selector) (p : Pointer) : Pointer :=
  if QRect.isEmpty (selection_rect s) then mkPointer CrossCursor (hover_handle p)
  else
    match hover_text_items s pos (reverse (drawing_items s)) with
    | Some c => mkPointer c (hover_handle p)
    | None =>
        match find (fun hr => QRect.contains (snd hr) pos)
                (_get_resize_handles (selection_rect s)) with
        | Some (handle_type, _) =>
            mkPointer (_get_cursor_for_handle handle_type) (Some handle_type)
        | None =>
            if QRect.contains (selection_rect s) pos
            then mkPointer OpenHandCursor None
            else mkPointer CrossCursor None
        end
    end.

Ltac hit_found :=
  cbn; split; intros Hhit; inversion Hhit.

Lemma hover_text_items_none (s : Selector) (pos : QPoint) (items : list ref) :
  hover_text_items s pos items = None <-> omap (text_hit s pos) items = [].
Proof.
  induction items as [|item rest IH]; [cbn; tauto|].
  cbn [hover_text_items omap list_omap]. unfold text_hit at 1.
  destruct (heap s !! item) as [it|]; [|exact IH].
  destruct (is_text_box it); [|exact IH].
  unfold text_box_hit. cbv zeta.
  destruct (QRect.contains (text_corner tl (item_rect it)) pos);
    [hit_found|].
  destruct (QRect.contains (text_corner tr (item_rect it)) pos);
    [destruct (QRect.contains (text_corner br (item_rect it)) pos); hit_found|].
  destruct (QRect.contains (text_corner bl (item_rect it)) pos);
    [destruct (QRect.contains (text_corner br (item_rect it)) pos); hit_found|].
  destruct (QRect.contains (text_corner br (item_rect it)) pos);
    [hit_found|].
  cbn [orb].
  destruct (QRect.contains (QRect.adjusted (-8) (-8) 8 8 (item_rect it)) pos);
    [hit_found|].
  exact IH.
Qed.

(** With the select tool, outside an editing session and a double click,
    where the pointer is on no text box: the cursor shown while hovering
    tells the gesture that a press at that point starts.  Over a handle
    of the selection, [hover_handle] is that handle, the cursor is its
    resize cursor and the press starts the resize by it; elsewhere either
    the cursor is the open hand and the press starts the drag of the
    selection, or it is the cross and the press starts a new selection. *)
Theorem hover_announces_press (s : Selector) (pos : QPoint) (t : Z) (p : Pointer) :
  inline_editing s = false ->
  double_click_threshold <= t - last_click_time s ->
  drawing_mode s = false ->
  QRect.isEmpty (selection_rect s) = false ->
  hover_text_items s pos (reverse (drawing_items s)) = None ->
  let hover := _update_hover_state pos s p in
  let pressed := mousePressEvent pos t s in
  match hover_handle hover with
  | Some h =>
      cursor_shape hover = _get_cursor_for_handle h /\
      gesture_flags pressed = started s (OnSelectionHandle h)
  | None =>
      (cursor_shape hover = OpenHandCursor /\
       gesture_flags pressed = started s OnSelectionBody) \/
      (cursor_shape hover = CrossCursor /\
       gesture_flags pressed = started s OnEmptySpace)
  end.
Proof.
  intros Hedit Hclick Hmode Hne Hnone. cbv zeta.
  assert (Hlt : (t - last_click_time s <? double_click_threshold) = false)
    by (apply Z.ltb_ge; exact Hclick).
  unfold _update_hover_state. rewrite Hne, Hnone.
  apply hover_text_items_none in Hnone.
  unfold mousePressEvent, press_while_editing, press_double_click, press_drawing,
    press_selection.
  rewrite Hedit. repeat flow_step. rewrite Hlt. cbn [andb].
  repeat flow_step. sel_red. rewrite Hmode. cbn [andb negb].
  repeat flow_step. sel_red. rewrite Hne. cbn [negb].
  destruct (find _ _) as [[h hr]|]; [cbn [hover_handle cursor_shape]; split; reflexivity|].
  destruct (QRect.contains (selection_rect s) pos) eqn:Hin; cbn [hover_handle cursor_shape].
  - left. split; [reflexivity|].
    rewrite press_text_items_spec.
    set (s1 := s <| last_click_time := t |> <| last_click_pos := pos |>).
    change (text_hit s1 pos) with (text_hit s pos).
    rewrite Hnone. cbn [head].
    repeat flow_step. subst s1. sel_red. rewrite Hin. reflexivity.
  - right. split; [reflexivity|].
    repeat flow_step. sel_red. rewrite Hin. reflexivity.
Qed.

End Hover.

(** The pointer on the bottom-left handle of the selection, the text "Hi"
    committed inside it. *)
Lemma hover_announces_press_witness :
  let s := Scenario.hi_selected in
  let hover := _update_hover_state (mkQPoint 100 249) s (mkPointer ArrowCursor None) in
  let pressed := mousePressEvent (mkQPoint 100 249) 1010000 s in
  match hover_handle hover with
  | Some h =>
      cursor_shape hover = _get_cursor_for_handle h /\
      gesture_flags pressed = started s (OnSelectionHandle h)
  | None =>
      (cursor_shape hover = OpenHandCursor /\
       gesture_flags pressed = started s OnSelectionBody) \/
      (cursor_shape hover = CrossCursor /\
       gesture_flags pressed = started s OnEmptySpace)
  end.
Proof.
  apply (hover_announces_press Scenario.hi_selected (mkQPoint 100 249) 1010000
           (mkPointer ArrowCursor None)).
  - reflexivity.
  - vm_compute. discriminate.
  - reflexivity.
  - reflexivity.
  - vm_compute. reflexivity.
Defined.

(** There the handle is the bottom-left one. *)
Example hover_on_bottom_left_handle :
  _update_hover_state (mkQPoint 100 249) Scenario.hi_selected (mkPointer ArrowCursor None)
  = mkPointer SizeBDiagCursor (Some HBottomLeft) /\
  resizing (mousePressEvent (mkQPoint 100 249) 1010000 Scenario.hi_selected) = true /\
  resize_handle (mousePressEvent (mkQPoint 100 249) 1010000 Scenario.hi_selected)
  = Some HBottomLeft.
Proof. repeat split; vm_compute; reflexivity. Qed.

(** ** The text buffer under the editing keys *)

Section Buffer.

(** Cursor and selection range lie within the buffer. *)
Definition text_bounds (s : Selector) : Prop :=
  (cursor_position s <= String.length (text_input_buffer s))%nat /\
  (text_selection_start s <= String.length (text_input_buffer s))%nat /\
  (text_selection_end s <= String.length (text_input_buffer s))%nat.

Lemma length_substring (n m : nat) (s : string) :
  String.length (substring n m s) = Nat.min m (String.length s - n).
Proof.
  revert n m. induction s as [|c s IH]; intros n m.
  - destruct n, m; reflexivity.
  - destruct n as [|n]; cbn [substring].
    + destruct m as [|m]; [reflexivity|]. cbn [String.length]. rewrite IH.
      rewrite Nat.sub_0_r. reflexivity.
    + rewrite IH. reflexivity.
Qed.

Lemma length_str_append (a b : string) :
  String.length (a +:+ b) = (String.length a + String.length b)%nat.
Proof. induction a as [|c a IH]; [reflexivity|]. exact (f_equal S IH). Qed.

Lemma length_str_take (n : nat) (s : string) :
  String.length (str_take n s) = Nat.min n (String.length s).
Proof. unfold str_take. rewrite length_substring, Nat.sub_0_r. reflexivity. Qed.

Lemma length_str_drop (n : nat) (s : string) :
  String.length (str_drop n s) = (String.length s - n)%nat.
Proof. unfold str_drop. rewrite length_substring. lia. Qed.

Lemma substring_all (s : string) : substring 0 (String.length s) s = s.
Proof. induction s as [|c s IH]; [reflexivity|]. exact (f_equal (String c) IH). Qed.

Lemma substring_none (n : nat) (s : string) : substring n 0 s = "".
Proof.
  revert n. induction s as [|c s IH]; intros [|n]; cbn; try reflexivity. apply IH.
Qed.

Lemma str_take_app (a b : string) : str_take (String.length a) (a +:+ b) = a.
Proof.
  unfold str_take. induction a as [|c a IH].
  - destruct b; reflexivity.
  - exact (f_equal (String c) IH).
Qed.

Lemma str_drop_app (a b : string) (k : nat) :
  str_drop (String.length a + k) (a +:+ b) = str_drop k b.
Proof.
  unfold str_drop. induction a as [|c a IH]; cbn; [reflexivity|]. exact IH.
Qed.

Lemma str_drop_0 (s : string) : str_drop 0 s = s.
Proof. unfold str_drop. rewrite Nat.sub_0_r. apply substring_all. Qed.

Lemma str_drop_all (s : string) : str_drop (String.length s) s = "".
Proof. unfold str_drop. rewrite Nat.sub_diag. apply substring_none. Qed.

Lemma str_append_empty_r (s : string) : s +:+ "" = s.
Proof. induction s as [|c s IH]; [reflexivity|]. exact (f_equal (String c) IH). Qed.

Lemma str_drop_1 (c : ascii) (s : string) : str_drop 1 (String c s) = s.
Proof. unfold str_drop. cbn. rewrite Nat.sub_0_r. apply substring_all. Qed.

(** Decides the comparisons of the pressed key with the keys of the
    handler. *)
Ltac key_consts :=
  repeat match goal with
    | |- context [bool_decide (?a = ?b)] =>
        first [ rewrite (bool_decide_eq_true_2 (a = b)) by reflexivity
              | rewrite (bool_decide_eq_false_2 (a = b)) by discriminate ]
    end.

Ltac bounds_close :=
  unfold text_bounds in *; sel_red;
  rewrite ?length_str_append, ?length_str_take, ?length_str_drop;
  repeat match goal with
    | H : bool_decide _ = true |- _ => apply bool_decide_eq_true in H
    | H : bool_decide _ = false |- _ => apply bool_decide_eq_false in H
    | H : (_ <? _)%nat = true |- _ => apply Nat.ltb_lt in H
    | H : (_ <? _)%nat = false |- _ => apply Nat.ltb_ge in H
    end;
  try lia.

(** The keys handled while a text is edited keep the cursor and the
    selection range within the buffer. *)
Theorem key_editing_keeps_bounds (key : Key) (modifiers : Modifiers) (text : string)
    (s : Selector) :
  text_bounds s -> text_bounds (key_editing key modifiers text s).
Proof.
  intros B. unfold key_editing, splice_text, delete_selection, collapse_selection, font_key.
  destruct key; key_consts.
  all: run_handler; bounds_close.
Qed.

Lemma inputMethodEvent_keeps_bounds (commit_string preedit_string : string) (s : Selector) :
  text_bounds s -> text_bounds (inputMethodEvent commit_string preedit_string s).
Proof.
  intros B. unfold inputMethodEvent, collapse_selection.
  run_handler; bounds_close.
Qed.

Lemma editing_input_keeps_bounds (e : Event) (s : Selector) :
  editing_input e = true -> text_bounds s -> text_bounds (step s e).
Proof.
  destruct e; cbn [editing_input step]; try discriminate; intros He B.
  - unfold keyPressEvent.
    destruct key; try discriminate;
      (destruct (inline_editing s); [apply key_editing_keeps_bounds, B | exact B]).
  - apply inputMethodEvent_keeps_bounds, B.
  - unfold paintEvent, _auto_expand_text_box. cbv zeta. run_handler; bounds_close.
  - exact B.
  - unfold _set_brush_size, _auto_adjust_text_box_for_font_size. cbv zeta.
    run_handler; bounds_close.
  - exact B.
Qed.

(** Within an editing session the cursor and the selection range stay
    within the buffer: if they lie within it, they do so after every run of
    inputs that keep the session open (keys other than Escape, Return and
    Enter, input-method events, clipboard changes, repaints, colour and
    size choices). *)
Theorem editing_keeps_bounds (es : list Event) (s : Selector) :
  forallb editing_input es = true -> text_bounds s -> text_bounds (run s es).
Proof.
  revert s. induction es as [|e es IH]; intros s H B; [exact B|].
  cbn in H. apply andb_prop in H as [He Hes].
  change (run s (e :: es)) with (run (step s e) es).
  apply IH; [exact Hes|]. apply editing_input_keeps_bounds; assumption.
Qed.

Lemma str_take_drop (n : nat) (s : string) : str_take n s +:+ str_drop n s = s.
Proof.
  unfold str_take, str_drop. revert n. induction s as [|c s IH]; intros [|n].
  - reflexivity.
  - reflexivity.
  - cbn [substring String.length]. rewrite Nat.sub_0_r.
    change (String c (substring 0 (String.length s) s) = String c s).
    rewrite substring_all. reflexivity.
  - exact (f_equal (String c) (IH n)).
Qed.

Lemma key_typed (s : Selector) (m : Modifiers) (t : string) :
  inline_editing s = true ->
  text_selection_start s = text_selection_end s ->
  truthy t = true -> isprintable t = true ->
  let typed := keyPressEvent Key_other m t s in
  inline_editing typed = true /\
  text_input_buffer typed =
    str_take (cursor_position s) (text_input_buffer s) +:+ t +:+
    str_drop (cursor_position s) (text_input_buffer s) /\
  cursor_position typed = (cursor_position s + String.length t)%nat /\
  text_selection_start typed = text_selection_end typed.
Proof.
  intros He Hsel Ht Hp. cbv zeta.
  unfold keyPressEvent, key_editing, splice_text, collapse_selection. rewrite He.
  key_consts. sel_red. rewrite Ht, Hp, Hsel. key_consts. sel_red.
  rewrite He. auto.
Qed.

Lemma key_backspace (s : Selector) (m : Modifiers) (t : string) :
  inline_editing s = true ->
  text_selection_start s = text_selection_end s ->
  (0 < cursor_position s)%nat ->
  let erased := keyPressEvent Key_Backspace m t s in
  text_input_buffer erased =
    str_take (cursor_position s - 1) (text_input_buffer s) +:+
    str_drop (cursor_position s) (text_input_buffer s) /\
  cursor_position erased = (cursor_position s - 1)%nat.
Proof.
  intros He Hsel Hc. cbv zeta. apply Nat.ltb_lt in Hc.
  unfold keyPressEvent, key_editing, collapse_selection. rewrite He.
  key_consts. sel_red. rewrite Hsel. key_consts. sel_red. rewrite Hc. sel_red. auto.
Qed.

(** Typing a character and pressing Backspace gives back the buffer and
    the cursor, when nothing is selected and the cursor lies within the
    buffer.  The character comes from a key other than those the handler
    names. *)
Theorem type_then_backspace (s : Selector) (c : ascii) (m m' : Modifiers) (t : string) :
  inline_editing s = true ->
  text_selection_start s = text_selection_end s ->
  (cursor_position s <= String.length (text_input_buffer s))%nat ->
  isprintable (String c "") = true ->
  let typed := keyPressEvent Key_other m (String c "") s in
  let erased := keyPressEvent Key_Backspace m' t typed in
  text_input_buffer typed =
    str_take (cursor_position s) (text_input_buffer s) +:+ String c "" +:+
    str_drop (cursor_position s) (text_input_buffer s) /\
  cursor_position typed = S (cursor_position s) /\
  text_input_buffer erased = text_input_buffer s /\
  cursor_position erased = cursor_position s.
Proof.
  intros He Hsel Hcur Hp. cbv zeta.
  destruct (key_typed s m (String c "") He Hsel eq_refl Hp) as (He' & Hb & Hc & Hsel').
  cbv zeta in He', Hb, Hc, Hsel'.
  destruct (key_backspace _ m' t He' Hsel') as (Hb2 & Hc2).
  { rewrite Hc. cbn. lia. }
  cbv zeta in Hb2, Hc2. rewrite Hb2, Hc2, Hc, Hb. clear Hb2 Hc2 Hb Hc He' Hsel'.
  cbn [String.length]. rewrite Nat.add_1_r, Nat.sub_succ, Nat.sub_0_r.
  repeat split.
  assert (Hlen : String.length (str_take (cursor_position s) (text_input_buffer s)) =
                 cursor_position s) by (rewrite length_str_take; lia).
  rewrite <- Hlen at 1. rewrite str_take_app.
  rewrite <- Hlen at 2. rewrite <- Nat.add_1_r, str_drop_app.
  change (String c "" +:+ ?x) with (String c x).
  rewrite str_drop_1. apply str_take_drop.
Qed.

Lemma str_slice_all (s : string) : str_slice 0 (String.length s) s = s.
Proof.
  unfold str_slice. rewrite Nat.min_id, Nat.sub_0_r. apply substring_all.
Qed.

Lemma truthy_length (s : string) : truthy s = true <-> String.length s <> 0%nat.
Proof. destruct s; cbn; split; congruence. Qed.

Lemma key_select_all (s : Selector) :
  inline_editing s = true ->
  let s' := keyPressEvent Key_A ControlModifier "" s in
  inline_editing s' = true /\
  text_input_buffer s' = text_input_buffer s /\
  clipboard s' = clipboard s /\
  text_selection_start s' = 0%nat /\
  text_selection_end s' = String.length (text_input_buffer s) /\
  cursor_position s' = String.length (text_input_buffer s).
Proof.
  intros He. cbv zeta. unfold keyPressEvent, key_editing. rewrite He.
  key_consts. sel_red. cbv zeta. sel_red. rewrite He. auto 10.
Qed.

Lemma key_copy (s : Selector) :
  inline_editing s = true ->
  text_selection_start s <> text_selection_end s ->
  let s' := keyPressEvent Key_C ControlModifier "" s in
  inline_editing s' = true /\
  text_input_buffer s' = text_input_buffer s /\
  clipboard s' =
    str_slice (text_selection_start s) (text_selection_end s) (text_input_buffer s) /\
  text_selection_start s' = text_selection_start s /\
  text_selection_end s' = text_selection_end s.
Proof.
  intros He Hsel. cbv zeta. 
  assert (Hd : bool_decide (text_selection_start s = text_selection_end s) = false)
    by (apply bool_decide_eq_false; exact Hsel).
  unfold keyPressEvent, key_editing. rewrite He.
  key_consts. sel_red. rewrite Hd. sel_red. rewrite He. auto 10.
Qed.

Lemma key_paste_over (s : Selector) :
  inline_editing s = true ->
  text_selection_start s <> text_selection_end s ->
  truthy (clipboard s) = true ->
  let s' := keyPressEvent Key_V ControlModifier "" s in
  text_input_buffer s' =
    str_take (Nat.min (text_selection_start s) (text_selection_end s)) (text_input_buffer s)
    +:+ clipboard s +:+
    str_drop (Nat.max (text_selection_start s) (text_selection_end s)) (text_input_buffer s) /\
  clipboard s' = clipboard s /\
  cursor_position s' =
    (Nat.min (text_selection_start s) (text_selection_end s) + String.length (clipboard s))%nat /\
  text_selection_start s' = text_selection_end s'.
Proof.
  intros He Hsel Hc. cbv zeta. 
  assert (Hd : bool_decide (text_selection_start s = text_selection_end s) = false)
    by (apply bool_decide_eq_false; exact Hsel).
  unfold keyPressEvent, key_editing, splice_text, collapse_selection. rewrite He.
  key_consts. sel_red. cbv zeta. rewrite Hc, Hd. sel_red. auto 10.
Qed.

Lemma key_erase_selection (s : Selector) (k : Key) :
  inline_editing s = true ->
  text_selection_start s <> text_selection_end s ->
  k = Key_Backspace \/ k = Key_Delete ->
  let s' := keyPressEvent k NoModifier "" s in
  text_input_buffer s' =
    str_take (Nat.min (text_selection_start s) (text_selection_end s)) (text_input_buffer s)
    +:+
    str_drop (Nat.max (text_selection_start s) (text_selection_end s)) (text_input_buffer s) /\
  cursor_position s' = Nat.min (text_selection_start s) (text_selection_end s) /\
  text_selection_start s' = text_selection_end s'.
Proof.
  intros He Hsel Hk. cbv zeta. 
  assert (Hd : bool_decide (text_selection_start s = text_selection_end s) = false)
    by (apply bool_decide_eq_false; exact Hsel).
  destruct Hk as [-> | ->];
    unfold keyPressEvent, key_editing, delete_selection, collapse_selection; rewrite He;
    key_consts; sel_red; rewrite Hd; sel_red; auto.
Qed.

(** Ctrl+A, Ctrl+C, Ctrl+V on a buffer that is not empty: the buffer comes
    back as it was, the clipboard holds it, and the cursor is at its end
    with nothing selected. *)
Theorem select_all_copy_paste (s : Selector) :
  inline_editing s = true ->
  truthy (text_input_buffer s) = true ->
  let s' := run s [ KeyPress Key_A ControlModifier "";
                    KeyPress Key_C ControlModifier "";
                    KeyPress Key_V ControlModifier "" ] in
  text_input_buffer s' = text_input_buffer s /\
  clipboard s' = text_input_buffer s /\
  cursor_position s' = String.length (text_input_buffer s) /\
  text_selection_start s' = text_selection_end s'.
Proof.
  intros He Hb. cbv zeta. cbn [run foldl step].
  destruct (key_select_all s He) as (He1 & Hb1 & _ & Hs1 & He1' & _).
  cbv zeta in He1, Hb1, Hs1, He1'.
  set (s1 := keyPressEvent Key_A ControlModifier "" s) in *.
  assert (Hn : text_selection_start s1 <> text_selection_end s1).
  { rewrite Hs1, He1'. apply truthy_length in Hb. lia. }
  destruct (key_copy s1 He1 Hn) as (He2 & Hb2 & Hc2 & Hs2 & He2').
  cbv zeta in He2, Hb2, Hc2, Hs2, He2'.
  set (s2 := keyPressEvent Key_C ControlModifier "" s1) in *.
  rewrite Hs1, He1', Hb1, str_slice_all in Hc2.
  assert (Hn2 : text_selection_start s2 <> text_selection_end s2) by (rewrite Hs2, He2'; exact Hn).
  destruct (key_paste_over s2 He2 Hn2) as (Hb3 & Hc3 & Hp3 & Hs3).
  { rewrite Hc2. exact Hb. }
  cbv zeta in Hb3, Hc3, Hp3, Hs3.
  rewrite Hb3, Hc3, Hp3, Hc2, Hs2, He2', Hs1, He1', Hb2, Hb1.
  rewrite Nat.min_0_l, Nat.max_0_l.
  change (str_take 0 ?b) with (substring 0 0 b). rewrite substring_none.
  rewrite str_drop_all, str_append_empty_r. cbn. auto.
Qed.

Lemma key_erase_empty (s : Selector) (k : Key) :
  inline_editing s = true ->
  text_selection_start s = text_selection_end s ->
  cursor_position s = 0%nat -> text_input_buffer s = "" ->
  k = Key_Backspace \/ k = Key_Delete ->
  keyPressEvent k NoModifier "" s = s.
Proof.
  intros He Hsel Hc Hb Hk.
  destruct Hk as [-> | ->]; unfold keyPressEvent, key_editing; rewrite He;
    key_consts; sel_red; rewrite Hsel; key_consts; sel_red; rewrite Hc, ?Hb; reflexivity.
Qed.

(** Ctrl+A and then Backspace or Delete leave an empty buffer with the
    cursor at 0. *)
Theorem select_all_erase (s : Selector) (k : Key) :
  inline_editing s = true ->
  k = Key_Backspace \/ k = Key_Delete ->
  let s' := run s [KeyPress Key_A ControlModifier ""; KeyPress k NoModifier ""] in
  text_input_buffer s' = "" /\ cursor_position s' = 0%nat /\
  text_selection_start s' = text_selection_end s'.
Proof.
  intros He Hk. cbv zeta. cbn [run foldl step].
  destruct (key_select_all s He) as (He1 & Hb1 & _ & Hs1 & He1' & Hc1).
  cbv zeta in He1, Hb1, Hs1, He1', Hc1.
  set (s1 := keyPressEvent Key_A ControlModifier "" s) in *.
  destruct (text_input_buffer s) as [|c b] eqn:Eb.
  - cbn [String.length] in He1', Hc1.
    rewrite (key_erase_empty s1 k) by (try assumption; congruence).
    rewrite Hs1, He1'. auto.
  - assert (Hn : text_selection_start s1 <> text_selection_end s1).
    { rewrite Hs1, He1'. cbn. lia. }
    destruct (key_erase_selection s1 k He1 Hn Hk) as (Hb2 & Hc2 & Hs2).
    cbv zeta in Hb2, Hc2, Hs2. rewrite Hb2, Hc2, Hs1, He1', Hb1.
    rewrite Nat.min_0_l, Nat.max_0_l.
    change (str_take 0 ?x) with (substring 0 0 x). rewrite substring_none.
    rewrite str_drop_all. auto.
Qed.

End Buffer.

(** In the session on a new text: [H] is typed, Shift+Left selects it, the
    input method commits [a]. *)
Lemma editing_keeps_bounds_witness :
  text_bounds
    (run Scenario.new_text
       [ KeyPress Key_other NoModifier "H";
         KeyPress Key_Left ShiftModifier "";
         InputMethod "a" "" ]).
Proof.
  apply (editing_keeps_bounds
           [ KeyPress Key_other NoModifier "H";
             KeyPress Key_Left ShiftModifier "";
             InputMethod "a" "" ] Scenario.new_text).
  - reflexivity.
  - vm_compute. repeat split; constructor.
Defined.

(** The text "Hi" is open with the cursor at its end; [!] is typed and
    erased. *)
Lemma type_then_backspace_witness :
  let s := Scenario.editing_hi in
  let typed := keyPressEvent Key_other NoModifier "!" s in
  let erased := keyPressEvent Key_Backspace NoModifier "" typed in
  text_input_buffer typed =
    str_take (cursor_position s) (text_input_buffer s) +:+ "!" +:+
    str_drop (cursor_position s) (text_input_buffer s) /\
  cursor_position typed = S (cursor_position s) /\
  text_input_buffer erased = text_input_buffer s /\
  cursor_position erased = cursor_position s.
Proof.
  apply (type_then_backspace Scenario.editing_hi "!"%char NoModifier NoModifier "").
  - reflexivity.
  - reflexivity.
  - vm_compute. repeat constructor.
  - reflexivity.
Defined.

Lemma select_all_copy_paste_witness :
  let s' := run Scenario.editing_hi
              [ KeyPress Key_A ControlModifier "";
                KeyPress Key_C ControlModifier "";
                KeyPress Key_V ControlModifier "" ] in
  text_input_buffer s' = text_input_buffer Scenario.editing_hi /\
  clipboard s' = text_input_buffer Scenario.editing_hi /\
  cursor_position s' = String.length (text_input_buffer Scenario.editing_hi) /\
  text_selection_start s' = text_selection_end s'.
Proof.
  apply (select_all_copy_paste Scenario.editing_hi).
  - reflexivity.
  - reflexivity.
Defined.

Lemma select_all_erase_witness :
  let s' := run Scenario.editing_hi
              [KeyPress Key_A ControlModifier ""; KeyPress Key_Delete NoModifier ""] in
  text_input_buffer s' = "" /\ cursor_position s' = 0%nat /\
  text_selection_start s' = text_selection_end s'.
Proof.
  apply (select_all_erase Scenario.editing_hi Key_Delete).
  - reflexivity.
  - right. reflexivity.
Defined.

(** ** The size of a finished selection *)

Section SelectionSize.

(** A selection is either being dragged out, or absent (the null rectangle
    of [__init__]), or has at least the minimum size. *)
Definition selection_sized (s : Selector) : Prop :=
  selecting s = true \/ selection_rect s = QRect.null \/
  (MIN_SELECTION_SIZE <= QRect.width (selection_rect s) /\
   MIN_SELECTION_SIZE <= QRect.height (selection_rect s)).

Lemma sized_and_then (f : Flow) (k : Selector -> Flow) :
  selection_sized (state_of f) ->
  (forall s, selection_sized s -> selection_sized (state_of (k s))) ->
  selection_sized (state_of (and_then f k)).
Proof. destruct f; cbn; auto. Qed.

(** The next statement of a handler. *)
Ltac sized_seq :=
  apply sized_and_then;
  [ | let s := fresh "s" in let H := fresh "H" in intros s H; cbv beta ].

Ltac sized_close :=
  unfold selection_sized in *; sel_red;
  first [ assumption
        | left; reflexivity
        | right; right; apply constrain_min_size
        | idtac ].

Lemma sized_finish_editing (s : Selector) :
  selection_sized s -> selection_sized (_finish_inline_text_editing s).
Proof. intros H. unfold _finish_inline_text_editing. run_handler; sized_close. Qed.

Lemma sized_start_editing (r : ref) (s : Selector) :
  selection_sized s -> selection_sized (_start_inline_text_editing r s).
Proof. intros H. unfold _start_inline_text_editing. cbv zeta. sized_close. Qed.

Lemma sized_handle_text_input (pos : QPoint) (s : Selector) :
  selection_sized s -> selection_sized (_handle_text_input pos s).
Proof.
  intros H. unfold _handle_text_input, _start_inline_text_editing, commit_item, py_append.
  run_handler; sized_close.
Qed.

Lemma sized_press_text_items (pos : QPoint) (items : list ref) (s : Selector) :
  selection_sized s -> selection_sized (state_of (press_text_items pos items s)).
Proof.
  intros H. induction items as [|item rest IH]; cbn [press_text_items]; [exact H|].
  unfold start_text_resize, start_long_press.
  run_handler; try exact IH; sized_close.
Qed.

Lemma sized_mousePressEvent (pos : QPoint) (t : Z) (s : Selector) :
  selection_sized s -> selection_sized (mousePressEvent pos t s).
Proof.
  intros H. unfold mousePressEvent.
  sized_seq.
  { pose proof (sized_finish_editing s H) as Hf.
    unfold press_while_editing, start_long_press. run_handler; try assumption; sized_close. }
  sized_seq.
  { unfold press_double_click.
    run_handler; try assumption; apply sized_start_editing; assumption. }
  sized_seq; [cbn [state_of]; sized_close|].
  sized_seq; [unfold press_drawing; run_handler; try assumption; sized_close|].
  sized_seq.
  { unfold press_selection.
    pose proof (sized_press_text_items pos (reverse (drawing_items s3)) s3 H3) as W.
    destruct (press_text_items pos (reverse (drawing_items s3)) s3) as [s4|s4];
      cbn [state_of] in W.
    all: run_handler; try assumption; sized_close. }
  unfold press_new_selection. cbn [state_of]. cbv zeta. sized_close.
Qed.

Lemma sized_mouseMoveEvent (pos : QPoint) (s : Selector) :
  selection_sized s -> selection_sized (mouseMoveEvent pos s).
Proof.
  intros H. unfold mouseMoveEvent.
  sized_seq; [run_handler; sized_close|].
  sized_seq; [run_handler; sized_close|].
  sized_seq; [run_handler; sized_close|].
  sized_seq; [unfold move_text_drag; run_handler; sized_close|].
  sized_seq; [unfold move_text_resize; run_handler; sized_close|].
  unfold _update_selection_rect, _resize_selection, resize_rect.
  run_handler; sized_close.
Qed.

Lemma sized_mouseReleaseEvent (pos : QPoint) (s : Selector) :
  selection_sized s -> selection_sized (mouseReleaseEvent pos s).
Proof.
  intros H. unfold mouseReleaseEvent.
  sized_seq; [run_handler; sized_close|].
  sized_seq; [run_handler; try assumption; apply sized_start_editing; assumption|].
  sized_seq; [run_handler; sized_close|].
  sized_seq; [run_handler; sized_close|].
  sized_seq; [unfold _start_inline_text_editing, commit_item, py_append;
              run_handler; sized_close|].
  sized_seq; [pose proof (sized_handle_text_input (text_tool_start_pos s4) s4 H4);
              run_handler; sized_close|].
  unfold _update_selection_rect.
  run_handler; sized_close.
Qed.

Lemma sized_keyPressEvent k m t (s : Selector) :
  selection_sized s -> selection_sized (keyPressEvent k m t s).
Proof.
  intros H. unfold keyPressEvent.
  pose proof (sized_finish_editing s H) as Hf.
  assert (Hc : selection_sized (_confirm_selection s)).
  { unfold _confirm_selection, close_app. cbv zeta. run_handler; sized_close. }
  assert (He : selection_sized (key_escape s)).
  { unfold key_escape, _cancel_selection, close_app.
    destruct (inline_editing s); [|sized_close].
    apply sized_finish_editing. run_handler; sized_close. }
  assert (Hk : selection_sized (key_editing k m t s)).
  { unfold key_editing, font_key, splice_text, collapse_selection, delete_selection.
    run_handler; sized_close. }
  unfold key_enter. run_handler; sized_close.
Qed.

Lemma sized_step (s : Selector) (e : Event) : selection_sized s -> selection_sized (step s e).
Proof.
  intros H. destruct e; cbn [step].
  - apply sized_mousePressEvent, H.
  - apply sized_mouseMoveEvent, H.
  - apply sized_mouseReleaseEvent, H.
  - unfold timer_timeout, _on_long_press_detected. run_handler; sized_close.
  - apply sized_keyPressEvent, H.
  - unfold inputMethodEvent, collapse_selection. run_handler; sized_close.
  - unfold paintEvent, _auto_expand_text_box. cbv zeta. run_handler; sized_close.
  - unfold _set_drawing_tool. sized_close.
  - unfold _set_drawing_color. sized_close.
  - unfold _set_brush_size, _auto_adjust_text_box_for_font_size. cbv zeta.
    run_handler; sized_close.
  - unfold _undo_drawing, py_append. run_handler; sized_close.
  - unfold _redo_drawing, py_append. run_handler; sized_close.
  - unfold _confirm_selection, close_app. cbv zeta. run_handler; sized_close.
  - unfold _save_selection, close_app. cbv zeta. run_handler; sized_close.
  - unfold _cancel_selection, close_app. sized_close.
  - sized_close.
Qed.

Lemma sized_run (es : list Event) (s : Selector) :
  selection_sized s -> selection_sized (run s es).
Proof.
  revert s. induction es as [|e es IH]; intros s H; cbn; [exact H|].
  apply IH, sized_step, H.
Qed.

(** Whatever the user does, a selection that is not being dragged out is
    either absent or at least 20 x 20 pixels. *)
Theorem finished_selection_min_size (screen : QRect) (s : Selector) :
  reachable screen s -> selecting s = false ->
  selection_rect s = QRect.null \/
  (MIN_SELECTION_SIZE <= QRect.width (selection_rect s) /\
   MIN_SELECTION_SIZE <= QRect.height (selection_rect s)).
Proof.
  intros [es ->] Hsel.
  assert (H : selection_sized (run (init screen) es)).
  { apply sized_run. right. left. reflexivity. }
  destruct H as [H|H]; [congruence | exact H].
Qed.

(** Copy and Save report the selection: with a selection on the overlay
    and no selection gesture under way, both close the overlay with the
    rectangle [(x, y, width, height)] of the selection, which is at least
    20 x 20; Copy hands over the composite cropped to the selection. *)
Theorem confirm_reports_selection (screen : QRect) (s : Selector) :
  reachable screen s -> selecting s = false ->
  QRect.isEmpty (selection_rect s) = false ->
  let rect := (QRect.x (selection_rect s), QRect.y (selection_rect s),
               QRect.width (selection_rect s), QRect.height (selection_rect s)) in
  MIN_SELECTION_SIZE <= QRect.width (selection_rect s) /\
  MIN_SELECTION_SIZE <= QRect.height (selection_rect s) /\
  closed (_confirm_selection s) = true /\
  result (_confirm_selection s) =
    Some (Copy rect (option_map (fun calls => mkComposite calls (selection_rect s))
                       (_create_composite_image s))) /\
  closed (_save_selection s) = true /\
  result (_save_selection s) = Some (Save rect).
Proof.
  intros Hr Hsel Hne. cbv zeta.
  destruct (finished_selection_min_size screen s Hr Hsel) as [Hnull|[Hw Hh]].
  { rewrite Hnull in Hne. discriminate. }
  assert (Hw0 : (QRect.width (selection_rect s) <=? 0) = false)
    by (apply Z.leb_gt; unfold MIN_SELECTION_SIZE in Hw; lia).
  assert (Hh0 : (QRect.height (selection_rect s) <=? 0) = false)
    by (apply Z.leb_gt; unfold MIN_SELECTION_SIZE in Hh; lia).
  unfold _confirm_selection, _save_selection, close_app. cbv zeta.
  rewrite Hne, Hw0, Hh0. cbn [negb orb]. sel_red.
  repeat split; assumption.
Qed.

End SelectionSize.

(** The selection of the runs above while it is dragged with the pointer. *)
Lemma finished_selection_min_size_witness :
  selection_rect Scenario.dragging_selection = QRect.null \/
  (MIN_SELECTION_SIZE <= QRect.width (selection_rect Scenario.dragging_selection) /\
   MIN_SELECTION_SIZE <= QRect.height (selection_rect Scenario.dragging_selection)).
Proof.
  apply (finished_selection_min_size Scenario.screen Scenario.dragging_selection).
  - eexists. reflexivity.
  - reflexivity.
Defined.

(** The text "Hi" in its selection, copied or saved. *)
Lemma confirm_reports_selection_witness :
  let s := Scenario.hi_selected in
  let rect := (QRect.x (selection_rect s), QRect.y (selection_rect s),
               QRect.width (selection_rect s), QRect.height (selection_rect s)) in
  MIN_SELECTION_SIZE <= QRect.width (selection_rect s) /\
  MIN_SELECTION_SIZE <= QRect.height (selection_rect s) /\
  closed (_confirm_selection s) = true /\
  result (_confirm_selection s) =
    Some (Copy rect (option_map (fun calls => mkComposite calls (selection_rect s))
                       (_create_composite_image s))) /\
  closed (_save_selection s) = true /\
  result (_save_selection s) = Some (Save rect).
Proof.
  apply (confirm_reports_selection Scenario.screen Scenario.hi_selected).
  - eexists. reflexivity.
  - reflexivity.
  - reflexivity.
Defined.

(** ** More on undo and redo *)

Section UndoRedo.

(** In every state the overlay can reach, no item occurs twice in the
    committed list, in the undo stack or in the redo stack, and an item on
    the redo stack is neither committed nor on the undo stack. *)
Theorem history_lists_distinct (screen : QRect) (s : Selector) :
  reachable screen s ->
  NoDup (drawing_items s) /\ NoDup (undo_stack s) /\ NoDup (redo_stack s) /\
  (forall r, r ∈ redo_stack s -> (r ∉ drawing_items s) /\ (r ∉ undo_stack s)).
Proof.
  intros Hr. pose proof (reachable_wf _ _ Hr) as W.
  split; [exact (wf_items_nodup _ _ _ _ _ W)|].
  split; [exact (wf_undo_nodup _ _ _ _ _ W)|].
  split; [exact (wf_redo_nodup _ _ _ _ _ W)|].
  intros r Hin. split; intros H.
  - exact (wf_items_redo _ _ _ _ _ W r H Hin).
  - exact (wf_undo_redo _ _ _ _ _ W r H Hin).
Qed.

(** Redo and then undo: the three lists are what they were. *)
Theorem redo_then_undo (screen : QRect) (s : Selector) :
  reachable screen s -> redo_stack s <> [] ->
  history_view (_undo_drawing (_redo_drawing s)) = history_view s.
Proof.
  intros Hr Hne. pose proof (reachable_wf _ _ Hr) as W.
  destruct (py_pop (redo_stack s)) as [[r R]|] eqn:E.
  - apply py_pop_Some in E.
    pose proof (redo_after_undo s R r E) as H1.
    destruct (history_view_eq _ _ _ _ H1) as (E1 & E2 & E3).
    assert (Hfresh : r ∉ drawing_items s).
    { intros Hin. apply (wf_items_redo _ _ _ _ _ W r Hin). rewrite E.
      apply elem_of_app. right. apply list_elem_of_singleton. reflexivity. }
    rewrite (undo_after_commit _ _ _ r E1 E2 Hfresh), E3.
    unfold history_view. rewrite E. reflexivity.
  - unfold py_pop in E. destruct (last (redo_stack s)) eqn:L; [discriminate|].
    apply last_None in L. contradiction.
Qed.

(** Every committed item can be undone: it is on the undo stack. *)
Definition undoable (items undo : list nat) : Prop :=
  forall r, r ∈ items -> r ∈ undo.

(** The invariant of the lists, with that. *)
Definition hist_view (n : nat) (items undo redo : list nat) (cur : option nat) : Prop :=
  wf_view n items undo redo cur /\ undoable items undo.

Definition hist (s : Selector) : Prop :=
  hist_view (length (heap s)) (drawing_items s) (undo_stack s) (redo_stack s)
    (current_drawing_item s).

Lemma py_remove_other (x y : nat) (l : list nat) : y ∈ l -> y <> x -> y ∈ py_remove x l.
Proof.
  induction l as [|z l IH]; cbn; intros Hin Hne; [exact Hin|].
  apply elem_of_cons in Hin as [->|Hin].
  - destruct (decide (x = z)); [congruence|]. apply list_elem_of_here.
  - destruct (decide (x = z)); [exact Hin|]. apply elem_of_cons. right. auto.
Qed.

Lemma py_remove_in_ne (x y : nat) (l : list nat) :
  NoDup l -> y ∈ py_remove x l -> y ∈ l /\ y <> x.
Proof.
  intros Hnd Hin. split; [eapply py_remove_elem_of, Hin|].
  intros ->. destruct (py_remove_NoDup x l Hnd) as [_ Hx]. contradiction.
Qed.

Lemma hist_view_no_current n items undo redo cur :
  hist_view n items undo redo cur -> hist_view n items undo redo None.
Proof. intros [W U]. split; [exact (wf_view_no_current _ _ _ _ _ W) | exact U]. Qed.

Lemma hist_view_remove_items n items undo redo cur x :
  hist_view n items undo redo cur -> hist_view n (py_remove x items) undo redo cur.
Proof.
  intros [W U]. split; [apply wf_view_remove_items, W|].
  intros r Hr. apply U. eapply py_remove_elem_of, Hr.
Qed.

Lemma hist_view_remove_both n items undo redo cur x :
  hist_view n items undo redo cur ->
  hist_view n (py_remove x items) (py_remove x undo) redo cur.
Proof.
  intros [W U]. split; [apply wf_view_remove_undo, wf_view_remove_items, W|].
  intros r Hr. apply (py_remove_in_ne _ _ _ (wf_items_nodup _ _ _ _ _ W)) in Hr as [Hr Hne].
  apply py_remove_other; auto.
Qed.

Lemma hist_view_remove_undo_absent n items undo redo cur x :
  py_in x items = false ->
  hist_view n items undo redo cur -> hist_view n items (py_remove x undo) redo cur.
Proof.
  intros Hx [W U]. split; [apply wf_view_remove_undo, W|].
  apply py_in_false in Hx.
  intros r Hr. apply py_remove_other; [auto|]. intros ->. contradiction.
Qed.

Lemma hist_view_new_current n items undo redo cur :
  hist_view n items undo redo cur -> hist_view (S n) items undo redo (Some n).
Proof. intros [W U]. split; [exact (wf_view_new_current _ _ _ _ _ W) | exact U]. Qed.

Lemma hist_view_mono n n' items undo redo cur :
  (n <= n')%nat -> hist_view n items undo redo cur -> hist_view n' items undo redo cur.
Proof. intros Hn [W U]. split; [eapply wf_view_mono; eauto | exact U]. Qed.

Lemma undoable_snoc (items undo : list nat) (x : nat) :
  undoable items undo -> undoable (items ++ [x]) (undo ++ [x]).
Proof.
  intros U r Hr. apply elem_of_snoc in Hr as [Hr| ->]; apply elem_of_snoc; auto.
Qed.

Lemma hist_view_commit_current n items undo redo r :
  hist_view n items undo redo (Some r) -> hist_view n (items ++ [r]) (undo ++ [r]) [] None.
Proof.
  intros [W U]. split; [exact (wf_view_commit_current _ _ _ _ _ W) | apply undoable_snoc, U].
Qed.

Lemma hist_view_commit_new n items undo redo cur :
  hist_view n items undo redo cur -> hist_view (S n) (items ++ [n]) (undo ++ [n]) [] cur.
Proof.
  intros [W U]. split; [exact (wf_view_commit_new _ _ _ _ _ W) | apply undoable_snoc, U].
Qed.

Lemma hist_view_undo n items undo redo cur x rest :
  py_pop undo = Some (x, rest) ->
  hist_view n items undo redo cur ->
  hist_view n (py_remove x items) rest (redo ++ [x]) cur.
Proof.
  intros Hpop [W U]. split; [eapply wf_view_undo; eauto|].
  apply py_pop_Some in Hpop as ->.
  intros r Hr. apply (py_remove_in_ne _ _ _ (wf_items_nodup _ _ _ _ _ W)) in Hr as [Hr Hne].
  apply U, elem_of_snoc in Hr as [Hr|Hr]; [exact Hr | contradiction].
Qed.

Lemma hist_view_redo n items undo redo cur x rest :
  py_pop redo = Some (x, rest) ->
  hist_view n items undo redo cur ->
  hist_view n (items ++ [x]) (undo ++ [x]) rest cur.
Proof.
  intros Hpop [W U]. split; [eapply wf_view_redo; eauto | apply undoable_snoc, U].
Qed.

Ltac hist_close :=
  unfold hist in *; sel_red;
  rewrite ?length_alter, ?length_app; cbn [length]; rewrite ?Nat.add_1_r;
  repeat match goal with
    | E : current_drawing_item ?s = _, W : context [current_drawing_item ?s] |- _ =>
        rewrite E in W
    end;
  use_eqs;
  eauto 3 using hist_view_no_current, hist_view_remove_items, hist_view_remove_both,
    hist_view_remove_undo_absent, hist_view_new_current, hist_view_commit_current,
    hist_view_commit_new.

Lemma hist_init (screen : QRect) : hist (init screen).
Proof.
  split; [apply wf_init|]. intros r Hr. cbn in Hr. apply elem_of_nil in Hr. contradiction.
Qed.

Lemma hist_start_editing (r : ref) (s : Selector) :
  hist s -> hist (_start_inline_text_editing r s).
Proof. intros H. unfold _start_inline_text_editing. hist_close. Qed.

Lemma hist_finish_editing (s : Selector) : hist s -> hist (_finish_inline_text_editing s).
Proof.
  intros H. unfold _finish_inline_text_editing. run_handler; hist_close.
Qed.

Lemma hist_undo_drawing (s : Selector) : hist s -> hist (_undo_drawing s).
Proof.
  intros H. unfold _undo_drawing, py_append.
  destruct (py_pop (undo_stack s)) as [[item rest]|] eqn:E; [|assumption].
  pose proof (hist_view_undo _ _ _ _ _ _ _ E H) as H1.
  run_handler; [hist_close|].
  apply py_in_false in Heqb. rewrite (py_remove_not_in _ _ Heqb) in H1. hist_close.
Qed.

Lemma hist_redo_drawing (s : Selector) : hist s -> hist (_redo_drawing s).
Proof.
  intros H. unfold _redo_drawing, py_append.
  destruct (py_pop (redo_stack s)) as [[item rest]|] eqn:E; [|assumption].
  pose proof (hist_view_redo _ _ _ _ _ _ _ E H) as H1.
  run_handler; hist_close.
Qed.

Lemma hist_handle_text_input (pos : QPoint) (s : Selector) :
  hist s -> hist (_handle_text_input pos s).
Proof.
  intros H. unfold _handle_text_input, _start_inline_text_editing, commit_item, py_append.
  run_handler; hist_close.
Qed.

Lemma hist_press_text_items (pos : QPoint) (items : list ref) (s : Selector) :
  hist s -> hist (state_of (press_text_items pos items s)).
Proof.
  intros H. induction items as [|item rest IH]; cbn [press_text_items]; [exact H|].
  unfold start_text_resize, start_long_press.
  run_handler; try exact IH; hist_close.
Qed.

Lemma hist_and_then (f : Flow) (k : Selector -> Flow) :
  hist (state_of f) -> (forall s, hist s -> hist (state_of (k s))) ->
  hist (state_of (and_then f k)).
Proof. destruct f; cbn; auto. Qed.

Ltac hist_seq :=
  apply hist_and_then;
  [ | let s := fresh "s" in let H := fresh "H" in intros s H; cbv beta ].

Lemma hist_mousePressEvent (pos : QPoint) (t : Z) (s : Selector) :
  hist s -> hist (mousePressEvent pos t s).
Proof.
  intros H. unfold mousePressEvent.
  hist_seq.
  { pose proof (hist_finish_editing s H) as Hf.
    unfold press_while_editing, start_long_press. run_handler; try assumption; hist_close. }
  hist_seq.
  { unfold press_double_click.
    run_handler; try assumption; apply hist_start_editing; assumption. }
  hist_seq; [cbn [state_of]; hist_close|].
  hist_seq; [unfold press_drawing; run_handler; try assumption; hist_close|].
  hist_seq.
  { unfold press_selection.
    pose proof (hist_press_text_items pos (reverse (drawing_items s3)) s3 H3) as W.
    destruct (press_text_items pos (reverse (drawing_items s3)) s3) as [s4|s4];
      cbn [state_of] in W.
    all: run_handler; try assumption; hist_close. }
  unfold press_new_selection. cbn [state_of]. cbv zeta. hist_close.
Qed.

Lemma hist_mouseMoveEvent (pos : QPoint) (s : Selector) :
  hist s -> hist (mouseMoveEvent pos s).
Proof.
  intros H. unfold mouseMoveEvent.
  hist_seq; [run_handler; hist_close|].
  hist_seq; [run_handler; hist_close|].
  hist_seq; [run_handler; hist_close|].
  hist_seq; [unfold move_text_drag; run_handler; hist_close|].
  hist_seq; [unfold move_text_resize; run_handler; hist_close|].
  unfold _update_selection_rect, _resize_selection.
  run_handler; hist_close.
Qed.

Lemma hist_mouseReleaseEvent (pos : QPoint) (s : Selector) :
  hist s -> hist (mouseReleaseEvent pos s).
Proof.
  intros H. unfold mouseReleaseEvent.
  hist_seq; [run_handler; hist_close|].
  hist_seq; [run_handler; try assumption; apply hist_start_editing; assumption|].
  hist_seq; [run_handler; hist_close|].
  hist_seq; [run_handler; hist_close|].
  hist_seq; [unfold _start_inline_text_editing, commit_item, py_append;
             run_handler; hist_close|].
  hist_seq; [pose proof (hist_handle_text_input (text_tool_start_pos s4) s4 H4);
             run_handler; hist_close|].
  unfold _update_selection_rect.
  run_handler; hist_close.
Qed.

Lemma hist_keyPressEvent k m t (s : Selector) : hist s -> hist (keyPressEvent k m t s).
Proof.
  intros H. unfold keyPressEvent.
  pose proof (hist_finish_editing s H) as Hf.
  assert (Hc : hist (_confirm_selection s)).
  { unfold _confirm_selection, close_app. cbv zeta. run_handler; hist_close. }
  assert (He : hist (key_escape s)).
  { unfold key_escape, _cancel_selection, close_app.
    destruct (inline_editing s); [|hist_close].
    apply hist_finish_editing. run_handler; hist_close. }
  assert (Hk : hist (key_editing k m t s)).
  { unfold key_editing, font_key, splice_text, collapse_selection, delete_selection.
    run_handler; hist_close. }
  unfold key_enter. run_handler; hist_close.
Qed.

Lemma hist_step (s : Selector) (e : Event) : hist s -> hist (step s e).
Proof.
  intros H. destruct e; cbn [step].
  - apply hist_mousePressEvent, H.
  - apply hist_mouseMoveEvent, H.
  - apply hist_mouseReleaseEvent, H.
  - unfold timer_timeout, _on_long_press_detected. run_handler; hist_close.
  - apply hist_keyPressEvent, H.
  - unfold inputMethodEvent, collapse_selection. run_handler; hist_close.
  - unfold paintEvent, _auto_expand_text_box. cbv zeta. run_handler; hist_close.
  - unfold _set_drawing_tool. hist_close.
  - unfold _set_drawing_color. hist_close.
  - unfold _set_brush_size, _auto_adjust_text_box_for_font_size. cbv zeta.
    run_handler; hist_close.
  - apply hist_undo_drawing, H.
  - apply hist_redo_drawing, H.
  - unfold _confirm_selection, close_app. cbv zeta. run_handler; hist_close.
  - unfold _save_selection, close_app. cbv zeta. run_handler; hist_close.
  - unfold _cancel_selection, close_app. hist_close.
  - hist_close.
Qed.

Lemma hist_run (es : list Event) (s : Selector) : hist s -> hist (run s es).
Proof.
  revert s. induction es as [|e es IH]; intros s H; cbn; [exact H|].
  apply IH, hist_step, H.
Qed.

(** Whatever the user does, every committed item is on the undo stack. *)
Theorem committed_items_undoable (screen : QRect) (s : Selector) (r : ref) :
  reachable screen s -> r ∈ drawing_items s -> r ∈ undo_stack s.
Proof.
  intros [es ->] Hr.
  destruct (hist_run es (init screen) (hist_init screen)) as [_ U]. apply U, Hr.
Qed.

Lemma undo_all (U : list ref) (s : Selector) :
  hist s -> undo_stack s = U ->
  let s' := run s (replicate (length U) UndoButton) in
  drawing_items s' = [] /\ undo_stack s' = [] /\
  redo_stack s' = redo_stack s ++ reverse U.
Proof.
  revert s. induction U as [|x U IH] using rev_ind; intros s H E; cbv zeta.
  - cbn. destruct H as [_ Hu]. rewrite E in *. repeat split.
    + destruct (drawing_items s) as [|y l]; [reflexivity|].
      specialize (Hu y (list_elem_of_here _ _)). apply elem_of_nil in Hu. contradiction.
    + rewrite app_nil_r. reflexivity.
  - rewrite length_app, Nat.add_1_r. cbn [replicate run foldl step].
    pose proof (hist_undo_drawing s H) as H1.
    assert (E1 : undo_stack (_undo_drawing s) = U /\
                 redo_stack (_undo_drawing s) = redo_stack s ++ [x]).
    { unfold _undo_drawing, py_append. rewrite E, py_pop_snoc. run_handler; auto. }
    destruct E1 as [E1 E2].
    destruct (IH _ H1 E1) as (I1 & I2 & I3). cbv zeta in I1, I2, I3.
    unfold run in *. rewrite I1, I2, I3, E2, reverse_app, <- app_assoc. auto.
Qed.

(** Undoing as many times as the undo stack is high leaves nothing drawn:
    the committed list and the undo stack are empty, and the redo stack has
    taken the undone items, the last committed one first. *)
Theorem undo_all_clears (screen : QRect) (s : Selector) :
  reachable screen s ->
  let s' := run s (replicate (length (undo_stack s)) UndoButton) in
  drawing_items s' = [] /\ undo_stack s' = [] /\
  redo_stack s' = redo_stack s ++ reverse (undo_stack s).
Proof.
  intros [es ->]. apply undo_all; [|reflexivity].
  apply hist_run, hist_init.
Qed.

End UndoRedo.

(** The arrow of the runs above, committed. *)
Lemma history_lists_distinct_witness :
  let s := run (init Scenario.screen) Scenario.draw_arrow in
  NoDup (drawing_items s) /\ NoDup (undo_stack s) /\ NoDup (redo_stack s) /\
  (forall r, r ∈ redo_stack s -> (r ∉ drawing_items s) /\ (r ∉ undo_stack s)).
Proof.
  apply (history_lists_distinct Scenario.screen (run (init Scenario.screen) Scenario.draw_arrow)).
  eexists. reflexivity.
Defined.

(** The arrow committed and undone: redo, then undo again. *)
Lemma redo_then_undo_witness :
  let s := run (init Scenario.screen) (Scenario.draw_arrow ++ [UndoButton]) in
  history_view (_undo_drawing (_redo_drawing s)) = history_view s.
Proof.
  apply (redo_then_undo Scenario.screen
           (run (init Scenario.screen) (Scenario.draw_arrow ++ [UndoButton]))).
  - eexists. reflexivity.
  - vm_compute. discriminate.
Defined.

Lemma committed_items_undoable_witness :
  0%nat ∈ undo_stack (run (init Scenario.screen) Scenario.draw_arrow).
Proof.
  apply (committed_items_undoable Scenario.screen
           (run (init Scenario.screen) Scenario.draw_arrow) 0%nat).
  - eexists. reflexivity.
  - vm_compute. apply list_elem_of_here.
Defined.

(** The text "Hi" and then an arrow in the same selection, all undone. *)
Lemma undo_all_clears_witness :
  let s := run (init Scenario.screen)
             (Scenario.type_hi ++
              [ ToolButton T_arrow;
                MousePress (mkQPoint 150 220) 1010000;
                MouseRelease (mkQPoint 250 220) ]) in
  let s' := run s (replicate (length (undo_stack s)) UndoButton) in
  drawing_items s' = [] /\ undo_stack s' = [] /\
  redo_stack s' = redo_stack s ++ reverse (undo_stack s).
Proof.
  apply (undo_all_clears Scenario.screen).
  eexists. reflexivity.
Defined.

(** A click of the text tool in the selection of the runs above. *)
Lemma text_click_undo_redo_roundtrip_witness :
  let s := run (init Scenario.screen) (Scenario.select_region ++ [ToolButton T_text]) in
  let committed := _handle_text_input (mkQPoint 110 110) s in
  let undone := _undo_drawing committed in
  let redone := _redo_drawing undone in
  (drawing_items undone = drawing_items s /\ undo_stack undone = undo_stack s) /\
  (drawing_items redone = drawing_items committed /\
   undo_stack redone = undo_stack committed).
Proof.
  apply (text_click_undo_redo_roundtrip Scenario.screen).
  eexists. reflexivity.
Defined.

(** ** What [draw] leaves on the device *)

Section Painting.

(** The pen a mark was drawn with; a fill has no outline. *)
Definition mark_pen (m : Mark) : QPen :=
  match m with
  | MLine p _ _ => p
  | MRect p _ _ => p
  | MEllipse p _ _ => p
  | MArrowhead p _ _ => p
  | MText p _ _ _ => p
  | MFill c _ => mkQPen c 0 NoPen false
  end.

(** The pen [draw] sets first: the colour and width of the item, solid,
    with round cap and join. *)
Definition outline_pen (it : DrawingItem) : QPen :=
  mkQPen (color it) (width it) SolidLine true.

Lemma paint_polyline (st : PainterState) (ps : list QPoint) :
  fst (paint st (polyline ps)) = st /\
  Forall (fun m => mark_pen m = cur_pen st) (snd (paint st (polyline ps))).
Proof.
  induction ps as [|a ps IH]; [split; [reflexivity | constructor]|].
  destruct ps as [|b rest]; [split; [reflexivity | constructor]|].
  change (polyline (a :: b :: rest)) with (drawLine a b :: polyline (b :: rest)).
  cbn [paint paint_step]. destruct IH as [IH1 IH2].
  destruct (paint st (polyline (b :: rest))) as [st2 m2]. cbn [fst snd] in *.
  split; [exact IH1|]. constructor; [reflexivity | exact IH2].
Qed.

(** A pen stroke, rectangle, circle or arrow is drawn entirely with the
    item's own colour and width, whatever pen the painter was left with
    by what was painted before. *)
Theorem shape_drawn_with_own_pen (st : PainterState) (dev : Device) (it : DrawingItem) :
  tool_type it <> T_text ->
  Forall (fun m => mark_pen m = outline_pen it) (snd (paint st (draw dev it))).
Proof.
  intros Htool. unfold draw. cbv zeta. cbn [app paint paint_step].
  destruct (tool_type it); try contradiction.
  - constructor.
  - destruct (1 <? length (points it))%nat; [|constructor].
    match goal with
    | |- context [paint ?st0 (polyline ?ps)] =>
        destruct (paint_polyline st0 ps) as [_ H]; destruct (paint st0 (polyline ps))
    end.
    exact H.
  - destruct (2 <=? length (points it))%nat; repeat constructor.
  - destruct (2 <=? length (points it))%nat; repeat constructor.
  - destruct (2 <=? length (points it))%nat; repeat constructor.
Qed.

(** An item with too few points leaves nothing on the device: fewer than
    two for a pen stroke, rectangle, circle or arrow, none for a text. *)
Theorem draw_too_few_points (st : PainterState) (dev : Device) (it : DrawingItem) :
  (length (points it) < (if bool_decide (tool_type it = T_text) then 1 else 2))%nat ->
  snd (paint st (draw dev it)) = [].
Proof.
  intros Hn. unfold draw. cbv zeta. cbn [app paint paint_step].
  destruct (tool_type it);
    first [ rewrite bool_decide_eq_true_2 in Hn by reflexivity
          | rewrite bool_decide_eq_false_2 in Hn by discriminate ];
    try reflexivity.
  - destruct (Nat.ltb_spec 1 (length (points it))); [lia | reflexivity].
  - destruct (Nat.leb_spec 2 (length (points it))); [lia | reflexivity].
  - destruct (Nat.leb_spec 2 (length (points it))); [lia | reflexivity].
  - destruct (Nat.leb_spec 2 (length (points it))); [lia | reflexivity].
  - destruct (Nat.leb_spec 1 (length (points it))); [lia | reflexivity].
Qed.

(** Painting an item leaves the font of the painter and its stack of saved
    states as they were: the [save()] of a text is matched by its
    [restore()]. *)
Theorem draw_keeps_font_and_stack (st : PainterState) (dev : Device) (it : DrawingItem) :
  cur_font (fst (paint st (draw dev it))) = cur_font st /\
  saved (fst (paint st (draw dev it))) = saved st.
Proof.
  unfold draw. cbv zeta. cbn [app paint paint_step].
  destruct (tool_type it).
  - split; reflexivity.
  - destruct (1 <? length (points it))%nat; [|split; reflexivity].
    match goal with
    | |- context [paint ?st0 (polyline ?ps)] =>
        destruct (paint_polyline st0 ps) as [H _]; destruct (paint st0 (polyline ps))
    end.
    cbn [fst] in *. subst. split; reflexivity.
  - destruct (2 <=? length (points it))%nat; split; reflexivity.
  - destruct (2 <=? length (points it))%nat; split; reflexivity.
  - destruct (2 <=? length (points it))%nat; split; reflexivity.
  - destruct (1 <=? length (points it))%nat; [|split; reflexivity].
    destruct dev as [| |v]; cbn [has_inline_editing];
      rewrite ?orb_true_r, ?orb_false_r;
      try destruct (negb (bool_decide (view_text_selection_start v = view_text_selection_end v)));
      try destruct (truthy (text_content it));
      destruct (2 <=? length (points it))%nat;
      split; reflexivity.
Qed.

End Painting.

(** The arrow from (150,150) to (250,150), painted after something that
    left the painter with the pen of the corner handles. *)
Lemma shape_drawn_with_own_pen_witness :
  let it := add_point (mkQPoint 250 150) Scenario.arrow_item in
  let st := mkPainterState (mkQPen QColor_handle 1 SolidLine false) NoBrush
              (mkQFont "" 9 false) [] in
  Forall (fun m => mark_pen m = outline_pen it) (snd (paint st (draw Pixmap it))).
Proof.
  apply (shape_drawn_with_own_pen _ Pixmap (add_point (mkQPoint 250 150) Scenario.arrow_item)).
  discriminate.
Defined.

(** The arrow as the press leaves it, with one point. *)
Lemma draw_too_few_points_witness :
  snd (paint painter_init (draw Overlay Scenario.arrow_item)) = [].
Proof.
  apply (draw_too_few_points painter_init Overlay Scenario.arrow_item).
  vm_compute. repeat constructor.
Defined.

(** ** Opening and closing a text *)

Section Session.

Lemma set_text_content_same (it : DrawingItem) : set_text_content (text_content it) it = it.
Proof. destruct it. reflexivity. Qed.

Lemma alter_same {A} (f : A -> A) (l : list A) (i : nat) (x : A) :
  l !! i = Some x -> f x = x -> alter f i l = l.
Proof.
  intros Hl Hf. apply list_eq. intros j.
  destruct (decide (i = j)) as [->|Hne].
  - rewrite list_lookup_alter_eq, Hl. cbn. rewrite Hf. reflexivity.
  - rewrite list_lookup_alter_ne by exact Hne. reflexivity.
Qed.

(** Opening a text that is not blank and closing it again without an input
    changes neither the item nor the lists: only the editing attributes are
    reset. *)
Theorem edit_session_roundtrip (s : Selector) (r : ref) (it : DrawingItem) :
  heap s !! r = Some it ->
  truthy (strip (text_content it)) = true ->
  _finish_inline_text_editing (_start_inline_text_editing r s) =
  s <| inline_editing := false |> <| editing_text_item := None |>
    <| text_input_buffer := "" |> <| cursor_position := 0%nat |>.
Proof.
  intros Hit Hne. unfold _start_inline_text_editing. rewrite Hit. cbv zeta.
  unfold _finish_inline_text_editing. sel_red. rewrite Hne. cbv zeta. sel_red.
  unfold update_item. sel_red.
  rewrite (alter_same _ _ _ _ Hit (set_text_content_same it)).
  reflexivity.
Qed.

(** Return or Enter on a buffer that is not blank ends the session and
    stores the buffer, as typed, in the item; the lists stay as they are
    and the overlay stays open. *)
Theorem enter_commits_text (s : Selector) (r : ref) (it : DrawingItem) (k : Key) m t :
  k = Key_Return \/ k = Key_Enter ->
  inline_editing s = true -> editing_text_item s = Some r ->
  heap s !! r = Some it ->
  truthy (strip (text_input_buffer s)) = true ->
  let s' := keyPressEvent k m t s in
  heap s' !! r = Some (set_text_content (text_input_buffer s) it) /\
  inline_editing s' = false /\ editing_text_item s' = None /\
  history_view s' = history_view s /\
  closed s' = closed s /\ result s' = result s.
Proof.
  intros Hk He Hr Hit Hne. cbv zeta.
  assert (E : keyPressEvent k m t s = _finish_inline_text_editing s).
  { destruct Hk as [-> | ->]; unfold keyPressEvent, key_enter; rewrite He; reflexivity. }
  rewrite E. unfold _finish_inline_text_editing. rewrite He, Hr, Hne. cbv zeta.
  unfold history_view. sel_red.
  rewrite list_lookup_alter_eq, Hit. repeat split.
Qed.

End Session.

(** The committed text "Hi" is opened and closed. *)
Lemma edit_session_roundtrip_witness :
  let s := Scenario.hi_selected in
  _finish_inline_text_editing (_start_inline_text_editing 0%nat s) =
  s <| inline_editing := false |> <| editing_text_item := None |>
    <| text_input_buffer := "" |> <| cursor_position := 0%nat |>.
Proof.
  apply (edit_session_roundtrip Scenario.hi_selected 0%nat Scenario.hi_item).
  - vm_compute. reflexivity.
  - reflexivity.
Defined.

(** The text "Hi" is open for editing; Return is pressed. *)
Lemma enter_commits_text_witness :
  let s := Scenario.editing_hi in
  let s' := keyPressEvent Key_Return NoModifier "" s in
  heap s' !! 0%nat = Some (set_text_content (text_input_buffer s) Scenario.hi_item) /\
  inline_editing s' = false /\ editing_text_item s' = None /\
  history_view s' = history_view s /\
  closed s' = closed s /\ result s' = result s.
Proof.
  apply (enter_commits_text Scenario.editing_hi 0%nat Scenario.hi_item Key_Return
           NoModifier "").
  - left. reflexivity.
  - reflexivity.
  - reflexivity.
  - vm_compute. reflexivity.
  - reflexivity.
Defined.

(** The input method commits [a] into the open text "Hi". *)
Lemma ime_commit_and_paste_witness :
  let s := Scenario.editing_hi in
  let ime := inputMethodEvent "a" "" s in
  let pasted := paste "a" s in
  text_input_buffer ime = text_input_buffer pasted /\
  cursor_position ime = cursor_position pasted /\
  preedit_text ime = "" /\
  preedit_cursor_pos ime = String.length "" /\
  (text_selection_start pasted = cursor_position pasted /\
   text_selection_end pasted = cursor_position pasted) /\
  (~ no_selection s ->
   text_selection_start ime = text_selection_start pasted /\
   text_selection_end ime = text_selection_end pasted) /\
  (no_selection s ->
   text_selection_start ime = text_selection_start s /\
   text_selection_end ime = text_selection_end s).
Proof.
  apply (ime_commit_and_paste Scenario.editing_hi "a" "").
  - reflexivity.
  - reflexivity.
Defined.

(** Up on the open text "Hi". *)
Lemma font_key_spec_witness :
  let s' := keyPressEvent Key_Up NoModifier "" Scenario.editing_hi in
  exists it',
    heap s' !! 0%nat = Some it' /\
    text_size_mode it' = M_custom /\
    custom_font_size it' = Z.min 100 (font_key_base Scenario.hi_item + 2) /\
    (8 <= font_key_base Scenario.hi_item <= 100 -> 8 <= custom_font_size it' <= 100).
Proof.
  apply (font_key_spec Scenario.editing_hi 0%nat Scenario.hi_item true NoModifier "").
  - reflexivity.
  - reflexivity.
  - vm_compute. reflexivity.
Defined.

(** ** Gestures on a text item *)

Section TextGestures.

(** What the keys leave alone: whether the overlay is closed, its result,
    and the selection. *)
Definition overlay_view (s : Selector) := (closed s, result s, selection_rect s).

Lemma overlay_finish_editing (s : Selector) :
  overlay_view (_finish_inline_text_editing s) = overlay_view s.
Proof. unfold _finish_inline_text_editing, overlay_view. run_handler; reflexivity. Qed.

(** While a text is edited no key closes the overlay, sets its result or
    touches the selection: Escape and Return end the editing session
    only. *)
Theorem editing_keys_keep_overlay (s : Selector) (k : Key) (m : Modifiers) (t : string) :
  inline_editing s = true ->
  overlay_view (keyPressEvent k m t s) = overlay_view s.
Proof.
  intros He. unfold keyPressEvent.
  assert (Hk : overlay_view (key_editing k m t s) = overlay_view s).
  { unfold key_editing, font_key, splice_text, collapse_selection, delete_selection,
      overlay_view.
    run_handler; reflexivity. }
  destruct k; rewrite ?He; try exact Hk.
  - unfold key_escape. rewrite He. rewrite overlay_finish_editing.
    unfold overlay_view. run_handler; reflexivity.
  - unfold key_enter. rewrite He. apply overlay_finish_editing.
  - unfold key_enter. rewrite He. apply overlay_finish_editing.
Qed.

(** While a corner of a text box is dragged, every pointer move leaves the
    box at least 20 pixels wide and high. *)
Theorem text_resize_min_size (s : Selector) (item : ref) (it : DrawingItem) (pos : QPoint) :
  drawing_mode s = false ->
  text_dragging s = false -> text_resizing s = true ->
  active_text_item s = Some item -> heap s !! item = Some it ->
  (2 <= length (points it))%nat ->
  exists it',
    heap (mouseMoveEvent pos s) !! item = Some it' /\
    MIN_SELECTION_SIZE <= QRect.width (item_rect it') /\
    MIN_SELECTION_SIZE <= QRect.height (item_rect it').
Proof.
  intros Hm Htd Htr Hact Hit Hlen.
  assert (Hlen' : (2 <=? length (points it))%nat = true) by (apply Nat.leb_le; lia).
  assert (E : heap (mouseMoveEvent pos s) = heap (move_text_resize item it pos s)).
  { unfold mouseMoveEvent, active_text_box. run_handler; reflexivity. }
  rewrite E. unfold move_text_resize. cbv zeta.
  match goal with
  | |- context [set_corners (_constrain_to_screen ?scr ?r)] =>
      pose proof (constrain_min_size scr r) as [Hw Hh];
      generalize dependent (_constrain_to_screen scr r)
  end.
  intros c Hw Hh. unfold update_item. sel_red.
  rewrite list_lookup_alter_eq, Hit. cbn [fmap option_fmap option_map].
  eexists. split; [reflexivity|].
  rewrite item_rect_set_corners; unfold MIN_SELECTION_SIZE in *; lia.
Qed.

(** A click on a text opens it: a press on the body of a text item and the
    release at the same point, with the select tool and outside a double
    click, start the editing of the first committed text whose box holds
    the point, with its content in the buffer and the cursor at its end. *)
Theorem click_opens_text (s : Selector) (pos : QPoint) (t : Z)
    (item r : ref) (it : DrawingItem) :
  inline_editing s = false ->
  double_click_threshold <= t - last_click_time s ->
  drawing_mode s = false -> current_tool s = T_select ->
  QRect.isEmpty (selection_rect s) = false ->
  press_target s pos = OnTextBody item ->
  QPoint.isNull pos = false ->
  find (editable_text_at s pos) (drawing_items s) = Some r ->
  heap s !! r = Some it ->
  let s' := mouseReleaseEvent pos (mousePressEvent pos t s) in
  inline_editing s' = true /\ editing_text_item s' = Some r /\
  text_input_buffer s' = text_content it /\
  cursor_position s' = String.length (text_content it).
Proof.
  intros He Hclick Hm Htool Hsel Htarget Hnull Hfind Hit. cbv zeta.
  assert (Hlt : (t - last_click_time s <? double_click_threshold) = false)
    by (apply Z.ltb_ge; exact Hclick).
  assert (Hpress : mousePressEvent pos t s =
                   start_long_press (OnItem item) pos
                     (s <| last_click_time := t |> <| last_click_pos := pos |>)).
  { unfold press_target, selection_handle_hit, topmost_text_hit in Htarget.
    unfold mousePressEvent, press_while_editing, press_double_click, press_drawing,
      press_selection.
    rewrite He. repeat flow_step. rewrite Hlt. cbn [andb].
    repeat flow_step. sel_red. rewrite Hm. cbn [andb negb].
    repeat flow_step. sel_red. rewrite Hsel. cbn [negb].
    destruct (find _ (_get_resize_handles _)) as [[h hr]|]; [discriminate|].
    cbn [fmap option_fmap option_map] in Htarget.
    destruct (QRect.contains (selection_rect s) pos); [|discriminate].
    rewrite press_text_items_spec.
    set (s1 := s <| last_click_time := t |> <| last_click_pos := pos |>).
    change (text_hit s1 pos) with (text_hit s pos).
    destruct (head _) as [[item' [c|]]|]; try discriminate.
    injection Htarget as ->. reflexivity. }
  rewrite Hpress. clear Hpress.
  assert (Hd : QPoint.manhattanLength (QPoint.sub pos pos) = 0).
  { destruct pos as [px py]. unfold QPoint.manhattanLength, QPoint.sub. cbn [qx qy].
    rewrite !Z.sub_diag. reflexivity. }
  unfold mouseReleaseEvent, start_long_press. repeat flow_step. sel_red.
  change (editable_text_at _ pos) with (editable_text_at s pos).
  rewrite Hnull, Hd, Hfind. cbn [negb andb Z.ltb Z.compare].
  repeat flow_step. unfold _start_inline_text_editing. sel_red.
  rewrite Hit.
  destruct (text_dragging s || text_resizing s).
  - repeat flow_step. repeat split; reflexivity.
  - repeat first [ flow_step | progress sel_red | rewrite Hm | rewrite Htool
                 | rewrite bool_decide_eq_false_2 by discriminate ].
    run_handler; repeat split; reflexivity.
Qed.

End TextGestures.

(** Escape on the open text "Hi". *)
Lemma editing_keys_keep_overlay_witness :
  overlay_view (keyPressEvent Key_Escape NoModifier "" Scenario.editing_hi) =
  overlay_view Scenario.editing_hi.
Proof.
  apply (editing_keys_keep_overlay Scenario.editing_hi Key_Escape NoModifier "").
  reflexivity.
Defined.

(** The top-left corner of the text "Hi" is pressed and dragged far past
    the opposite corner. *)
Lemma text_resize_min_size_witness :
  let s := mousePressEvent (mkQPoint 112 112) 1010000 Scenario.hi_selected in
  exists it',
    heap (mouseMoveEvent (mkQPoint 700 500) s) !! 0%nat = Some it' /\
    MIN_SELECTION_SIZE <= QRect.width (item_rect it') /\
    MIN_SELECTION_SIZE <= QRect.height (item_rect it').
Proof.
  apply (text_resize_min_size
           (mousePressEvent (mkQPoint 112 112) 1010000 Scenario.hi_selected) 0%nat
           (set_was_manually_resized true Scenario.hi_item) (mkQPoint 700 500)).
  - reflexivity.
  - reflexivity.
  - reflexivity.
  - reflexivity.
  - vm_compute. reflexivity.
  - vm_compute. repeat constructor.
Defined.

(** A click at (200,150) on the text "Hi". *)
Lemma click_opens_text_witness :
  let s' := mouseReleaseEvent (mkQPoint 200 150)
              (mousePressEvent (mkQPoint 200 150) 1010000 Scenario.hi_selected) in
  inline_editing s' = true /\ editing_text_item s' = Some 0%nat /\
  text_input_buffer s' = text_content Scenario.hi_item /\
  cursor_position s' = String.length (text_content Scenario.hi_item).
Proof.
  apply (click_opens_text Scenario.hi_selected (mkQPoint 200 150) 1010000 0%nat 0%nat
           Scenario.hi_item).
  - reflexivity.
  - vm_compute. discriminate.
  - reflexivity.
  - reflexivity.
  - reflexivity.
  - vm_compute. reflexivity.
  - reflexivity.
  - vm_compute. reflexivity.
  - vm_compute. reflexivity.
Defined.

(** ** The text box while its text is typed *)

Section BoxGrowth.

Lemma item_rect_two_points (it : DrawingItem) (c : QRect) :
  points it = [QRect.topLeft c; QRect.bottomRight c] ->
  0 <= QRect.width c -> 0 <= QRect.height c ->
  item_rect it = c.
Proof.
  intros Hp Hw Hh. unfold item_rect, first_point, last_point. rewrite Hp.
  cbn [head last default from_option].
  transitivity (QRect.normalized c); [destruct c; reflexivity|].
  apply normalized_id; assumption.
Qed.

Lemma item_rect_size_nonneg (it : DrawingItem) :
  -1 <= QRect.width (item_rect it) - 1 /\ -1 <= QRect.height (item_rect it) - 1.
Proof.
  unfold item_rect. generalize (QRect.pts (first_point it) (last_point it)). intros r.
  destruct r as [x1 y1 x2 y2]. unfold QRect.normalized, QRect.width, QRect.height.
  cbn [rx1 ry1 rx2 ry2].
  destruct (Z.ltb_spec x2 (x1 - 1)), (Z.ltb_spec y2 (y1 - 1)); cbn [rx1 ry1 rx2 ry2]; lia.
Qed.

Lemma size_setWidth (w : Z) (r : QRect) :
  QRect.width (QRect.setWidth w r) = w /\ QRect.height (QRect.setWidth w r) = QRect.height r.
Proof.
  destruct r as [x1 y1 x2 y2]. unfold QRect.width, QRect.height, QRect.setWidth.
  cbn [rx1 ry1 rx2 ry2]. lia.
Qed.

Lemma size_setHeight (h : Z) (r : QRect) :
  QRect.width (QRect.setHeight h r) = QRect.width r /\ QRect.height (QRect.setHeight h r) = h.
Proof.
  destruct r as [x1 y1 x2 y2]. unfold QRect.width, QRect.height, QRect.setHeight.
  cbn [rx1 ry1 rx2 ry2]. lia.
Qed.

(** [_auto_expand_text_box] on a text box of two points grows the box to
    the size the text needs, 20 pixels more than its bounds each way, and
    never shrinks it: the new width and height are the larger of the old
    ones and the needed ones. *)
Theorem auto_expand_fits (s : Selector) (r : ref) (it : DrawingItem)
    (bounds : QSize) (text : string) :
  heap s !! r = Some it -> length (points it) = 2%nat ->
  truthy text = true ->
  0 <= size_w bounds -> 0 <= size_h bounds ->
  exists it',
    heap (_auto_expand_text_box r bounds text s) !! r = Some it' /\
    QRect.width (item_rect it') = Z.max (QRect.width (item_rect it)) (size_w bounds + 20) /\
    QRect.height (item_rect it') = Z.max (QRect.height (item_rect it)) (size_h bounds + 20).
Proof.
  intros Hit Hlen Ht Hbw Hbh.
  unfold _auto_expand_text_box. rewrite Hit, Ht, Hlen. cbn [negb orb Nat.ltb Nat.leb].
  cbv zeta.
  destruct (item_rect_size_nonneg it) as [Hcw Hch].
  set (cur := item_rect it) in *.
  destruct (Z.ltb_spec (QRect.width cur) (size_w bounds + 20)) as [Hw|Hw];
    destruct (Z.ltb_spec (QRect.height cur) (size_h bounds + 20)) as [Hh|Hh];
    cbn [orb].
  4: { exists it. split; [exact Hit|]. fold cur. lia. }
  all: match goal with
       | |- context [_constrain_to_screen ?scr ?nr] =>
           destruct (constrain_size scr nr) as [Cw Ch];
           assert (Nw : QRect.width nr = Z.max (QRect.width cur) (size_w bounds + 20))
             by (repeat first [ rewrite (proj1 (size_setHeight _ _))
                              | rewrite (proj1 (size_setWidth _ _)) ]; lia);
           assert (Nh : QRect.height nr = Z.max (QRect.height cur) (size_h bounds + 20))
             by (repeat first [ rewrite (proj2 (size_setHeight _ _))
                              | rewrite (proj2 (size_setWidth _ _)) ]; lia);
           rewrite Nw in Cw; rewrite Nh in Ch;
           generalize dependent (_constrain_to_screen scr nr)
       end.
  all: intros c Cw Ch; unfold MIN_SELECTION_SIZE in *.
  all: unfold update_item; sel_red; rewrite list_lookup_alter_eq, Hit;
       cbn [fmap option_fmap option_map]; eexists; (split; [reflexivity|]).
  all: destruct (points it) as [|p0 [|p1 [|p2 ps]]] eqn:Hp; try discriminate.
  all: rewrite (item_rect_two_points _ c); [lia | reflexivity | lia | lia].
Qed.

(** The item [_auto_expand_text_box] leaves in the store is the one
    [draw] measures for the item under edit. *)
Lemma auto_expand_text_box_item (s : Selector) (r : ref) (it : DrawingItem)
    (bounds : QSize) (text : string) :
  heap s !! r = Some it ->
  heap (_auto_expand_text_box r bounds text s) !! r
  = Some (auto_expand_item (screen_rect s) bounds text it).
Proof.
  intros Hit. unfold _auto_expand_text_box, auto_expand_item. rewrite Hit. cbv zeta.
  destruct (negb (truthy text) || (length (points it) <? 2)%nat); [exact Hit|].
  destruct (_ || _); [|exact Hit].
  unfold update_item. sel_red. rewrite list_lookup_alter_eq, Hit. reflexivity.
Qed.

End BoxGrowth.

(** The new, empty text box of the runs above (251 x 81) and a text 300
    pixels wide and 20 high. *)
Lemma auto_expand_fits_witness :
  let it := set_text_content "" Scenario.hi_item in
  exists it',
    heap (_auto_expand_text_box 0%nat (mkQSize 300 20) "x" Scenario.new_text) !! 0%nat
      = Some it' /\
    QRect.width (item_rect it') = Z.max (QRect.width (item_rect it)) (300 + 20) /\
    QRect.height (item_rect it') = Z.max (QRect.height (item_rect it)) (20 + 20).
Proof.
  apply (auto_expand_fits Scenario.new_text 0%nat (set_text_content "" Scenario.hi_item)
           (mkQSize 300 20) "x").
  - vm_compute. reflexivity.
  - reflexivity.
  - reflexivity.
  - vm_compute. discriminate.
  - vm_compute. discriminate.
Defined.

(** ** The long press on a text *)

Section LongPress.

(** A long press drags and does not edit: with the select tool, outside a
    double click, a press on the body of a text item followed by the
    time-out of the long-press timer starts the drag of that item from the
    pressed point; the release then ends the drag, opens no text for
    editing and leaves every item and every list as it was. *)
Theorem long_press_drags_text (s : Selector) (pos : QPoint) (t : Z) (item : ref) :
  inline_editing s = false ->
  double_click_threshold <= t - last_click_time s ->
  drawing_mode s = false ->
  QRect.isEmpty (selection_rect s) = false ->
  press_target s pos = OnTextBody item ->
  let held := timer_timeout (mousePressEvent pos t s) in
  let released := mouseReleaseEvent pos held in
  (text_dragging held = true /\ active_text_item held = Some item /\
   text_drag_start held = pos) /\
  (text_dragging released = false /\ active_text_item released = None /\
   inline_editing released = false /\ heap released = heap s /\
   history_view released = history_view s).
Proof.
  intros He Hclick Hm Hsel Htarget. cbv zeta.
  assert (Hlt : (t - last_click_time s <? double_click_threshold) = false)
    by (apply Z.ltb_ge; exact Hclick).
  assert (Hpress : mousePressEvent pos t s =
                   start_long_press (OnItem item) pos
                     (s <| last_click_time := t |> <| last_click_pos := pos |>)).
  { unfold press_target, selection_handle_hit, topmost_text_hit in Htarget.
    unfold mousePressEvent, press_while_editing, press_double_click, press_drawing,
      press_selection.
    rewrite He. repeat flow_step. rewrite Hlt. cbn [andb].
    repeat flow_step. sel_red. rewrite Hm. cbn [andb negb].
    repeat flow_step. sel_red. rewrite Hsel. cbn [negb].
    destruct (find _ (_get_resize_handles _)) as [[h hr]|]; [discriminate|].
    cbn [fmap option_fmap option_map] in Htarget.
    destruct (QRect.contains (selection_rect s) pos); [|discriminate].
    rewrite press_text_items_spec.
    set (s1 := s <| last_click_time := t |> <| last_click_pos := pos |>).
    change (text_hit s1 pos) with (text_hit s pos).
    destruct (head _) as [[item' [c|]]|]; try discriminate.
    injection Htarget as ->. reflexivity. }
  rewrite Hpress. clear Hpress.
  unfold timer_timeout, start_long_press, _on_long_press_detected. sel_red. cbv zeta. sel_red.
  split; [repeat split; reflexivity|].
  unfold mouseReleaseEvent, history_view. repeat flow_step. sel_red.
  lazy beta iota delta [and_then state_of]. sel_red. rewrite He. repeat split; reflexivity.
Qed.

End LongPress.

(** A long press at (200,150) on the text "Hi", then the release. *)
Lemma long_press_drags_text_witness :
  let s := Scenario.hi_selected in
  let held := timer_timeout (mousePressEvent (mkQPoint 200 150) 1010000 s) in
  let released := mouseReleaseEvent (mkQPoint 200 150) held in
  (text_dragging held = true /\ active_text_item held = Some 0%nat /\
   text_drag_start held = mkQPoint 200 150) /\
  (text_dragging released = false /\ active_text_item released = None /\
   inline_editing released = false /\ heap released = heap s /\
   history_view released = history_view s).
Proof.
  apply (long_press_drags_text Scenario.hi_selected (mkQPoint 200 150) 1010000 0%nat).
  - reflexivity.
  - vm_compute. discriminate.
  - reflexivity.
  - reflexivity.
  - vm_compute. reflexivity.
Defined.

(** ** The size badge *)

Section Badge.

(** [_draw_info_overlay]: the rectangle of the badge that shows the size
    of the selection, when it is drawn; [text_rect] is the size of
    [painter.fontMetrics().boundingRect(info_text)]. *)
Definition _draw_info_overlay (s : Selector) (text_rect : QSize) : option QRect :=
  let w := QRect.width (selection_rect s) in
  let h := QRect.height (selection_rect s) in
  if (w <? 10) || (h <? 10) then None
  else
    let padding := 8 in
    let badge_w := size_w text_rect + padding * 2 in
    let badge_h := size_h text_rect + padding in
    let x := QRect.left (selection_rect s) in
    let y := QRect.top (selection_rect s) - badge_h - 8 in
    let y := if y <? 10 then QRect.top (selection_rect s) + 8 else y in
    let x := Z.max 10 (Z.min x (QRect.width (screen_rect s) - badge_w - 10)) in
    let y := Z.max 10 (Z.min y (QRect.height (screen_rect s) - badge_h - 10)) in
    Some (QRect.xywh x y badge_w badge_h).

(** For a selection that is not being dragged out, the size badge is
    drawn, with the size of its text plus the padding, and on a widget
    with room for it it keeps 10 pixels from every edge of the widget. *)
Theorem badge_on_widget (screen : QRect) (s : Selector) (text_rect : QSize) :
  reachable screen s -> selecting s = false ->
  QRect.isEmpty (selection_rect s) = false ->
  size_w text_rect + 36 <= QRect.width (screen_rect s) ->
  size_h text_rect + 28 <= QRect.height (screen_rect s) ->
  exists badge,
    _draw_info_overlay s text_rect = Some badge /\
    QRect.width badge = size_w text_rect + 16 /\
    QRect.height badge = size_h text_rect + 8 /\
    10 <= QRect.left badge /\ 10 <= QRect.top badge /\
    QRect.right badge < QRect.width (screen_rect s) - 10 /\
    QRect.bottom badge < QRect.height (screen_rect s) - 10.
Proof.
  intros Hr Hsel Hne Hw Hh.
  destruct (finished_selection_min_size screen s Hr Hsel) as [Hnull|[Sw Sh]].
  { rewrite Hnull in Hne. discriminate. }
  unfold MIN_SELECTION_SIZE in *.
  unfold _draw_info_overlay. cbv zeta.
  destruct (Z.ltb_spec (QRect.width (selection_rect s)) 10); [lia|].
  destruct (Z.ltb_spec (QRect.height (selection_rect s)) 10); [lia|].
  cbn [orb]. eexists. split; [reflexivity|].
  unfold QRect.xywh, QRect.width, QRect.height, QRect.left, QRect.top, QRect.right,
    QRect.bottom in *.
  cbn [rx1 ry1 rx2 ry2].
  match goal with
  | |- context [if ?c then _ else _] => destruct c
  end; lia.
Qed.

End Badge.

(** The selection of the runs above and a badge text of 60 x 14 pixels. *)
Lemma badge_on_widget_witness :
  exists badge,
    _draw_info_overlay Scenario.hi_selected (mkQSize 60 14) = Some badge /\
    QRect.width badge = 60 + 16 /\
    QRect.height badge = 14 + 8 /\
    10 <= QRect.left badge /\ 10 <= QRect.top badge /\
    QRect.right badge < QRect.width (screen_rect Scenario.hi_selected) - 10 /\
    QRect.bottom badge < QRect.height (screen_rect Scenario.hi_selected) - 10.
Proof.
  apply (badge_on_widget Scenario.screen Scenario.hi_selected (mkQSize 60 14)).
  - eexists. reflexivity.
  - reflexivity.
  - reflexivity.
  - vm_compute. discriminate.
  - vm_compute. discriminate.
Defined.
